(** * Coordinator swap-quote consumer: approval aggregation

    A shallow embedding of
    [packages/asset-swapper/src/quote_consumers/coordinator_swap_quote_consumer.ts].

    The file holds two revisions of the class [CoordinatorSwapQuoteConsumer]:
    - the revision at lines 1-235 probes the taker's contract code before
      signing and delegates approval gathering to the coordinator wrapper;
    - the revision at lines 236-530 always signs through the provider and
      gathers the approvals itself in [_getCoordinatorApprovalsAsync].

    [getSmartContractParamsOrThrowAsync] is the same in both.  Everything the
    class reaches through [this._contractWrappers], [this.provider] and the
    imported utilities is a collaborator whose code is elsewhere; those are the
    fields of the record [Collaborators] below. *)

From Stdlib Require Import String Ascii List ZArith Bool Permutation Lia.
Import ListNotations.
Local Open Scope string_scope.
Local Open Scope list_scope.

(** ** JavaScript values used by the class *)

Module Js.

(** An object used as a dictionary: its own string-keyed properties in
    insertion order.  A key that occurs again further down the list is
    shadowed by its first occurrence, so every list denotes an object. *)
Definition Object (V : Type) := list (string * V).

(** [obj[k]] among the own keys: [None] stands for [undefined].  Names
    inherited from [Object.prototype] are not looked up. *)
Fixpoint get {V} (obj : Object V) (k : string) : option V :=
  match obj with
  | [] => None
  | (k', v) :: rest => if String.eqb k' k then Some v else get rest k
  end.

(** [Object.keys(obj)]: each key once, in insertion order. *)
Fixpoint keys {V} (obj : Object V) : list string :=
  match obj with
  | [] => []
  | (k, _) :: rest => k :: filter (fun k' => negb (String.eqb k' k)) (keys rest)
  end.

(** The property values in the order of [Object.keys]. *)
Definition values {V} (obj : Object V) : list V :=
  flat_map (fun k => match get obj k with Some v => [v] | None => [] end) (keys obj).

(** An array element that is either a plain value or itself an array. *)
Inductive Nested (A : Type) :=
| Elem (a : A)
| Arr (l : list A).
Arguments Elem {A} a.
Arguments Arr {A} l.

(** [xs.concat(ys)] with an array argument: the elements of [ys] are
    appended, one level only. *)
Definition concat {A} (xs ys : list A) : list A := xs ++ ys.

(** [Array(n).fill(v)]. *)
Definition fill {A} (n : nat) (v : A) : list A := repeat v n.

(** lodash [flatten]: one level; elements that are not arrays are kept. *)
Definition flatten {A} (xs : list (Nested A)) : list A :=
  flat_map (fun x => match x with Elem a => [a] | Arr l => l end) xs.

End Js.

(** ** Data model *)

Inductive MarketOperation := Buy | Sell.

(** [SignatureType] of [@0x/types]; the class names [Wallet] only. *)
Inductive SignatureType := EIP712 | EthSign | Wallet | Validator | PreSigned.

Module SignedOrder.
Record t := mk {
  makerAddress : string;
  takerAddress : string;
  feeRecipientAddress : string;
  senderAddress : string;
  salt : Z;
  signature : string
}.
End SignedOrder.

(** [SwapQuote] is a union discriminated by [type]. *)
Module SwapQuote.
Inductive t :=
| MarketBuy (orders feeOrders : list SignedOrder.t) (makerAssetFillAmount : Z)
| MarketSell (orders feeOrders : list SignedOrder.t) (takerAssetFillAmount : Z).

Definition orders (q : t) : list SignedOrder.t :=
  match q with MarketBuy o _ _ | MarketSell o _ _ => o end.
Definition feeOrders (q : t) : list SignedOrder.t :=
  match q with MarketBuy _ f _ | MarketSell _ f _ => f end.
Definition type (q : t) : MarketOperation :=
  match q with MarketBuy _ _ _ => Buy | MarketSell _ _ _ => Sell end.
End SwapQuote.

(** [ExchangeSmartContractParams], likewise discriminated by [type]. *)
Module Params.
Inductive t :=
| MarketBuy (orders : list SignedOrder.t) (signatures : list string)
    (makerAssetFillAmount : Z)
| MarketSell (orders : list SignedOrder.t) (signatures : list string)
    (takerAssetFillAmount : Z).

Definition orders (p : t) : list SignedOrder.t :=
  match p with MarketBuy o _ _ | MarketSell o _ _ => o end.
Definition signatures (p : t) : list string :=
  match p with MarketBuy _ s _ | MarketSell _ s _ => s end.
Definition type (p : t) : MarketOperation :=
  match p with MarketBuy _ _ _ => Buy | MarketSell _ _ _ => Sell end.
End Params.

Module MethodAbi.
Record t := mk { name : string; inputs : list string }.
End MethodAbi.

Module ParamsInfo.
Record t := mk {
  params : Params.t;
  toAddress : string;
  methodAbi : option MethodAbi.t
}.
End ParamsInfo.

Module Opts.
Record t := mk { takerAddress : option string }.
End Opts.

Module ZeroExTransaction.
Record t := mk {
  salt : Z;
  signerAddress : string;
  data : string;
  verifyingContractAddress : string
}.
End ZeroExTransaction.

Module SignedZeroExTransaction.
Record t := mk {
  salt : Z;
  signerAddress : string;
  data : string;
  verifyingContractAddress : string;
  signature : string
}.

(** [{ ...transaction, signature }] *)
Definition ofTransaction (tx : ZeroExTransaction.t) (sig : string) : t :=
  mk (ZeroExTransaction.salt tx) (ZeroExTransaction.signerAddress tx)
     (ZeroExTransaction.data tx) (ZeroExTransaction.verifyingContractAddress tx) sig.
End SignedZeroExTransaction.

(** The value a coordinator server sends as [expirationTimeSeconds]: one
    timestamp, or (as the specification also allows) a list of them. *)
Inductive Expiration :=
| Timestamp (t : Z)
| Timestamps (ts : list Z).

Module RawApproval.
Record t := mk {
  signatures : list string;
  expirationTimeSeconds : Expiration
}.
End RawApproval.

Module Approval.
Record t := mk {
  signatures : list string;
  expirationTimeSeconds : list Expiration
}.
End Approval.

Module Response.
Record t := mk {
  isError : bool;
  status : Z;
  body : option RawApproval.t;
  error : option string;
  (** used as a property key, hence read as a string *)
  coordinatorOperator : string
}.
End Response.

(** [{ ...resp, orders }] *)
Module ErrorWithOrders.
Record t := mk {
  response : Response.t;
  orders : option (list SignedOrder.t)
}.
End ErrorWithOrders.

Module Cancellation.
Record t := mk { cancellationSignatures : list string }.
End Cancellation.

Inductive CoordinatorServerErrorMsg := FillFailed.

(** What a call can throw: a plain JavaScript error, or the structured
    [CoordinatorServerError]. An absent order ([undefined]) is [None]. *)
Inductive Thrown :=
| JsError (message : string)
| CoordinatorServerError (message : CoordinatorServerErrorMsg)
    (approvedOrders : list (option SignedOrder.t))
    (cancellations : list Cancellation.t)
    (errors : list ErrorWithOrders.t).

Module Approvals.
Record t := mk {
  coordinatorApprovalSignatures : list string;
  coordinatorExpirationTimes : list Expiration;
  signedZeroExTransaction : SignedZeroExTransaction.t
}.
End Approvals.

(** ** Collaborators and the calls made to them *)

(** Calls that leave the process: to the node, the signer, the registry and
    the coordinator servers. *)
Inductive Event :=
| ContractCodeRequested (address : string)
| SignatureRequested (transaction : ZeroExTransaction.t) (signer : string)
| EndpointsRequested (coordinatorOrders : list SignedOrder.t)
| ApprovalRequested (transaction : SignedZeroExTransaction.t)
    (txOrigin endpoint : string).

(** [World] is the state of everything outside the class.  A collaborator that
    is awaited either resolves with a value or rejects with an error message. *)
Record Collaborators (World : Type) := {
  coordinatorAddress : string;
  exchangeAddress : string;
  isValidSwapQuote : SwapQuote.t -> bool;
  isETHAddressHex : string -> bool;
  optimizeOrdersForMarketExchangeOperation :
    list SignedOrder.t -> MarketOperation -> list SignedOrder.t;
  getMethodAbiFromContractAbi : string -> option MethodAbi.t;
  marketBuyOrdersNoThrow : list SignedOrder.t -> Z -> list string -> string;
  marketSellOrdersNoThrow : list SignedOrder.t -> Z -> list string -> string;
  convertToSignatureWithType : string -> SignatureType -> string;
  generatePseudoRandomSalt : World -> World * Z;
  getContractCodeAsync : string -> World -> World * (string + string);
  ecSignTransactionAsync :
    ZeroExTransaction.t -> string -> World ->
    World * (string + SignedZeroExTransaction.t);
  _mapServerEndpointsToOrdersAsync :
    list SignedOrder.t -> World ->
    World * (string + Js.Object (list SignedOrder.t));
  _executeServerRequestAsync :
    SignedZeroExTransaction.t -> string -> string -> World ->
    World * (string + Response.t)
}.
Arguments coordinatorAddress {World} _.
Arguments exchangeAddress {World} _.
Arguments isValidSwapQuote {World} _ _.
Arguments isETHAddressHex {World} _ _.
Arguments optimizeOrdersForMarketExchangeOperation {World} _ _ _.
Arguments getMethodAbiFromContractAbi {World} _ _.
Arguments marketBuyOrdersNoThrow {World} _ _ _ _.
Arguments marketSellOrdersNoThrow {World} _ _ _ _.
Arguments convertToSignatureWithType {World} _ _ _.
Arguments generatePseudoRandomSalt {World} _ _.
Arguments getContractCodeAsync {World} _ _ _.
Arguments ecSignTransactionAsync {World} _ _ _ _.
Arguments _mapServerEndpointsToOrdersAsync {World} _ _ _.
Arguments _executeServerRequestAsync {World} _ _ _ _ _.

(** ** The monad of the class: outside state, call log, exceptions *)

Module State.
Record t (World : Type) := mk { world : World; trace : list Event }.
Arguments mk {World} _ _.
Arguments world {World} _.
Arguments trace {World} _.
End State.

Definition M (World A : Type) : Type :=
  State.t World -> State.t World * (Thrown + A).

Definition ret {World A} (a : A) : M World A := fun s => (s, inr a).

Definition throw {World A} (e : Thrown) : M World A := fun s => (s, inl e).

Definition bind {World A B} (c : M World A) (k : A -> M World B) : M World B :=
  fun s =>
    match c s with
    | (s', inr a) => k a s'
    | (s', inl e) => (s', inl e)
    end.

Declare Scope js_scope.
Delimit Scope js_scope with js.
Notation "x <- c ;; k" := (bind c (fun x => k))
  (at level 100, c at next level, right associativity) : js_scope.
Notation "c ;;; k" := (bind c (fun _ => k))
  (at level 100, right associativity) : js_scope.

(** An awaited call to a collaborator: logged, and a rejection is rethrown. *)
Definition await {World A} (ev : Event) (call : World -> World * (string + A))
  : M World A :=
  fun s =>
    let (w', r) := call (State.world s) in
    (State.mk w' (State.trace s ++ [ev]),
     match r with inl msg => inl (JsError msg) | inr a => inr a end).

(** A local computation that reads the outside state but is not a call out. *)
Definition local {World A} (f : World -> World * A) : M World A :=
  fun s =>
    let (w', a) := f (State.world s) in
    (State.mk w' (State.trace s), inr a).

(** [assert.*]: throws when the check fails. *)
Definition assert {World} (ok : bool) (message : string) : M World unit :=
  if ok then ret tt else throw (JsError message).

(** ** The class *)

Section CoordinatorSwapQuoteConsumer.

Context {World : Type}.
Variable ext : Collaborators World.

Local Open Scope js_scope.

(** *** [getSmartContractParamsOrThrowAsync] (lines 59-108 and 298-347) *)

Definition getSmartContractParamsOrThrowAsync (quote : SwapQuote.t) (_opts : Opts.t)
  : M World ParamsInfo.t :=
  assert (isValidSwapQuote ext quote) "quote" ;;;
  let orders := SwapQuote.orders quote in
  let signatures := map SignedOrder.signature orders in
  let optimizedOrders :=
    optimizeOrdersForMarketExchangeOperation ext orders (SwapQuote.type quote) in
  let '(params, methodName) :=
    match quote with
    | SwapQuote.MarketBuy _ _ makerAssetFillAmount =>
        (Params.MarketBuy optimizedOrders signatures makerAssetFillAmount,
         "marketBuyOrders"%string)
    | SwapQuote.MarketSell _ _ takerAssetFillAmount =>
        (Params.MarketSell optimizedOrders signatures takerAssetFillAmount,
         "marketSellOrders"%string)
    end in
  let methodAbi := getMethodAbiFromContractAbi ext methodName in
  ret (ParamsInfo.mk params (exchangeAddress ext) methodAbi).

(** *** [_getCoordinatorZeroExTransactionAsync] *)

(** The part both revisions share (lines 175-203 and 414-442): the checks,
    the encoded operation and the unsigned transaction. *)
Definition buildZeroExTransaction (quote : SwapQuote.t) (opts : Opts.t)
  : M World (ZeroExTransaction.t * string) :=
  assert (isValidSwapQuote ext quote) "quote" ;;;
  takerAddress <-
    match Opts.takerAddress opts with
    | Some a => assert (isETHAddressHex ext a) "opts.takerAddress" ;;; ret a
    | None => throw (JsError "opts.takerAddress")
    end ;;
  info <- getSmartContractParamsOrThrowAsync quote opts ;;
  let zeroExOperation :=
    match ParamsInfo.params info with
    | Params.MarketBuy orders signatures makerAssetFillAmount =>
        marketBuyOrdersNoThrow ext orders makerAssetFillAmount signatures
    | Params.MarketSell orders signatures takerAssetFillAmount =>
        marketSellOrdersNoThrow ext orders takerAssetFillAmount signatures
    end in
  salt <- local (generatePseudoRandomSalt ext) ;;
  ret (ZeroExTransaction.mk salt takerAddress zeroExOperation (exchangeAddress ext),
       takerAddress).

(** Lines 171-234: a taker with contract code gets the [Wallet] marker and
    the provider is not asked to sign. *)
Definition _getCoordinatorZeroExTransactionAsync (quote : SwapQuote.t) (opts : Opts.t)
  : M World SignedZeroExTransaction.t :=
  built <- buildZeroExTransaction quote opts ;;
  let '(transaction, takerAddress) := built in
  contractCode <-
    await (ContractCodeRequested takerAddress) (getContractCodeAsync ext takerAddress) ;;
  if String.eqb contractCode "0x" || String.eqb contractCode "0x00" then
    await (SignatureRequested transaction takerAddress)
          (ecSignTransactionAsync ext transaction takerAddress)
  else
    let signature := convertToSignatureWithType ext "0x00" Wallet in
    ret (SignedZeroExTransaction.ofTransaction transaction signature).

(** Lines 410-449, the other revision: the provider always signs. *)
Definition _getCoordinatorZeroExTransactionAsync_providerOnly
  (quote : SwapQuote.t) (opts : Opts.t) : M World SignedZeroExTransaction.t :=
  built <- buildZeroExTransaction quote opts ;;
  let '(transaction, takerAddress) := built in
  await (SignatureRequested transaction takerAddress)
        (ecSignTransactionAsync ext transaction takerAddress).

(** *** [_getCoordinatorApprovalsAsync] (lines 450-530) *)

Definition coordinatorOrders (signedOrders : list SignedOrder.t) : list SignedOrder.t :=
  filter (fun o => String.eqb (SignedOrder.senderAddress o) (coordinatorAddress ext))
         signedOrders.

Definition notCoordinatorOrders (signedOrders : list SignedOrder.t)
  : list SignedOrder.t :=
  filter (fun o => negb (String.eqb (SignedOrder.senderAddress o)
                                    (coordinatorAddress ext)))
         signedOrders.

(** The [for ... of Object.keys(serverEndpointsToOrders)] loop. *)
Fixpoint requestApprovals (signedZeroExTransaction : SignedZeroExTransaction.t)
  (txOrigin : string) (endpoints : list string)
  (errorResponses approvalResponses : list Response.t)
  : M World (list Response.t * list Response.t) :=
  match endpoints with
  | [] => ret (errorResponses, approvalResponses)
  | endpoint :: rest =>
      response <-
        await (ApprovalRequested signedZeroExTransaction txOrigin endpoint)
              (_executeServerRequestAsync ext signedZeroExTransaction txOrigin endpoint) ;;
      if Response.isError response then
        requestApprovals signedZeroExTransaction txOrigin rest
                         (errorResponses ++ [response]) approvalResponses
      else
        requestApprovals signedZeroExTransaction txOrigin rest
                         errorResponses (approvalResponses ++ [response])
  end.

Definition formatRawResponse (rawResponse : RawApproval.t) : Approval.t :=
  Approval.mk
    (Js.concat [] (RawApproval.signatures rawResponse))
    (Js.concat []
       (Js.fill (length (RawApproval.signatures rawResponse))
                (RawApproval.expirationTimeSeconds rawResponse))).

(** [approvalResponses.map(resp => formatRawResponse(resp.body))]: reading
    [signatures] of an absent body is a [TypeError]. *)
Fixpoint formatAll (approvalResponses : list Response.t) : Thrown + list Approval.t :=
  match approvalResponses with
  | [] => inr []
  | resp :: rest =>
      match Response.body resp with
      | None => inl (JsError "TypeError: cannot read property signatures of undefined")
      | Some rawResponse =>
          match formatAll rest with
          | inl e => inl e
          | inr formatted => inr (formatRawResponse rawResponse :: formatted)
          end
      end
  end.

(** The [if (errorResponses.length === 0)] branch. *)
Definition concatenateApprovals (signedZeroExTransaction : SignedZeroExTransaction.t)
  (approvalResponses : list Response.t) : Thrown + Approvals.t :=
  match formatAll approvalResponses with
  | inl e => inl e
  | inr allApprovals =>
      let allSignatures :=
        Js.flatten (map (fun a => Js.Arr (Approval.signatures a)) allApprovals) in
      let allExpirationTimes :=
        Js.flatten (map (fun a => Js.Arr (Approval.expirationTimeSeconds a)) allApprovals) in
      inr (Approvals.mk allSignatures allExpirationTimes signedZeroExTransaction)
  end.

(** [serverEndpointsToOrders[resp.coordinatorOperator]] as an array element. *)
Definition ordersOf (serverEndpointsToOrders : Js.Object (list SignedOrder.t))
  (resp : Response.t) : option (list SignedOrder.t) :=
  Js.get serverEndpointsToOrders (Response.coordinatorOperator resp).

Definition asElement (orders : option (list SignedOrder.t))
  : Js.Nested (option SignedOrder.t) :=
  match orders with
  | Some l => Js.Arr (map Some l)
  | None => Js.Elem None
  end.

Definition approvedOrdersOf (signedOrders : list SignedOrder.t)
  (serverEndpointsToOrders : Js.Object (list SignedOrder.t))
  (approvalResponses : list Response.t) : list (option SignedOrder.t) :=
  let approvedOrdersNested :=
    map (fun resp => asElement (ordersOf serverEndpointsToOrders resp))
        approvalResponses in
  Js.flatten
    (Js.concat approvedOrdersNested
       (map (fun o => Js.Elem (Some o)) (notCoordinatorOrders signedOrders))).

Definition errorsWithOrdersOf
  (serverEndpointsToOrders : Js.Object (list SignedOrder.t))
  (errorResponses : list Response.t) : list ErrorWithOrders.t :=
  map (fun resp => ErrorWithOrders.mk resp (ordersOf serverEndpointsToOrders resp))
      errorResponses.

(** The [else] branch: always throws. *)
Definition fillFailed (signedOrders : list SignedOrder.t)
  (serverEndpointsToOrders : Js.Object (list SignedOrder.t))
  (errorResponses approvalResponses : list Response.t) : Thrown :=
  let approvedOrders :=
    approvedOrdersOf signedOrders serverEndpointsToOrders approvalResponses in
  let errorsWithOrders := errorsWithOrdersOf serverEndpointsToOrders errorResponses in
  let cancellations : list Cancellation.t := [] in
  CoordinatorServerError FillFailed approvedOrders cancellations errorsWithOrders.

(** Everything after the loop. *)
Definition combineResponses (signedOrders : list SignedOrder.t)
  (signedZeroExTransaction : SignedZeroExTransaction.t)
  (serverEndpointsToOrders : Js.Object (list SignedOrder.t))
  (errorResponses approvalResponses : list Response.t) : Thrown + Approvals.t :=
  if Nat.eqb (length errorResponses) 0 then
    concatenateApprovals signedZeroExTransaction approvalResponses
  else
    inl (fillFailed signedOrders serverEndpointsToOrders errorResponses approvalResponses).

Definition _getCoordinatorApprovalsAsync (signedOrders : list SignedOrder.t)
  (signedZeroExTransaction : SignedZeroExTransaction.t) : M World Approvals.t :=
  let coordinatorOrders := coordinatorOrders signedOrders in
  serverEndpointsToOrders <-
    await (EndpointsRequested coordinatorOrders)
          (_mapServerEndpointsToOrdersAsync ext coordinatorOrders) ;;
  let txOrigin := SignedZeroExTransaction.signerAddress signedZeroExTransaction in
  responses <-
    requestApprovals signedZeroExTransaction txOrigin
                     (Js.keys serverEndpointsToOrders) [] [] ;;
  let '(errorResponses, approvalResponses) := responses in
  match combineResponses signedOrders signedZeroExTransaction serverEndpointsToOrders
                         errorResponses approvalResponses with
  | inl e => throw e
  | inr approvals => ret approvals
  end.

End CoordinatorSwapQuoteConsumer.

(** ** Runs of the fan-out, and what is assumed of the collaborators *)

(** [answered ext tx origin endpoints w resps w']: asked in this order from the
    outside state [w], every endpoint resolved with the response at the same
    position of [resps], leaving the outside in [w']. *)
Inductive answered {World} (ext : Collaborators World)
  (signedZeroExTransaction : SignedZeroExTransaction.t) (txOrigin : string)
  : list string -> World -> list Response.t -> World -> Prop :=
| answered_nil w :
    answered ext signedZeroExTransaction txOrigin [] w [] w
| answered_cons endpoint rest w w1 w2 resp resps :
    _executeServerRequestAsync ext signedZeroExTransaction txOrigin endpoint w
      = (w1, inr resp) ->
    answered ext signedZeroExTransaction txOrigin rest w1 resps w2 ->
    answered ext signedZeroExTransaction txOrigin (endpoint :: rest) w
             (resp :: resps) w2.

(** Each response names the endpoint it came from. *)
Definition attributed (endpoints : list string) (resps : list Response.t) : Prop :=
  map Response.coordinatorOperator resps = endpoints.

(** The groups of the mapping hold exactly the given orders. *)
Definition partitions (serverEndpointsToOrders : Js.Object (list SignedOrder.t))
  (orders : list SignedOrder.t) : Prop :=
  Permutation (List.concat (Js.values serverEndpointsToOrders)) orders.

(** The order group of an endpoint, empty for an endpoint without one. *)
Definition groupOf (serverEndpointsToOrders : Js.Object (list SignedOrder.t))
  (endpoint : string) : list SignedOrder.t :=
  match Js.get serverEndpointsToOrders endpoint with
  | Some orders => orders
  | None => []
  end.

Definition approving (resps : list Response.t) : list Response.t :=
  filter (fun r => negb (Response.isError r)) resps.

Definition refusing (resps : list Response.t) : list Response.t :=
  filter Response.isError resps.

(** The endpoints that were sent an approval request, in the order of the log. *)
Definition requestedEndpoints (events : list Event) : list string :=
  flat_map (fun ev => match ev with
                      | ApprovalRequested _ _ endpoint => [endpoint]
                      | _ => []
                      end) events.

Definition signatureRequests (events : list Event) : list Event :=
  filter (fun ev => match ev with SignatureRequested _ _ => true | _ => false end)
         events.

(** ** Reading the specification's words *)

(** Case normalisation of an address, as the specification has it. *)
Definition toLowerAscii (c : ascii) : ascii :=
  let n := nat_of_ascii c in
  if Nat.leb 65 n && Nat.leb n 90 then ascii_of_nat (n + 32) else c.

Fixpoint toLowerCase (s : string) : string :=
  match s with
  | EmptyString => EmptyString
  | String c rest => String (toLowerAscii c) (toLowerCase rest)
  end.

(** The normalisation the specification describes: a shared timestamp once per
    signature, a list of timestamps as it is. *)
Definition pairedExpirations (rawResponse : RawApproval.t) : list Expiration :=
  match RawApproval.expirationTimeSeconds rawResponse with
  | Timestamp t => repeat (Timestamp t) (length (RawApproval.signatures rawResponse))
  | Timestamps ts => map Timestamp ts
  end.

(** Signatures and orders of the parameters line up position by position. *)
Definition aligned (p : Params.t) : Prop :=
  map SignedOrder.signature (Params.orders p) = Params.signatures p.

(** ** The grouping of the coordinator wrapper *)

Fixpoint pushOrder (endpoint : string) (o : SignedOrder.t)
  (obj : Js.Object (list SignedOrder.t)) : Js.Object (list SignedOrder.t) :=
  match obj with
  | [] => [(endpoint, [o])]
  | (k, orders) :: rest =>
      if String.eqb k endpoint then (k, orders ++ [o]) :: rest
      else (k, orders) :: pushOrder endpoint o rest
  end.

(** Modelled from the spec: [_mapServerEndpointsToOrdersAsync] of the
    coordinator wrapper is not among the sources.  Section 3 has the mapping go
    from the authority's network address to the orders naming that authority,
    with unique keys and every group in batch order; [endpointOf] is the
    registry lookup of section 6. *)
Definition groupByEndpoint (endpointOf : SignedOrder.t -> string)
  (orders : list SignedOrder.t) : Js.Object (list SignedOrder.t) :=
  fold_left (fun obj o => pushOrder (endpointOf o) o obj) orders [].

(** ** A scripted outside world *)

(** Collaborators without state: a fixed registry, servers that answer by
    endpoint, a node that reports the same code for every address. *)
Definition scripted (coordinator : string)
  (optimize : list SignedOrder.t -> MarketOperation -> list SignedOrder.t)
  (contractCode : string) (endpointOf : SignedOrder.t -> string)
  (respond : string -> Response.t) : Collaborators unit :=
  {| coordinatorAddress := coordinator;
     exchangeAddress := "0xe0";
     isValidSwapQuote := fun _ => true;
     isETHAddressHex := fun _ => true;
     optimizeOrdersForMarketExchangeOperation := optimize;
     getMethodAbiFromContractAbi := fun name => Some (MethodAbi.mk name []);
     marketBuyOrdersNoThrow := fun _ _ _ => "0xb0";
     marketSellOrdersNoThrow := fun _ _ _ => "0x50";
     convertToSignatureWithType :=
       fun sig ty =>
         String.append sig
           match ty with
           | EIP712 => "02" | EthSign => "03" | Wallet => "04"
           | Validator => "05" | PreSigned => "06"
           end;
     generatePseudoRandomSalt := fun w => (w, 42%Z);
     getContractCodeAsync := fun _ w => (w, inr contractCode);
     ecSignTransactionAsync :=
       fun tx _ w => (w, inr (SignedZeroExTransaction.ofTransaction tx "0x1c03"));
     _mapServerEndpointsToOrdersAsync :=
       fun orders w => (w, inr (groupByEndpoint endpointOf orders));
     _executeServerRequestAsync := fun _ _ endpoint w => (w, inr (respond endpoint)) |}.

Definition coordinator0 : string := "0xc0c0".

Definition registry (o : SignedOrder.t) : string :=
  if String.eqb (SignedOrder.feeRecipientAddress o) "0xf1"
  then "https://x.example" else "https://y.example".

Definition orderA : SignedOrder.t :=
  SignedOrder.mk "0xa1" "0x00" "0xf1" coordinator0 1 "0x5a".
Definition orderB : SignedOrder.t :=
  SignedOrder.mk "0xb1" "0x00" "0xf2" coordinator0 2 "0x5b".
Definition orderC : SignedOrder.t :=
  SignedOrder.mk "0xc1" "0x00" "0x00" "0x00" 3 "0x5c".
Definition orderD : SignedOrder.t :=
  SignedOrder.mk "0xd1" "0x00" "0xf1" "0xC0C0" 4 "0x5d".

Definition approve (signatures : list string) (endpoint : string) : Response.t :=
  Response.mk false 200
    (Some (RawApproval.mk signatures (Timestamp 1600000000))) None endpoint.

Definition refuse (endpoint : string) : Response.t :=
  Response.mk true 400 None (Some "unreachable") endpoint.

(** X approves with one signature, Y refuses. *)
Definition xApprovesYRefuses (endpoint : string) : Response.t :=
  if String.eqb endpoint "https://x.example"
  then approve ["0xaa"] endpoint else refuse endpoint.

(** Every server approves with one signature. *)
Definition allApprove (endpoint : string) : Response.t := approve ["0xaa"] endpoint.

(** Every server approves with two signatures, whatever it was asked about. *)
Definition allApproveTwice (endpoint : string) : Response.t :=
  approve ["0xaa"; "0xab"] endpoint.

Definition keepOrder (orders : list SignedOrder.t) (_ : MarketOperation)
  : list SignedOrder.t := orders.

Definition reverseOrder (orders : list SignedOrder.t) (_ : MarketOperation)
  : list SignedOrder.t := rev orders.

Definition partialRefusal : Collaborators unit :=
  scripted coordinator0 keepOrder "0x" registry xApprovesYRefuses.

Definition fullApproval : Collaborators unit :=
  scripted coordinator0 keepOrder "0x" registry allApprove.

Definition doubleApproval : Collaborators unit :=
  scripted coordinator0 keepOrder "0x" registry allApproveTwice.

Definition contractTaker : Collaborators unit :=
  scripted coordinator0 keepOrder "0x6080" registry allApprove.

Definition reordering : Collaborators unit :=
  scripted coordinator0 reverseOrder "0x" registry allApprove.

Definition transaction0 : SignedZeroExTransaction.t :=
  SignedZeroExTransaction.mk 42 "0x7a" "0xb0" "0xe0" "0x1c03".

Definition start : State.t unit := State.mk tt [].

Definition quote0 : SwapQuote.t := SwapQuote.MarketBuy [orderA; orderB] [] 10.

Definition opts0 : Opts.t := Opts.mk (Some "0x7a"%string).

(** ** The callers: calldata and execution *)

(** [CalldataInfo]; an absent [ethAmount] is [None]. *)
Module CalldataInfo.
Record t := mk {
  calldataHexString : string;
  methodAbi : option MethodAbi.t;
  toAddress : string;
  ethAmount : option Z
}.
End CalldataInfo.

(** [Partial<SwapQuoteExecutionOptsBase>], as far as the class reads it. *)
Module ExecutionOpts.
Record t := mk {
  takerAddress : option string;
  gasLimit : option Z;
  gasPrice : option Z
}.

(** The same object seen as [Partial<SwapQuoteGetOutputOptsBase>]. *)
Definition toOpts (o : t) : Opts.t := Opts.mk (takerAddress o).
End ExecutionOpts.

(** What the wrapper's [getCoordinatorApprovalsAsync] resolves with. *)
Module WrapperApprovals.
Record t := mk {
  coordinatorSignatures : list string;
  coordinatorExpirationTimes : list Expiration
}.
End WrapperApprovals.

(** The two effectful methods of [coordinator.executeTransaction], with the
    arguments they are given; [from] is the [from] of the last argument. *)
Module ContractCall.
Record args := mkArgs {
  transaction : SignedZeroExTransaction.t;
  txOrigin : string;
  transactionSignature : string;
  approvalExpirationTimeSeconds : list Expiration;
  approvalSignatures : list string;
  from : string
}.

Inductive t :=
| Called (a : args)
| Sent (a : args).
End ContractCall.

(** The collaborators of the two callers: the wrapper method the first
    revision delegates to, the coordinator contract, two more checks of
    [assert], the string constants of [SwapQuoteConsumerError] and
    [RevertReason], and the [message] of a [CoordinatorServerError]. *)
Record Imports (World : Type) := {
  getCoordinatorApprovalsAsync :
    list SignedOrder.t -> SignedZeroExTransaction.t -> World ->
    World * (Thrown + WrapperApprovals.t);
  executeTransaction_getABIEncodedTransactionData :
    SignedZeroExTransaction.t -> string -> string -> list Expiration ->
    list string -> string;
  executeTransaction_callAsync :
    ContractCall.args -> World -> World * (string + unit);
  executeTransaction_sendTransactionAsync :
    ContractCall.args -> World -> World * (string + string);
  isNumber : Z -> bool;
  isBigNumber : Z -> bool;
  SignatureRequestDenied : string;
  TransactionValueTooLow : string;
  CompleteFillFailed : string;
  messageText : CoordinatorServerErrorMsg -> string
}.
Arguments getCoordinatorApprovalsAsync {World} _ _ _ _.
Arguments executeTransaction_getABIEncodedTransactionData {World} _ _ _ _ _ _.
Arguments executeTransaction_callAsync {World} _ _ _.
Arguments executeTransaction_sendTransactionAsync {World} _ _ _.
Arguments isNumber {World} _ _.
Arguments isBigNumber {World} _ _.
Arguments SignatureRequestDenied {World} _.
Arguments TransactionValueTooLow {World} _.
Arguments CompleteFillFailed {World} _.
Arguments messageText {World} _ _.

(** lodash [includes] on a string: is [value] a substring of [collection]. *)
Definition includes (collection value : string) : bool :=
  match String.index 0 value collection with
  | Some _ => true
  | None => false
  end.

(** An awaited call that is not in the log of the class and may reject with
    any error. *)
Definition perform {World A} (call : World -> World * (Thrown + A)) : M World A :=
  fun s =>
    let (w', r) := call (State.world s) in
    (State.mk w' (State.trace s), r).

(** Execution also keeps the calls made to the coordinator contract. *)
Module Session.
Record t (World : Type) := mk {
  state : State.t World;
  calls : list ContractCall.t
}.
Arguments mk {World} _ _.
Arguments state {World} _.
Arguments calls {World} _.
End Session.

Definition X (World A : Type) : Type :=
  Session.t World -> Session.t World * (Thrown + A).

Definition retX {World A} (a : A) : X World A := fun x => (x, inr a).

Definition throwX {World A} (e : Thrown) : X World A := fun x => (x, inl e).

Definition bindX {World A B} (c : X World A) (k : A -> X World B) : X World B :=
  fun x =>
    match c x with
    | (x', inr a) => k a x'
    | (x', inl e) => (x', inl e)
    end.

Declare Scope exec_scope.
Delimit Scope exec_scope with exec.
Notation "x <- c ;; k" := (bindX c (fun x => k))
  (at level 100, c at next level, right associativity) : exec_scope.
Notation "c ;;; k" := (bindX c (fun _ => k))
  (at level 100, right associativity) : exec_scope.

Definition liftX {World A} (c : M World A) : X World A :=
  fun x =>
    let (s', r) := c (Session.state x) in
    (Session.mk s' (Session.calls x), r).

(** An awaited method of the coordinator contract. *)
Definition awaitContract {World A} (call : ContractCall.t)
  (method : World -> World * (string + A)) : X World A :=
  fun x =>
    let (w', r) := method (State.world (Session.state x)) in
    (Session.mk (State.mk w' (State.trace (Session.state x)))
                (Session.calls x ++ [call]),
     match r with inl msg => inl (JsError msg) | inr a => inr a end).

(** [try { body } catch (err) { handler }] *)
Definition tryCatch {World A} (body : X World A) (handler : Thrown -> X World A)
  : X World A :=
  fun x =>
    match body x with
    | (x', inl err) => handler err x'
    | (x', inr a) => (x', inr a)
    end.

Section Callers.

Context {World : Type}.
Variable ext : Collaborators World.
Variable imp : Imports World.

(** [err.message] *)
Definition messageOf (err : Thrown) : string :=
  match err with
  | JsError message => message
  | CoordinatorServerError message _ _ _ => messageText imp message
  end.

(** What the [catch] block of [executeSwapQuoteOrThrowAsync] throws. *)
Definition translateError (err : Thrown) : Thrown :=
  if includes (messageOf err) "SIGNATURE_REQUEST_DENIED" then
    JsError (SignatureRequestDenied imp)
  else if includes (messageOf err) (CompleteFillFailed imp) then
    JsError (TransactionValueTooLow imp)
  else err.

Definition argsOf (signedZeroExTransaction : SignedZeroExTransaction.t)
  (coordinatorExpirationTimes : list Expiration)
  (coordinatorApprovalSignatures : list string) : ContractCall.args :=
  ContractCall.mkArgs signedZeroExTransaction
    (SignedZeroExTransaction.signerAddress signedZeroExTransaction)
    (SignedZeroExTransaction.signature signedZeroExTransaction)
    coordinatorExpirationTimes coordinatorApprovalSignatures
    (SignedZeroExTransaction.signerAddress signedZeroExTransaction).

(** *** [getCalldataOrThrowAsync] *)

Local Open Scope js_scope.

(** Lines 266-296.  The object resolved by [getSmartContractParamsOrThrowAsync]
    has no [ethAmount], so the destructured [ethAmount] is [undefined]. *)
Definition getCalldataOrThrowAsync_providerOnly (quote : SwapQuote.t) (opts : Opts.t)
  : M World CalldataInfo.t :=
  signedZeroExTransaction <-
    _getCoordinatorZeroExTransactionAsync_providerOnly ext quote opts ;;
  info <- getSmartContractParamsOrThrowAsync ext quote opts ;;
  let methodAbi := ParamsInfo.methodAbi info in
  let ethAmount : option Z := None in
  approvals <-
    _getCoordinatorApprovalsAsync ext
      (SwapQuote.orders quote ++ SwapQuote.feeOrders quote) signedZeroExTransaction ;;
  let calldataHexString :=
    executeTransaction_getABIEncodedTransactionData imp
      signedZeroExTransaction
      (SignedZeroExTransaction.signerAddress signedZeroExTransaction)
      (SignedZeroExTransaction.signature signedZeroExTransaction)
      (Approvals.coordinatorExpirationTimes approvals)
      (Approvals.coordinatorApprovalSignatures approvals) in
  ret (CalldataInfo.mk calldataHexString methodAbi (coordinatorAddress ext) ethAmount).

(** Lines 24-57: the approvals come from the wrapper. *)
Definition getCalldataOrThrowAsync (quote : SwapQuote.t) (opts : Opts.t)
  : M World CalldataInfo.t :=
  signedZeroExTransaction <- _getCoordinatorZeroExTransactionAsync ext quote opts ;;
  info <- getSmartContractParamsOrThrowAsync ext quote opts ;;
  let methodAbi := ParamsInfo.methodAbi info in
  let ethAmount : option Z := None in
  approvals <-
    perform (getCoordinatorApprovalsAsync imp
               (SwapQuote.orders quote ++ SwapQuote.feeOrders quote)
               signedZeroExTransaction) ;;
  let calldataHexString :=
    executeTransaction_getABIEncodedTransactionData imp
      signedZeroExTransaction
      (SignedZeroExTransaction.signerAddress signedZeroExTransaction)
      (SignedZeroExTransaction.signature signedZeroExTransaction)
      (WrapperApprovals.coordinatorExpirationTimes approvals)
      (WrapperApprovals.coordinatorSignatures approvals) in
  ret (CalldataInfo.mk calldataHexString methodAbi (coordinatorAddress ext) ethAmount).

(** *** [executeSwapQuoteOrThrowAsync] *)

Local Open Scope exec_scope.

(** The checks before the [try] (lines 114-126 and 353-365). *)
Definition checkExecutionOpts (quote : SwapQuote.t) (opts : ExecutionOpts.t)
  : X World unit :=
  liftX (assert (isValidSwapQuote ext quote) "quote") ;;;
  match ExecutionOpts.takerAddress opts with
  | Some takerAddress => liftX (assert (isETHAddressHex ext takerAddress) "takerAddress")
  | None => retX tt
  end ;;;
  match ExecutionOpts.gasLimit opts with
  | Some gasLimit => liftX (assert (isNumber imp gasLimit) "gasLimit")
  | None => retX tt
  end ;;;
  match ExecutionOpts.gasPrice opts with
  | Some gasPrice => liftX (assert (isBigNumber imp gasPrice) "gasPrice")
  | None => retX tt
  end.

(** [callAsync] then [sendTransactionAsync], with the same arguments. *)
Definition callThenSend (a : ContractCall.args) : X World string :=
  awaitContract (ContractCall.Called a) (executeTransaction_callAsync imp a) ;;;
  txHash <-
    awaitContract (ContractCall.Sent a) (executeTransaction_sendTransactionAsync imp a) ;;
  retX txHash.

(** The [try] block of lines 368-399. *)
Definition submit_providerOnly (quote : SwapQuote.t) (opts : ExecutionOpts.t)
  : X World string :=
  signedZeroExTransaction <-
    liftX (_getCoordinatorZeroExTransactionAsync_providerOnly ext quote
             (ExecutionOpts.toOpts opts)) ;;
  approvals <-
    liftX (_getCoordinatorApprovalsAsync ext
             (SwapQuote.orders quote ++ SwapQuote.feeOrders quote)
             signedZeroExTransaction) ;;
  callThenSend (argsOf signedZeroExTransaction
                       (Approvals.coordinatorExpirationTimes approvals)
                       (Approvals.coordinatorApprovalSignatures approvals)).

(** The [try] block of lines 129-160. *)
Definition submit (quote : SwapQuote.t) (opts : ExecutionOpts.t) : X World string :=
  signedZeroExTransaction <-
    liftX (_getCoordinatorZeroExTransactionAsync ext quote (ExecutionOpts.toOpts opts)) ;;
  approvals <-
    liftX (perform (getCoordinatorApprovalsAsync imp
                      (SwapQuote.orders quote ++ SwapQuote.feeOrders quote)
                      signedZeroExTransaction)) ;;
  callThenSend (argsOf signedZeroExTransaction
                       (WrapperApprovals.coordinatorExpirationTimes approvals)
                       (WrapperApprovals.coordinatorSignatures approvals)).

(** Lines 349-409. *)
Definition executeSwapQuoteOrThrowAsync_providerOnly (quote : SwapQuote.t)
  (opts : ExecutionOpts.t) : X World string :=
  checkExecutionOpts quote opts ;;;
  tryCatch (submit_providerOnly quote opts) (fun err => throwX (translateError err)).

(** Lines 110-170. *)
Definition executeSwapQuoteOrThrowAsync (quote : SwapQuote.t)
  (opts : ExecutionOpts.t) : X World string :=
  checkExecutionOpts quote opts ;;;
  tryCatch (submit quote opts) (fun err => throwX (translateError err)).

(** The operation the transaction carries as [data]. *)
Definition zeroExOperationOf (quote : SwapQuote.t) : string :=
  let optimized :=
    optimizeOrdersForMarketExchangeOperation ext (SwapQuote.orders quote)
                                             (SwapQuote.type quote) in
  let signatures := map SignedOrder.signature (SwapQuote.orders quote) in
  match quote with
  | SwapQuote.MarketBuy _ _ makerAssetFillAmount =>
      marketBuyOrdersNoThrow ext optimized makerAssetFillAmount signatures
  | SwapQuote.MarketSell _ _ takerAssetFillAmount =>
      marketSellOrdersNoThrow ext optimized takerAssetFillAmount signatures
  end.

(** The transaction built for [taker] when the outside is in [w]. *)
Definition unsignedTransaction (quote : SwapQuote.t) (taker : string) (w : World)
  : ZeroExTransaction.t :=
  ZeroExTransaction.mk (snd (generatePseudoRandomSalt ext w)) taker
    (zeroExOperationOf quote) (exchangeAddress ext).

(** The name whose ABI the parameters carry. *)
Definition methodNameOf (quote : SwapQuote.t) : string :=
  match quote with
  | SwapQuote.MarketBuy _ _ _ => "marketBuyOrders"
  | SwapQuote.MarketSell _ _ _ => "marketSellOrders"
  end.

End Callers.

(** Every endpoint before the last one asked answered; the last one rejected. *)
Definition rejectedAt {World} (ext : Collaborators World)
  (tx : SignedZeroExTransaction.t) (origin : string)
  (before : list string) (endpoint : string) (w : World)
  (resps : list Response.t) (message : string) (w' : World) : Prop :=
  exists w1,
    answered ext tx origin before w resps w1 /\
    _executeServerRequestAsync ext tx origin endpoint w1 = (w', inl message).

(** Each signature with the expiration of the server that gave it. *)
Definition pairedWithOwnExpiration (raws : list RawApproval.t)
  : list (string * Expiration) :=
  flat_map (fun raw => map (fun s => (s, RawApproval.expirationTimeSeconds raw))
                           (RawApproval.signatures raw)) raws.

(** The calls one execution adds to the contract log, with its result: none
    and an error, a dry run and an error, or a dry run followed by the
    transaction itself; the account sending is the signer of the transaction. *)
Definition dryRunThenSend (added : list ContractCall.t) (result : Thrown + string)
  : Prop :=
  (added = [] /\ exists err, result = inl err) \/
  exists a,
    ContractCall.from a
      = SignedZeroExTransaction.signerAddress (ContractCall.transaction a) /\
    ContractCall.txOrigin a = ContractCall.from a /\
    ContractCall.transactionSignature a
      = SignedZeroExTransaction.signature (ContractCall.transaction a) /\
    ((added = [ContractCall.Called a] /\ exists err, result = inl err) \/
     added = [ContractCall.Called a; ContractCall.Sent a]).

(** *** Scripted imports *)

Definition scriptedImports (dryRun : string + unit) (sent : string + string)
  : Imports unit :=
  {| getCoordinatorApprovalsAsync :=
       fun _ _ w => (w, inr (WrapperApprovals.mk ["0xaa"] [Timestamp 1600000000]));
     executeTransaction_getABIEncodedTransactionData :=
       fun tx _ sig _ signatures =>
         String.append "0xca11" (String.append sig (String.concat "" signatures));
     executeTransaction_callAsync := fun _ w => (w, dryRun);
     executeTransaction_sendTransactionAsync := fun _ w => (w, sent);
     isNumber := fun n => (0 <=? n)%Z;
     isBigNumber := fun n => (0 <=? n)%Z;
     SignatureRequestDenied := "SIGNATURE_REQUEST_DENIED";
     TransactionValueTooLow := "TRANSACTION_VALUE_TOO_LOW";
     CompleteFillFailed := "COMPLETE_FILL_FAILED";
     messageText := fun _ => "Failed to obtain approval signatures" |}.

Definition settles : Imports unit := scriptedImports (inr tt) (inr "0x7ea5").

Definition reverts : Imports unit :=
  scriptedImports (inl "VM Exception: revert COMPLETE_FILL_FAILED") (inr "0x7ea5").

(** A provider that turns every signature request down. *)
Definition denyingProvider : Collaborators unit :=
  {| coordinatorAddress := coordinator0;
     exchangeAddress := "0xe0";
     isValidSwapQuote := fun _ => true;
     isETHAddressHex := fun _ => true;
     optimizeOrdersForMarketExchangeOperation := keepOrder;
     getMethodAbiFromContractAbi := fun name => Some (MethodAbi.mk name []);
     marketBuyOrdersNoThrow := fun _ _ _ => "0xb0";
     marketSellOrdersNoThrow := fun _ _ _ => "0x50";
     convertToSignatureWithType := fun sig _ => sig;
     generatePseudoRandomSalt := fun w => (w, 42%Z);
     getContractCodeAsync := fun _ w => (w, inr "0x");
     ecSignTransactionAsync :=
       fun _ _ w => (w, inl "MetaMask: SIGNATURE_REQUEST_DENIED by user");
     _mapServerEndpointsToOrdersAsync :=
       fun orders w => (w, inr (groupByEndpoint registry orders));
     _executeServerRequestAsync := fun _ _ endpoint w => (w, inr (allApprove endpoint)) |}.

(** Servers of which X answers and Y cannot be reached. *)
Definition yUnreachable : Collaborators unit :=
  {| coordinatorAddress := coordinator0;
     exchangeAddress := "0xe0";
     isValidSwapQuote := fun _ => true;
     isETHAddressHex := fun _ => true;
     optimizeOrdersForMarketExchangeOperation := keepOrder;
     getMethodAbiFromContractAbi := fun name => Some (MethodAbi.mk name []);
     marketBuyOrdersNoThrow := fun _ _ _ => "0xb0";
     marketSellOrdersNoThrow := fun _ _ _ => "0x50";
     convertToSignatureWithType := fun sig _ => sig;
     generatePseudoRandomSalt := fun w => (w, 42%Z);
     getContractCodeAsync := fun _ w => (w, inr "0x");
     ecSignTransactionAsync :=
       fun tx _ w => (w, inr (SignedZeroExTransaction.ofTransaction tx "0x1c03"));
     _mapServerEndpointsToOrdersAsync :=
       fun orders w => (w, inr (groupByEndpoint registry orders));
     _executeServerRequestAsync :=
       fun _ _ endpoint w =>
         if String.eqb endpoint "https://x.example"
         then (w, inr (refuse endpoint))
         else (w, inl "ECONNREFUSED") |}.

(** An approval without a body, and a response naming a stranger. *)
Definition bodiless (endpoint : string) : Response.t :=
  Response.mk false 200 None None endpoint.

Definition bodilessApproval : Collaborators unit :=
  scripted coordinator0 keepOrder "0x" registry bodiless.

Definition misattributed (endpoint : string) : Response.t :=
  if String.eqb endpoint "https://x.example"
  then approve ["0xaa"] "https://elsewhere.example"
  else refuse "https://nowhere.example".

Definition strangers : Collaborators unit :=
  scripted coordinator0 keepOrder "0x" registry misattributed.

Definition quote1 : SwapQuote.t := SwapQuote.MarketBuy [orderA; orderC] [orderB] 10.

Definition execOpts0 : ExecutionOpts.t :=
  ExecutionOpts.mk (Some "0x7a"%string) (Some 21000%Z) (Some 5%Z).

Definition session0 : Session.t unit := Session.mk start [].


(** The property names every plain object inherits from [Object.prototype];
    [obj[k]] for such a [k] that is not an own key is the inherited value, not
    [undefined], and is outside what [Js.get] describes. *)
Definition objectPrototypeNames : list string :=
  ["constructor"; "toString"; "toLocaleString"; "valueOf"; "hasOwnProperty";
   "isPrototypeOf"; "propertyIsEnumerable"; "__proto__"; "__defineGetter__";
   "__defineSetter__"; "__lookupGetter__"; "__lookupSetter__"].

(** * Properties *)

(** ** JavaScript helpers *)

Lemma Js_keys_incl_fst {V} (obj : Js.Object V) (k : string) :
  In k (Js.keys obj) -> In k (map fst obj).
Proof.
  induction obj as [|[k' v] rest IH]; simpl; [tauto|].
  intros [->|Hin]; [now left|].
  apply filter_In in Hin. right. now apply IH.
Qed.

Lemma Js_keys_NoDup {V} (obj : Js.Object V) : NoDup (Js.keys obj).
Proof.
  induction obj as [|[k v] rest IH]; simpl; constructor.
  - intros Hin. apply filter_In in Hin. destruct Hin as [_ Hne].
    now rewrite String.eqb_refl in Hne.
  - now apply NoDup_filter.
Qed.

Lemma Js_get_some_iff_key {V} (obj : Js.Object V) (k : string) :
  In k (Js.keys obj) <-> exists v, Js.get obj k = Some v.
Proof.
  induction obj as [|[k' v] rest IH]; simpl.
  - split; [tauto | intros [v Hv]; discriminate].
  - destruct (String.eqb k' k) eqn:E.
    + apply String.eqb_eq in E. subst. split; eauto.
    + rewrite filter_In, IH. split.
      * intros [Heq|[Hex _]]; [|exact Hex].
        subst. now rewrite String.eqb_refl in E.
      * intros Hex. right. split; [exact Hex|].
        rewrite String.eqb_sym, E. reflexivity.
Qed.

Lemma Js_flatten_app {A} (xs ys : list (Js.Nested A)) :
  Js.flatten (xs ++ ys) = Js.flatten xs ++ Js.flatten ys.
Proof. unfold Js.flatten. now rewrite flat_map_app. Qed.

Lemma Js_flatten_arrays {A B} (f : A -> list B) (l : list A) :
  Js.flatten (map (fun a => Js.Arr (f a)) l) = List.concat (map f l).
Proof.
  unfold Js.flatten. rewrite flat_map_concat_map, map_map. reflexivity.
Qed.

Lemma Js_flatten_elems {A B} (f : A -> B) (l : list A) :
  Js.flatten (map (fun a => Js.Elem (f a)) l) = map f l.
Proof.
  unfold Js.flatten. induction l as [|a l IH]; simpl; [reflexivity|].
  now rewrite IH.
Qed.

(** ** The partition of the batch by sender *)

Lemma coordinatorOrders_In {World} (ext : Collaborators World)
  (batch : list SignedOrder.t) (o : SignedOrder.t) :
  In o (coordinatorOrders ext batch) <->
  In o batch /\ SignedOrder.senderAddress o = coordinatorAddress ext.
Proof.
  unfold coordinatorOrders. rewrite filter_In, String.eqb_eq. reflexivity.
Qed.

Lemma notCoordinatorOrders_In {World} (ext : Collaborators World)
  (batch : list SignedOrder.t) (o : SignedOrder.t) :
  In o (notCoordinatorOrders ext batch) <->
  In o batch /\ SignedOrder.senderAddress o <> coordinatorAddress ext.
Proof.
  unfold notCoordinatorOrders.
  rewrite filter_In, negb_true_iff, String.eqb_neq. reflexivity.
Qed.

Lemma batch_split {World} (ext : Collaborators World) (batch : list SignedOrder.t) :
  Permutation batch (coordinatorOrders ext batch ++ notCoordinatorOrders ext batch).
Proof.
  unfold coordinatorOrders, notCoordinatorOrders.
  induction batch as [|o batch IH]; simpl; [constructor|].
  destruct (String.eqb _ _); simpl.
  - now constructor.
  - now apply Permutation_cons_app.
Qed.

Lemma coordinatorOrders_none {World} (ext : Collaborators World)
  (batch : list SignedOrder.t) :
  Forall (fun o => SignedOrder.senderAddress o <> coordinatorAddress ext) batch ->
  coordinatorOrders ext batch = [].
Proof.
  unfold coordinatorOrders.
  induction 1 as [|o batch Hne _ IH]; simpl; [reflexivity|].
  apply String.eqb_neq in Hne. now rewrite Hne.
Qed.

(** ** Runs of the aggregator *)

Section Runs.

Context {World : Type}.
Variable ext : Collaborators World.
Variable tx : SignedZeroExTransaction.t.

Lemma requestApprovals_answered (origin : string) (endpoints : list string)
  (w w' : World) (resps : list Response.t) :
  answered ext tx origin endpoints w resps w' ->
  forall errs apps tr,
    requestApprovals ext tx origin endpoints errs apps (State.mk w tr) =
    (State.mk w' (tr ++ map (ApprovalRequested tx origin) endpoints),
     inr (errs ++ refusing resps, apps ++ approving resps)).
Proof.
  induction 1 as [w|endpoint rest w w1 w2 resp resps Hcall _ IH]; intros errs apps tr.
  - simpl. unfold ret, refusing, approving. simpl. now rewrite !app_nil_r.
  - simpl. unfold bind, await. simpl. rewrite Hcall.
    unfold refusing, approving in *. simpl.
    destruct (Response.isError resp); simpl; rewrite IH, <- !app_assoc; reflexivity.
Qed.

(** The requests of a run that a rejection cut short are still a prefix of
    the endpoints: no endpoint is asked twice. *)
Lemma requestApprovals_trace (origin : string) (endpoints : list string) :
  forall errs apps s,
  exists asked rest,
    endpoints = asked ++ rest /\
    State.trace (fst (requestApprovals ext tx origin endpoints errs apps s)) =
    State.trace s ++ map (ApprovalRequested tx origin) asked.
Proof.
  induction endpoints as [|endpoint rest IH]; intros errs apps s.
  - exists [], []. simpl. now rewrite app_nil_r.
  - simpl. unfold bind, await.
    destruct (_executeServerRequestAsync ext tx origin endpoint (State.world s))
      as [w1 [msg|resp]] eqn:Hcall.
    + exists [endpoint], rest. split; reflexivity.
    + set (s1 := State.mk w1 (State.trace s ++ [ApprovalRequested tx origin endpoint])).
      destruct (Response.isError resp).
      * destruct (IH (errs ++ [resp]) apps s1) as (asked & rest' & -> & Htr).
        exists (endpoint :: asked), rest'. split; [reflexivity|].
        rewrite Htr. unfold s1. simpl. now rewrite <- app_assoc.
      * destruct (IH errs (apps ++ [resp]) s1) as (asked & rest' & -> & Htr).
        exists (endpoint :: asked), rest'. split; [reflexivity|].
        rewrite Htr. unfold s1. simpl. now rewrite <- app_assoc.
Qed.

(** A run in which the registry and every server resolve is determined by
    their answers. *)
Lemma approvals_run_answered (batch : list SignedOrder.t)
  (w0 w1 w2 : World) (tr : list Event)
  (m : Js.Object (list SignedOrder.t)) (resps : list Response.t) :
  _mapServerEndpointsToOrdersAsync ext (coordinatorOrders ext batch) w0 = (w1, inr m) ->
  answered ext tx (SignedZeroExTransaction.signerAddress tx) (Js.keys m) w1 resps w2 ->
  _getCoordinatorApprovalsAsync ext batch tx (State.mk w0 tr) =
  (State.mk w2
     (tr ++ EndpointsRequested (coordinatorOrders ext batch)
         :: map (ApprovalRequested tx (SignedZeroExTransaction.signerAddress tx))
                (Js.keys m)),
   combineResponses ext batch tx m (refusing resps) (approving resps)).
Proof.
  intros Hmap Hans.
  unfold _getCoordinatorApprovalsAsync, bind, await. simpl. rewrite Hmap.
  rewrite (requestApprovals_answered _ _ _ _ _ Hans). simpl.
  rewrite <- app_assoc. simpl.
  destruct (combineResponses _ _ _ _ _ _); reflexivity.
Qed.

Lemma refusing_nonempty (resps : list Response.t) :
  existsb Response.isError resps = true ->
  Nat.eqb (length (refusing resps)) 0 = false.
Proof.
  unfold refusing. induction resps as [|r resps IH]; simpl; [discriminate|].
  destruct (Response.isError r); simpl; [reflexivity | exact IH].
Qed.

Lemma refusing_empty (resps : list Response.t) :
  existsb Response.isError resps = false ->
  refusing resps = [] /\ approving resps = resps.
Proof.
  unfold refusing, approving. induction resps as [|r resps IH]; simpl; [now split|].
  destruct (Response.isError r); simpl; [discriminate|].
  intros H. destruct (IH H) as [-> ->]. now split.
Qed.

End Runs.

(** ** The any-refused path *)

(** C3. When the registry and every server have answered and at least one
    answer is an error response, the call throws [CoordinatorServerError] with
    the message [FillFailed], the approved orders, an empty list of
    cancellations and one entry per error response, each made of the server's
    response and the orders looked up under its operator.  What is thrown is
    never a plain error. *)
Theorem refused_path_throws_structured_error {World} (ext : Collaborators World)
  (batch : list SignedOrder.t) (tx : SignedZeroExTransaction.t)
  (w0 w1 w2 : World) (tr : list Event)
  (m : Js.Object (list SignedOrder.t)) (resps : list Response.t) :
  _mapServerEndpointsToOrdersAsync ext (coordinatorOrders ext batch) w0 = (w1, inr m) ->
  answered ext tx (SignedZeroExTransaction.signerAddress tx) (Js.keys m) w1 resps w2 ->
  existsb Response.isError resps = true ->
  exists approvedOrders errorsWithOrders,
    snd (_getCoordinatorApprovalsAsync ext batch tx (State.mk w0 tr)) =
      inl (CoordinatorServerError FillFailed approvedOrders [] errorsWithOrders) /\
    approvedOrders = approvedOrdersOf ext batch m (approving resps) /\
    map ErrorWithOrders.response errorsWithOrders = refusing resps /\
    Forall (fun e => ErrorWithOrders.orders e =
                     Js.get m (Response.coordinatorOperator (ErrorWithOrders.response e)))
           errorsWithOrders /\
    forall message,
      snd (_getCoordinatorApprovalsAsync ext batch tx (State.mk w0 tr)) <>
      inl (JsError message).
Proof.
  intros Hmap Hans Herr.
  rewrite (approvals_run_answered ext tx batch _ _ _ tr _ _ Hmap Hans).
  unfold combineResponses. rewrite (refusing_nonempty _ Herr). simpl.
  unfold fillFailed.
  exists (approvedOrdersOf ext batch m (approving resps)),
         (errorsWithOrdersOf m (refusing resps)).
  repeat split.
  - unfold errorsWithOrdersOf. rewrite map_map. simpl. apply map_id.
  - unfold errorsWithOrdersOf. apply Forall_forall. intros e He.
    apply in_map_iff in He. destruct He as (r & <- & _). reflexivity.
  - intros message H. discriminate H.
Qed.

Lemma refused_path_throws_structured_error_witness :
  _mapServerEndpointsToOrdersAsync partialRefusal
    (coordinatorOrders partialRefusal [orderA; orderB; orderC]) tt
    = (tt, inr (groupByEndpoint registry [orderA; orderB])) /\
  existsb Response.isError
    [xApprovesYRefuses "https://x.example"; xApprovesYRefuses "https://y.example"] = true /\
  exists approvedOrders errorsWithOrders,
    snd (_getCoordinatorApprovalsAsync partialRefusal [orderA; orderB; orderC]
           transaction0 start) =
      inl (CoordinatorServerError FillFailed approvedOrders [] errorsWithOrders) /\
    approvedOrders = [Some orderA; Some orderC] /\
    map ErrorWithOrders.response errorsWithOrders = [refuse "https://y.example"].
Proof.
  split; [reflexivity|]. split; [reflexivity|].
  destruct (refused_path_throws_structured_error partialRefusal
              [orderA; orderB; orderC] transaction0 tt tt tt []
              (groupByEndpoint registry [orderA; orderB])
              [xApprovesYRefuses "https://x.example";
               xApprovesYRefuses "https://y.example"])
    as (approved & errors & Hrun & Happ & Hresp & _).
  - reflexivity.
  - repeat (econstructor; [reflexivity|]). constructor.
  - reflexivity.
  - exists approved, errors. split; [exact Hrun|]. split.
    + rewrite Happ. reflexivity.
    + rewrite Hresp. reflexivity.
Defined.

(** ** No order needs an approval *)

(** C4. When no order of the batch has the coordinator as its sender, and the
    registry asked about no orders resolves with a mapping without endpoints,
    the call returns empty signature and expiration lists together with the
    transaction; no approval request is sent, whatever the servers would have
    answered. *)
Theorem no_coordinator_orders_succeed {World} (ext : Collaborators World)
  (batch : list SignedOrder.t) (tx : SignedZeroExTransaction.t)
  (w0 w1 : World) (tr : list Event) (m : Js.Object (list SignedOrder.t)) :
  Forall (fun o => SignedOrder.senderAddress o <> coordinatorAddress ext) batch ->
  _mapServerEndpointsToOrdersAsync ext [] w0 = (w1, inr m) ->
  Js.keys m = [] ->
  _getCoordinatorApprovalsAsync ext batch tx (State.mk w0 tr) =
    (State.mk w1 (tr ++ [EndpointsRequested []]), inr (Approvals.mk [] [] tx)) /\
  requestedEndpoints
    (State.trace (fst (_getCoordinatorApprovalsAsync ext batch tx (State.mk w0 tr))))
  = requestedEndpoints tr.
Proof.
  intros Hnone Hmap Hkeys.
  assert (Hrun : _getCoordinatorApprovalsAsync ext batch tx (State.mk w0 tr) =
                 (State.mk w1 (tr ++ [EndpointsRequested []]),
                  inr (Approvals.mk [] [] tx))).
  { assert (Hco := coordinatorOrders_none ext batch Hnone).
    assert (Hans : answered ext tx (SignedZeroExTransaction.signerAddress tx)
                            (Js.keys m) w1 [] w1)
      by (rewrite Hkeys; constructor).
    rewrite <- Hco in Hmap.
    rewrite (approvals_run_answered ext tx batch _ _ _ tr _ _ Hmap Hans).
    rewrite Hkeys, Hco. reflexivity. }
  split; [exact Hrun|].
  rewrite Hrun. simpl. unfold requestedEndpoints.
  rewrite flat_map_app. simpl. apply app_nil_r.
Qed.

Lemma no_coordinator_orders_succeed_witness :
  Forall (fun o => SignedOrder.senderAddress o <> coordinatorAddress partialRefusal)
         [orderC; orderD] /\
  _getCoordinatorApprovalsAsync partialRefusal [orderC; orderD] transaction0 start =
    (State.mk tt [EndpointsRequested []], inr (Approvals.mk [] [] transaction0)).
Proof.
  assert (H : Forall (fun o => SignedOrder.senderAddress o
                               <> coordinatorAddress partialRefusal)
                     [orderC; orderD])
    by (repeat constructor; intro E; discriminate E).
  split; [exact H|].
  exact (proj1 (no_coordinator_orders_succeed partialRefusal [orderC; orderD]
                  transaction0 tt tt [] [] H eq_refl eq_refl)).
Defined.

(** ** Order groups and attribution *)

Lemma ordersOf_key (m : Js.Object (list SignedOrder.t)) (r : Response.t) :
  In (Response.coordinatorOperator r) (Js.keys m) ->
  ordersOf m r = Some (groupOf m (Response.coordinatorOperator r)).
Proof.
  intros Hin. apply Js_get_some_iff_key in Hin. destruct Hin as [g Hg].
  unfold ordersOf, groupOf. now rewrite Hg.
Qed.

Lemma Js_values_on_keys (m : Js.Object (list SignedOrder.t)) (ks : list string) :
  incl ks (Js.keys m) ->
  flat_map (fun k => match Js.get m k with Some v => [v] | None => [] end) ks
  = map (groupOf m) ks.
Proof.
  induction ks as [|k ks IH]; intros Hincl; simpl; [reflexivity|].
  rewrite IH by (intros x Hx; apply Hincl; now right).
  assert (Hk : In k (Js.keys m)) by (apply Hincl; now left).
  apply Js_get_some_iff_key in Hk. destruct Hk as [g Hg].
  unfold groupOf. now rewrite Hg.
Qed.

Lemma Js_values_groups (m : Js.Object (list SignedOrder.t)) :
  Js.values m = map (groupOf m) (Js.keys m).
Proof. apply Js_values_on_keys, incl_refl. Qed.

Lemma attributed_operator_key (m : Js.Object (list SignedOrder.t))
  (resps : list Response.t) (r : Response.t) :
  attributed (Js.keys m) resps -> In r resps ->
  In (Response.coordinatorOperator r) (Js.keys m).
Proof. intros <- Hin. now apply in_map. Qed.

Lemma approvedOrdersOf_groups {World} (ext : Collaborators World)
  (batch : list SignedOrder.t) (m : Js.Object (list SignedOrder.t))
  (apps : list Response.t) :
  (forall r, In r apps -> In (Response.coordinatorOperator r) (Js.keys m)) ->
  approvedOrdersOf ext batch m apps =
  map Some (flat_map (fun r => groupOf m (Response.coordinatorOperator r)) apps
            ++ notCoordinatorOrders ext batch).
Proof.
  intros Hkeys. unfold approvedOrdersOf, Js.concat.
  rewrite Js_flatten_app, Js_flatten_elems, map_app. f_equal.
  induction apps as [|r apps IH]; simpl; [reflexivity|].
  rewrite map_app, <- IH by (intros x Hx; apply Hkeys; now right).
  rewrite ordersOf_key by (apply Hkeys; now left). reflexivity.
Qed.

Lemma errorsWithOrdersOf_groups (m : Js.Object (list SignedOrder.t))
  (errs : list Response.t) :
  (forall r, In r errs -> In (Response.coordinatorOperator r) (Js.keys m)) ->
  errorsWithOrdersOf m errs =
  map (fun r => ErrorWithOrders.mk r
                  (Some (groupOf m (Response.coordinatorOperator r)))) errs.
Proof.
  intros Hkeys. unfold errorsWithOrdersOf. apply map_ext_in.
  intros r Hr. now rewrite ordersOf_key by now apply Hkeys.
Qed.

Lemma flat_map_filter_split {A B} (f : A -> list B) (p : A -> bool) (l : list A) :
  Permutation (flat_map f l)
    (flat_map f (filter (fun a => negb (p a)) l) ++ flat_map f (filter p l)).
Proof.
  induction l as [|a l IH]; simpl; [constructor|].
  destruct (p a); simpl.
  - rewrite IH. apply Permutation_app_swap_app.
  - rewrite <- app_assoc. now apply Permutation_app_head.
Qed.

Lemma NoDup_map_filter {A B} (p : A -> bool) (f : A -> B) (xs : list A)
  (Hdistinct : NoDup (map f xs)) : NoDup (map f (filter p xs)).
Proof.
  revert Hdistinct.
  induction xs as [|a l IH]; simpl; intros Hnd; [constructor|].
  inversion Hnd as [|x xs Hnotin Hnd']; subst.
  destruct (p a); simpl; [|now apply IH].
  constructor; [|now apply IH].
  intros Hin. apply Hnotin. apply in_map_iff in Hin.
  destruct Hin as (x & Hfx & Hx). apply filter_In in Hx.
  apply in_map_iff. exists x. tauto.
Qed.

Lemma combine_map_self {A B} (f : A -> B) (l : list A) :
  combine (map f l) l = map (fun a => (f a, a)) l.
Proof. induction l as [|a l IH]; simpl; [reflexivity | now rewrite IH]. Qed.

Lemma requestedEndpoints_app (xs ys : list Event) :
  requestedEndpoints (xs ++ ys) = requestedEndpoints xs ++ requestedEndpoints ys.
Proof. unfold requestedEndpoints. apply flat_map_app. Qed.

Lemma requestedEndpoints_requests (tx : SignedZeroExTransaction.t) (origin : string)
  (endpoints : list string) :
  requestedEndpoints (map (ApprovalRequested tx origin) endpoints) = endpoints.
Proof.
  unfold requestedEndpoints.
  induction endpoints as [|e l IH]; simpl; [reflexivity | now rewrite IH].
Qed.

(** What the any-refused branch throws once every response names its
    endpoint: the groups are found, so no entry is [undefined]. *)
Lemma fillFailed_attributed {World} (ext : Collaborators World)
  (batch : list SignedOrder.t) (m : Js.Object (list SignedOrder.t))
  (resps : list Response.t) :
  attributed (Js.keys m) resps ->
  fillFailed ext batch m (refusing resps) (approving resps) =
  CoordinatorServerError FillFailed
    (map Some
       (flat_map (fun r => groupOf m (Response.coordinatorOperator r))
                 (approving resps)
        ++ notCoordinatorOrders ext batch))
    []
    (map (fun r => ErrorWithOrders.mk r
                     (Some (groupOf m (Response.coordinatorOperator r))))
         (refusing resps)).
Proof.
  intros Hattr. unfold fillFailed.
  rewrite approvedOrdersOf_groups, errorsWithOrdersOf_groups; [reflexivity| |];
    intros r Hr; apply filter_In in Hr;
    now apply (attributed_operator_key m resps).
Qed.

Lemma refused_run {World} (ext : Collaborators World)
  (batch : list SignedOrder.t) (tx : SignedZeroExTransaction.t)
  (w0 w1 w2 : World) (tr : list Event)
  (m : Js.Object (list SignedOrder.t)) (resps : list Response.t) :
  _mapServerEndpointsToOrdersAsync ext (coordinatorOrders ext batch) w0 = (w1, inr m) ->
  answered ext tx (SignedZeroExTransaction.signerAddress tx) (Js.keys m) w1 resps w2 ->
  existsb Response.isError resps = true ->
  snd (_getCoordinatorApprovalsAsync ext batch tx (State.mk w0 tr)) =
  inl (fillFailed ext batch m (refusing resps) (approving resps)).
Proof.
  intros Hmap Hans Herr.
  rewrite (approvals_run_answered ext tx batch _ _ _ tr _ _ Hmap Hans).
  unfold combineResponses. now rewrite (refusing_nonempty _ Herr).
Qed.

(** C2. When the registry and every server have answered, every response names
    its endpoint, and at least one response is an error, the error thrown
    carries as approved orders the groups of the approving servers, in the
    order they were asked, followed by the orders whose sender is not the
    coordinator; and as refusals one entry per error response, made of that
    response and the group of its endpoint.  The refusing endpoints are
    pairwise distinct and are exactly those whose response was an error. *)
Theorem refused_path_lists {World} (ext : Collaborators World)
  (batch : list SignedOrder.t) (tx : SignedZeroExTransaction.t)
  (w0 w1 w2 : World) (tr : list Event)
  (m : Js.Object (list SignedOrder.t)) (resps : list Response.t) :
  _mapServerEndpointsToOrdersAsync ext (coordinatorOrders ext batch) w0 = (w1, inr m) ->
  answered ext tx (SignedZeroExTransaction.signerAddress tx) (Js.keys m) w1 resps w2 ->
  attributed (Js.keys m) resps ->
  existsb Response.isError resps = true ->
  snd (_getCoordinatorApprovalsAsync ext batch tx (State.mk w0 tr)) =
    inl (CoordinatorServerError FillFailed
           (map Some
              (flat_map (fun r => groupOf m (Response.coordinatorOperator r))
                        (approving resps)
               ++ notCoordinatorOrders ext batch))
           []
           (map (fun r => ErrorWithOrders.mk r
                            (Some (groupOf m (Response.coordinatorOperator r))))
                (refusing resps))) /\
  NoDup (map Response.coordinatorOperator (refusing resps)) /\
  forall endpoint,
    In endpoint (map Response.coordinatorOperator (refusing resps)) <->
    exists r, In (endpoint, r) (combine (Js.keys m) resps) /\
              Response.isError r = true.
Proof.
  intros Hmap Hans Hattr Herr.
  rewrite (refused_run ext batch tx w0 w1 w2 tr m resps Hmap Hans Herr).
  split; [|split].
  - now rewrite fillFailed_attributed.
  - apply NoDup_map_filter. rewrite Hattr. apply Js_keys_NoDup.
  - intros endpoint. rewrite <- Hattr, combine_map_self. unfold refusing. split.
    + intros Hin. apply in_map_iff in Hin. destruct Hin as (r & <- & Hr).
      apply filter_In in Hr. exists r. split; [|tauto].
      apply in_map_iff. exists r. tauto.
    + intros (r & Hin & Hr). apply in_map_iff in Hin.
      destruct Hin as (r' & Heq & Hr'). inversion Heq; subst.
      apply in_map. apply filter_In. tauto.
Qed.

Lemma refused_path_lists_witness :
  attributed (Js.keys (groupByEndpoint registry [orderA; orderB]))
    [xApprovesYRefuses "https://x.example"; xApprovesYRefuses "https://y.example"] /\
  snd (_getCoordinatorApprovalsAsync partialRefusal [orderA; orderB; orderC]
         transaction0 start) =
    inl (CoordinatorServerError FillFailed
           [Some orderA; Some orderC] []
           [ErrorWithOrders.mk (refuse "https://y.example") (Some [orderB])]).
Proof.
  split; [reflexivity|].
  refine (proj1 (refused_path_lists partialRefusal [orderA; orderB; orderC]
                   transaction0 tt tt tt []
                   (groupByEndpoint registry [orderA; orderB])
                   [xApprovesYRefuses "https://x.example";
                    xApprovesYRefuses "https://y.example"] eq_refl _ eq_refl eq_refl)).
  repeat (econstructor; [reflexivity|]). constructor.
Defined.

(** C1. On the any-refused path, when every response names its endpoint and
    the groups of the mapping hold exactly the coordinator orders, the approved
    orders of the error together with the orders of its refusals are a
    rearrangement of the batch: every order of the batch occurs in them as
    often as in the batch, so a batch without repetitions has each of its
    orders exactly once across the two. *)
Theorem refused_path_accounts_each_order_once {World} (ext : Collaborators World)
  (batch : list SignedOrder.t) (tx : SignedZeroExTransaction.t)
  (w0 w1 w2 : World) (tr : list Event)
  (m : Js.Object (list SignedOrder.t)) (resps : list Response.t) :
  _mapServerEndpointsToOrdersAsync ext (coordinatorOrders ext batch) w0 = (w1, inr m) ->
  answered ext tx (SignedZeroExTransaction.signerAddress tx) (Js.keys m) w1 resps w2 ->
  attributed (Js.keys m) resps ->
  partitions m (coordinatorOrders ext batch) ->
  existsb Response.isError resps = true ->
  exists approved errorsWithOrders implicated,
    snd (_getCoordinatorApprovalsAsync ext batch tx (State.mk w0 tr)) =
      inl (CoordinatorServerError FillFailed (map Some approved) [] errorsWithOrders) /\
    map ErrorWithOrders.orders errorsWithOrders = map Some implicated /\
    Permutation batch (approved ++ List.concat implicated) /\
    (NoDup batch -> NoDup (approved ++ List.concat implicated)).
Proof.
  intros Hmap Hans Hattr Hpart Herr.
  assert (Hrun := refused_run ext batch tx w0 w1 w2 tr m resps Hmap Hans Herr).
  rewrite (fillFailed_attributed ext batch m resps Hattr) in Hrun.
  set (group := fun r => groupOf m (Response.coordinatorOperator r)) in *.
  exists (flat_map group (approving resps) ++ notCoordinatorOrders ext batch),
         (map (fun r => ErrorWithOrders.mk r (Some (group r))) (refusing resps)),
         (map group (refusing resps)).
  assert (Hperm : Permutation batch
            ((flat_map group (approving resps) ++ notCoordinatorOrders ext batch)
             ++ List.concat (map group (refusing resps)))).
  { rewrite (batch_split ext batch) at 1.
    unfold partitions in Hpart. rewrite <- Hpart, Js_values_groups, <- Hattr.
    rewrite map_map, <- flat_map_concat_map.
    change (fun x => groupOf m (Response.coordinatorOperator x)) with group.
    rewrite (flat_map_filter_split group Response.isError resps).
    fold (approving resps). fold (refusing resps).
    rewrite <- (flat_map_concat_map group (refusing resps)).
    rewrite <- !app_assoc. apply Permutation_app_head, Permutation_app_comm. }
  split; [exact Hrun|]. split; [now rewrite !map_map|].
  split; [exact Hperm|].
  intros Hnd. exact (Permutation_NoDup Hperm Hnd).
Qed.

Lemma refused_path_accounts_each_order_once_witness :
  partitions (groupByEndpoint registry [orderA; orderB])
             (coordinatorOrders partialRefusal [orderA; orderB; orderC]) /\
  exists approved errorsWithOrders implicated,
    snd (_getCoordinatorApprovalsAsync partialRefusal [orderA; orderB; orderC]
           transaction0 start) =
      inl (CoordinatorServerError FillFailed (map Some approved) [] errorsWithOrders) /\
    map ErrorWithOrders.orders errorsWithOrders = map Some implicated /\
    Permutation [orderA; orderB; orderC] (approved ++ List.concat implicated).
Proof.
  assert (Hpart : partitions (groupByEndpoint registry [orderA; orderB])
                    (coordinatorOrders partialRefusal [orderA; orderB; orderC]))
    by apply Permutation_refl.
  split; [exact Hpart|].
  destruct (refused_path_accounts_each_order_once partialRefusal
              [orderA; orderB; orderC] transaction0 tt tt tt []
              (groupByEndpoint registry [orderA; orderB])
              [xApprovesYRefuses "https://x.example";
               xApprovesYRefuses "https://y.example"])
    as (approved & errors & implicated & Hrun & Himp & Hperm & _).
  - reflexivity.
  - repeat (econstructor; [reflexivity|]). constructor.
  - reflexivity.
  - exact Hpart.
  - reflexivity.
  - exists approved, errors, implicated. auto.
Defined.

(** ** The fan-out *)

(** Whatever the collaborators do, even when one of them rejects, the
    endpoints asked within one call are pairwise distinct. *)
Lemma approval_requests_never_repeat {World} (ext : Collaborators World)
  (batch : list SignedOrder.t) (tx : SignedZeroExTransaction.t) (w0 : World) :
  NoDup (requestedEndpoints
           (State.trace (fst (_getCoordinatorApprovalsAsync ext batch tx
                                (State.mk w0 []))))).
Proof.
  unfold _getCoordinatorApprovalsAsync, bind, await. simpl.
  destruct (_mapServerEndpointsToOrdersAsync ext (coordinatorOrders ext batch) w0)
    as [w1 [msg|m]]; simpl; [constructor|].
  match goal with
  | |- context [requestApprovals ext tx ?o ?ks ?e ?a ?s] =>
      destruct (requestApprovals_trace ext tx o ks e a s)
        as (asked & rest & Hks & Htr);
      destruct (requestApprovals ext tx o ks e a s) as [s' [e'|[errs apps]]]
  end; simpl in *.
  - rewrite Htr. simpl. rewrite requestedEndpoints_requests.
    assert (Hnd := Js_keys_NoDup m). rewrite Hks in Hnd.
    now apply NoDup_app_remove_r in Hnd.
  - assert (Hnd := Js_keys_NoDup m). rewrite Hks in Hnd.
    apply NoDup_app_remove_r in Hnd.
    destruct (combineResponses _ _ _ _ _ _); simpl;
      rewrite Htr; simpl; now rewrite requestedEndpoints_requests.
Qed.





(** ** Which orders need an approval *)

(** C5, as stated, fails: the sender of [orderD] and the coordinator address
    differ only in the case of their letters, yet [orderD] is not among the
    coordinator orders; it is among the others. *)
Lemma sender_differing_in_case_is_not_selected :
  In orderD [orderC; orderD] /\
  toLowerCase (SignedOrder.senderAddress orderD)
    = toLowerCase (coordinatorAddress partialRefusal) /\
  ~ In orderD (coordinatorOrders partialRefusal [orderC; orderD]) /\
  In orderD (notCoordinatorOrders partialRefusal [orderC; orderD]).
Proof.
  split; [right; left; reflexivity|]. split; [reflexivity|]. split.
  - intros H. exact H.
  - right. left. reflexivity.
Qed.

(** C5, amended. An order of the batch is selected for approval exactly when
    its [senderAddress] is the coordinator address, character for character;
    every other order of the batch is among the orders that need no approval.
    Both selections keep the order of the batch. *)
Theorem selection_is_exact_sender_equality {World} (ext : Collaborators World)
  (batch : list SignedOrder.t) (o : SignedOrder.t) :
  (In o (coordinatorOrders ext batch) <->
   In o batch /\ SignedOrder.senderAddress o = coordinatorAddress ext) /\
  (In o (notCoordinatorOrders ext batch) <->
   In o batch /\ SignedOrder.senderAddress o <> coordinatorAddress ext) /\
  coordinatorOrders ext batch =
    filter (fun x => String.eqb (SignedOrder.senderAddress x) (coordinatorAddress ext))
           batch /\
  Permutation batch (coordinatorOrders ext batch ++ notCoordinatorOrders ext batch).
Proof.
  split; [apply coordinatorOrders_In|]. split; [apply notCoordinatorOrders_In|].
  split; [reflexivity | apply batch_split].
Qed.

(** ** Normalising an approval *)

Lemma formatAll_bodies (resps : list Response.t) (raws : list RawApproval.t) :
  Forall2 (fun r raw => Response.isError r = false /\ Response.body r = Some raw)
          resps raws ->
  formatAll resps = inr (map formatRawResponse raws) /\
  existsb Response.isError resps = false.
Proof.
  induction 1 as [|r raw resps raws [Herr Hbody] _ [IHf IHe]]; simpl; [now split|].
  now rewrite Hbody, IHf, Herr, IHe.
Qed.

Lemma formatAll_lengths (resps : list Response.t) :
  match formatAll resps with
  | inr allApprovals =>
      Forall (fun a => length (Approval.expirationTimeSeconds a)
                       = length (Approval.signatures a)) allApprovals
  | inl _ => True
  end.
Proof.
  induction resps as [|r resps IH]; simpl; [constructor|].
  destruct (Response.body r) as [raw|]; [|exact I].
  destruct (formatAll resps) as [e|formatted]; [exact I|].
  constructor; [|exact IH].
  unfold formatRawResponse, Js.concat, Js.fill. simpl. apply repeat_length.
Qed.

Lemma concat_lengths_agree {A B C} (f : A -> list B) (g : A -> list C) (l : list A) :
  Forall (fun a => length (g a) = length (f a)) l ->
  length (List.concat (map f l)) = length (List.concat (map g l)).
Proof.
  induction 1 as [|a l Ha _ IH]; simpl; [reflexivity|].
  rewrite !length_app. congruence.
Qed.

Lemma concatenateApprovals_lengths (tx : SignedZeroExTransaction.t)
  (resps : list Response.t) :
  match concatenateApprovals tx resps with
  | inr approvals =>
      length (Approvals.coordinatorApprovalSignatures approvals)
      = length (Approvals.coordinatorExpirationTimes approvals)
  | inl _ => True
  end.
Proof.
  unfold concatenateApprovals. assert (H := formatAll_lengths resps).
  destruct (formatAll resps) as [e|allApprovals]; [exact I|]. simpl.
  rewrite !Js_flatten_arrays. now apply concat_lengths_agree.
Qed.

(** What the call returns comes out of the all-approved branch. *)
Lemma returned_by_concatenateApprovals {World} (ext : Collaborators World)
  (batch : list SignedOrder.t) (tx : SignedZeroExTransaction.t) (s : State.t World) :
  match snd (_getCoordinatorApprovalsAsync ext batch tx s) with
  | inr approvals => exists apps, concatenateApprovals tx apps = inr approvals
  | inl _ => True
  end.
Proof.
  unfold _getCoordinatorApprovalsAsync, bind, await.
  destruct (_mapServerEndpointsToOrdersAsync ext (coordinatorOrders ext batch)
              (State.world s)) as [w1 [msg|m]]; simpl; [exact I|].
  match goal with
  | |- context [requestApprovals ext tx ?o ?ks ?e ?a ?st] =>
      destruct (requestApprovals ext tx o ks e a st) as [s' [e'|[errs apps]]]
  end; simpl; [exact I|].
  unfold combineResponses. destruct (Nat.eqb (length errs) 0); simpl; [|exact I].
  destruct (concatenateApprovals tx apps) as [e|approvals] eqn:E; simpl; [exact I|].
  now exists apps.
Qed.

(** C7, as stated, fails where the response carries a list of expirations: the
    list is not handed through, one per signature, but repeated whole once per
    signature. *)
Lemma expiration_list_is_replicated_not_paired :
  let rawResponse := RawApproval.mk ["0xaa"; "0xab"] (Timestamps [1%Z; 2%Z]) in
  Approval.expirationTimeSeconds (formatRawResponse rawResponse)
    = [Timestamps [1%Z; 2%Z]; Timestamps [1%Z; 2%Z]] /\
  pairedExpirations rawResponse = [Timestamp 1; Timestamp 2] /\
  Approval.expirationTimeSeconds (formatRawResponse rawResponse)
    <> pairedExpirations rawResponse.
Proof.
  split; [reflexivity|]. split; [reflexivity|]. intros H. discriminate H.
Qed.

(** C7, amended. Normalising an approval keeps its signatures and gives as
    expirations the response's [expirationTimeSeconds] value repeated once per
    signature, whatever that value is; so the two lists have the same length,
    and a single shared timestamp ends up paired with every signature.
    Whenever the call returns, its signature and expiration lists have the
    same length. *)
Theorem formatRawResponse_replicates_expiration {World} (ext : Collaborators World)
  (rawResponse : RawApproval.t) (batch : list SignedOrder.t)
  (tx : SignedZeroExTransaction.t) (s : State.t World) :
  Approval.signatures (formatRawResponse rawResponse)
    = RawApproval.signatures rawResponse /\
  Approval.expirationTimeSeconds (formatRawResponse rawResponse)
    = repeat (RawApproval.expirationTimeSeconds rawResponse)
             (length (RawApproval.signatures rawResponse)) /\
  length (Approval.expirationTimeSeconds (formatRawResponse rawResponse))
    = length (Approval.signatures (formatRawResponse rawResponse)) /\
  match RawApproval.expirationTimeSeconds rawResponse with
  | Timestamp _ =>
      Approval.expirationTimeSeconds (formatRawResponse rawResponse)
      = pairedExpirations rawResponse
  | Timestamps _ => True
  end /\
  match snd (_getCoordinatorApprovalsAsync ext batch tx s) with
  | inr approvals =>
      length (Approvals.coordinatorApprovalSignatures approvals)
      = length (Approvals.coordinatorExpirationTimes approvals)
  | inl _ => True
  end.
Proof.
  unfold formatRawResponse, Js.concat, Js.fill, pairedExpirations. simpl.
  repeat split.
  - apply repeat_length.
  - destruct (RawApproval.expirationTimeSeconds rawResponse); [reflexivity | exact I].
  - assert (H := returned_by_concatenateApprovals ext batch tx s).
    destruct (snd (_getCoordinatorApprovalsAsync ext batch tx s)) as [e|approvals];
      [exact I|].
    destruct H as [apps Happs].
    assert (L := concatenateApprovals_lengths tx apps). now rewrite Happs in L.
Qed.

(** ** The all-approved path *)

Lemma length_concat_map {A B} (f : A -> list B) (l : list A) :
  length (List.concat (map f l)) = list_sum (map (fun a => length (f a)) l).
Proof.
  induction l as [|a l IH]; simpl; [reflexivity|].
  now rewrite length_app, IH.
Qed.

Lemma signature_counts_match_groups (m : Js.Object (list SignedOrder.t))
  (endpoints : list string) (raws : list RawApproval.t) :
  Forall2 (fun endpoint raw =>
             length (RawApproval.signatures raw) = length (groupOf m endpoint))
          endpoints raws ->
  list_sum (map (fun raw => length (RawApproval.signatures raw)) raws)
  = length (List.concat (map (groupOf m) endpoints)).
Proof.
  induction 1 as [|endpoint raw endpoints raws Hlen _ IH]; simpl; [reflexivity|].
  now rewrite length_app, IH, Hlen.
Qed.

(** C6, as stated, fails: the only server asked approves, for the single order
    of its group, with two signatures; the call succeeds with two signatures
    although one order of the batch needed an approval. *)
Lemma signature_count_differs_from_order_count :
  existsb Response.isError [allApproveTwice "https://x.example"] = false /\
  snd (_getCoordinatorApprovalsAsync doubleApproval [orderA; orderC] transaction0 start)
    = inr (Approvals.mk ["0xaa"; "0xab"]
             [Timestamp 1600000000; Timestamp 1600000000] transaction0) /\
  coordinatorOrders doubleApproval [orderA; orderC] = [orderA] /\
  length ["0xaa"; "0xab"] <> length (coordinatorOrders doubleApproval [orderA; orderC]).
Proof.
  split; [reflexivity|]. split; [reflexivity|]. split; [reflexivity|].
  intros H. discriminate H.
Qed.

(** C6, amended. When the registry and every server have answered and every
    answer is an approval with a body, the call succeeds; its signature list
    is the signature lists of the servers one after the other, in the order
    of [Object.keys], its expiration list repeats each server's expiration
    once per signature of that server, and its length is the sum of the
    lengths of the servers' signature lists.  That length is the number of
    orders needing an approval when, in addition, the groups of the mapping
    hold exactly those orders and every server signs once per order of its
    group. *)
Theorem all_approved_concatenates_signatures {World} (ext : Collaborators World)
  (batch : list SignedOrder.t) (tx : SignedZeroExTransaction.t)
  (w0 w1 w2 : World) (tr : list Event)
  (m : Js.Object (list SignedOrder.t)) (resps : list Response.t)
  (raws : list RawApproval.t) :
  _mapServerEndpointsToOrdersAsync ext (coordinatorOrders ext batch) w0 = (w1, inr m) ->
  answered ext tx (SignedZeroExTransaction.signerAddress tx) (Js.keys m) w1 resps w2 ->
  Forall2 (fun r raw => Response.isError r = false /\ Response.body r = Some raw)
          resps raws ->
  let allSignatures := List.concat (map RawApproval.signatures raws) in
  let allExpirationTimes :=
    List.concat (map (fun raw => repeat (RawApproval.expirationTimeSeconds raw)
                                        (length (RawApproval.signatures raw))) raws) in
  snd (_getCoordinatorApprovalsAsync ext batch tx (State.mk w0 tr))
    = inr (Approvals.mk allSignatures allExpirationTimes tx) /\
  length allSignatures
    = list_sum (map (fun raw => length (RawApproval.signatures raw)) raws) /\
  (partitions m (coordinatorOrders ext batch) ->
   Forall2 (fun endpoint raw =>
              length (RawApproval.signatures raw) = length (groupOf m endpoint))
           (Js.keys m) raws ->
   length allSignatures = length (coordinatorOrders ext batch)).
Proof.
  intros Hmap Hans Hok allSignatures allExpirationTimes.
  destruct (formatAll_bodies resps raws Hok) as [Hfmt Hnone].
  destruct (refusing_empty resps Hnone) as [Href Happ].
  split; [|split].
  - rewrite (approvals_run_answered ext tx batch _ _ _ tr _ _ Hmap Hans).
    simpl. rewrite Href, Happ. unfold combineResponses, concatenateApprovals. simpl.
    rewrite Hfmt, !Js_flatten_arrays, !map_map. reflexivity.
  - apply length_concat_map.
  - intros Hpart Hcount. unfold allSignatures. rewrite length_concat_map.
    rewrite (signature_counts_match_groups m _ _ Hcount), <- Js_values_groups.
    now apply Permutation_length.
Qed.

Lemma all_approved_concatenates_signatures_witness :
  Forall2 (fun r raw => Response.isError r = false /\ Response.body r = Some raw)
    [allApprove "https://x.example"; allApprove "https://y.example"]
    [RawApproval.mk ["0xaa"] (Timestamp 1600000000);
     RawApproval.mk ["0xaa"] (Timestamp 1600000000)] /\
  snd (_getCoordinatorApprovalsAsync fullApproval [orderA; orderB; orderC]
         transaction0 start)
    = inr (Approvals.mk ["0xaa"; "0xaa"]
             [Timestamp 1600000000; Timestamp 1600000000] transaction0) /\
  length ["0xaa"; "0xaa"] = length (coordinatorOrders fullApproval [orderA; orderB; orderC]).
Proof.
  assert (Hok : Forall2 (fun r raw => Response.isError r = false
                                      /\ Response.body r = Some raw)
                  [allApprove "https://x.example"; allApprove "https://y.example"]
                  [RawApproval.mk ["0xaa"] (Timestamp 1600000000);
                   RawApproval.mk ["0xaa"] (Timestamp 1600000000)])
    by (repeat constructor).
  split; [exact Hok|].
  destruct (all_approved_concatenates_signatures fullApproval
              [orderA; orderB; orderC] transaction0 tt tt tt []
              (groupByEndpoint registry [orderA; orderB])
              [allApprove "https://x.example"; allApprove "https://y.example"]
              [RawApproval.mk ["0xaa"] (Timestamp 1600000000);
               RawApproval.mk ["0xaa"] (Timestamp 1600000000)])
    as (Hrun & _ & Hlen).
  - reflexivity.
  - repeat (econstructor; [reflexivity|]). constructor.
  - exact Hok.
  - split; [exact Hrun|]. apply Hlen.
    + apply Permutation_refl.
    + repeat constructor.
Defined.

(** ** The parameters of the exchange call *)

Lemma NoDup_map_injective {A B} (f : A -> B) (l : list A) :
  NoDup (map f l) ->
  forall x y, In x l -> In y l -> f x = f y -> x = y.
Proof.
  induction l as [|a l IH]; simpl; intros Hnd x y Hx Hy Hf; [contradiction|].
  inversion Hnd as [|b bs Hnotin Hnd']; subst.
  destruct Hx as [<-|Hx], Hy as [<-|Hy]; try reflexivity.
  - exfalso. apply Hnotin. rewrite Hf. now apply in_map.
  - exfalso. apply Hnotin. rewrite <- Hf. now apply in_map.
  - now apply IH.
Qed.

Lemma map_eq_injective_on {A B} (f : A -> B) (l1 l2 : list A) :
  (forall x y, In x l1 -> In y l2 -> f x = f y -> x = y) ->
  map f l1 = map f l2 -> l1 = l2.
Proof.
  revert l2. induction l1 as [|a l1 IH]; intros [|b l2] Hinj Heq;
    simpl in Heq; try discriminate; [reflexivity|].
  injection Heq as Hhead Htail. f_equal.
  - apply Hinj; simpl; auto.
  - apply IH; [|exact Htail]. intros x y Hx Hy. apply Hinj; simpl; auto.
Qed.

(** C10. For a quote that passes validation the call returns, leaving the
    outside untouched, parameters whose signatures are the signatures of the
    quote's orders position by position and whose orders are the optimised
    orders.  The two lists line up exactly when optimising leaves the sequence
    of signatures as it was: they do when the optimised orders are the orders
    of the quote, and when the signatures are pairwise distinct and optimising
    only rearranges the orders, they line up only if nothing was moved. *)
Theorem params_signatures_follow_quote_order {World} (ext : Collaborators World)
  (quote : SwapQuote.t) (opts : Opts.t) (s : State.t World) :
  isValidSwapQuote ext quote = true ->
  let optimized :=
    optimizeOrdersForMarketExchangeOperation ext (SwapQuote.orders quote)
                                             (SwapQuote.type quote) in
  exists info,
    getSmartContractParamsOrThrowAsync ext quote opts s = (s, inr info) /\
    Params.signatures (ParamsInfo.params info)
      = map SignedOrder.signature (SwapQuote.orders quote) /\
    (forall i, nth_error (Params.signatures (ParamsInfo.params info)) i
               = option_map SignedOrder.signature (nth_error (SwapQuote.orders quote) i)) /\
    Params.orders (ParamsInfo.params info) = optimized /\
    Params.type (ParamsInfo.params info) = SwapQuote.type quote /\
    (aligned (ParamsInfo.params info) <->
     map SignedOrder.signature optimized
       = map SignedOrder.signature (SwapQuote.orders quote)) /\
    (optimized = SwapQuote.orders quote -> aligned (ParamsInfo.params info)) /\
    (NoDup (map SignedOrder.signature (SwapQuote.orders quote)) ->
     Permutation optimized (SwapQuote.orders quote) ->
     aligned (ParamsInfo.params info) -> optimized = SwapQuote.orders quote).
Proof.
  intros Hvalid optimized.
  unfold getSmartContractParamsOrThrowAsync, bind, assert. rewrite Hvalid.
  assert (Honly : NoDup (map SignedOrder.signature (SwapQuote.orders quote)) ->
                  Permutation optimized (SwapQuote.orders quote) ->
                  map SignedOrder.signature optimized
                    = map SignedOrder.signature (SwapQuote.orders quote) ->
                  optimized = SwapQuote.orders quote).
  { intros Hnd Hperm Heq. apply (map_eq_injective_on SignedOrder.signature); [|exact Heq].
    intros x y Hx Hy. apply (NoDup_map_injective _ _ Hnd); [|exact Hy].
    exact (Permutation_in x Hperm Hx). }
  destruct quote as [orders feeOrders amount|orders feeOrders amount];
    simpl in *; eexists; (split; [reflexivity|]); unfold aligned; simpl;
    fold optimized;
    (repeat split; try assumption; try (intros; congruence);
     try (intros i; apply nth_error_map)).
Qed.

Lemma params_signatures_follow_quote_order_witness :
  isValidSwapQuote fullApproval quote0 = true /\
  exists info,
    getSmartContractParamsOrThrowAsync fullApproval quote0 opts0 start
      = (start, inr info) /\
    Params.signatures (ParamsInfo.params info) = ["0x5a"; "0x5b"] /\
    Params.orders (ParamsInfo.params info) = [orderA; orderB].
Proof.
  split; [reflexivity|].
  destruct (params_signatures_follow_quote_order fullApproval quote0 opts0 start
              eq_refl) as (info & Hrun & Hsigs & _ & Horders & _).
  exists info. split; [exact Hrun|]. split.
  - rewrite Hsigs. reflexivity.
  - rewrite Horders. reflexivity.
Defined.

(** An optimiser that reverses the orders leaves the signatures in the order
    of the quote, so the two lists of the parameters no longer line up. *)
Lemma reordered_orders_are_misaligned :
  exists info,
    getSmartContractParamsOrThrowAsync reordering quote0 opts0 start
      = (start, inr info) /\
    Params.orders (ParamsInfo.params info) = [orderB; orderA] /\
    Params.signatures (ParamsInfo.params info) = ["0x5a"; "0x5b"] /\
    ~ aligned (ParamsInfo.params info).
Proof.
  exists (ParamsInfo.mk (Params.MarketBuy [orderB; orderA] ["0x5a"; "0x5b"] 10)
            "0xe0" (Some (MethodAbi.mk "marketBuyOrders" []))).
  split; [reflexivity|]. split; [reflexivity|]. split; [reflexivity|].
  intros H. discriminate H.
Qed.

(** ** Signing the transaction *)

Lemma buildZeroExTransaction_ok {World} (ext : Collaborators World)
  (quote : SwapQuote.t) (opts : Opts.t) (taker : string) (w0 : World)
  (tr : list Event) :
  isValidSwapQuote ext quote = true ->
  Opts.takerAddress opts = Some taker ->
  isETHAddressHex ext taker = true ->
  exists data,
    buildZeroExTransaction ext quote opts (State.mk w0 tr) =
    (State.mk (fst (generatePseudoRandomSalt ext w0)) tr,
     inr (ZeroExTransaction.mk (snd (generatePseudoRandomSalt ext w0)) taker data
            (exchangeAddress ext), taker)).
Proof.
  intros Hvalid Htaker Hhex.
  unfold buildZeroExTransaction, getSmartContractParamsOrThrowAsync, bind, assert, local.
  rewrite Hvalid, Htaker. simpl. rewrite Hhex. simpl.
  destruct quote; simpl; destruct (generatePseudoRandomSalt ext w0);
    eexists; reflexivity.
Qed.

Lemma signatureRequests_app (xs ys : list Event) :
  signatureRequests (xs ++ ys) = signatureRequests xs ++ signatureRequests ys.
Proof. unfold signatureRequests. apply filter_app. Qed.

(** The revision at lines 171-234.  For a valid quote and a well-formed taker
    address whose contract code the node reports as [code]: when [code] is
    neither ['0x'] nor ['0x00'] the call returns the transaction with the
    signature [convertToSignatureWithType('0x00', SignatureType.Wallet)], the
    same for every transaction, and the only call made is the request for the
    code, so the provider is not asked to sign; when [code] is ['0x'] or
    ['0x00'] the provider is asked to sign that transaction for the taker and
    the call returns what the provider returns. *)
Theorem contract_taker_gets_wallet_marker {World} (ext : Collaborators World)
  (quote : SwapQuote.t) (opts : Opts.t) (taker code : string) (w0 w1 : World)
  (tr : list Event) :
  isValidSwapQuote ext quote = true ->
  Opts.takerAddress opts = Some taker ->
  isETHAddressHex ext taker = true ->
  getContractCodeAsync ext taker (fst (generatePseudoRandomSalt ext w0))
    = (w1, inr code) ->
  exists transaction,
    buildZeroExTransaction ext quote opts (State.mk w0 tr) =
      (State.mk (fst (generatePseudoRandomSalt ext w0)) tr, inr (transaction, taker)) /\
    ZeroExTransaction.signerAddress transaction = taker /\
    (code <> "0x" -> code <> "0x00" ->
     _getCoordinatorZeroExTransactionAsync ext quote opts (State.mk w0 tr) =
       (State.mk w1 (tr ++ [ContractCodeRequested taker]),
        inr (SignedZeroExTransaction.ofTransaction transaction
               (convertToSignatureWithType ext "0x00" Wallet))) /\
     signatureRequests
       (State.trace (fst (_getCoordinatorZeroExTransactionAsync ext quote opts
                            (State.mk w0 tr))))
     = signatureRequests tr) /\
    (code = "0x" \/ code = "0x00" ->
     _getCoordinatorZeroExTransactionAsync ext quote opts (State.mk w0 tr) =
       (State.mk (fst (ecSignTransactionAsync ext transaction taker w1))
          (tr ++ [ContractCodeRequested taker; SignatureRequested transaction taker]),
        match snd (ecSignTransactionAsync ext transaction taker w1) with
        | inl message => inl (JsError message)
        | inr signed => inr signed
        end)).
Proof.
  intros Hvalid Htaker Hhex Hcode.
  destruct (buildZeroExTransaction_ok ext quote opts taker w0 tr Hvalid Htaker Hhex)
    as [data Hbuild].
  eexists. split; [exact Hbuild|]. split; [reflexivity|].
  unfold _getCoordinatorZeroExTransactionAsync, bind. rewrite Hbuild.
  unfold await. simpl. rewrite Hcode. split.
  - intros H1 H2. apply String.eqb_neq in H1, H2. rewrite H1, H2. simpl.
    split; [reflexivity|].
    rewrite signatureRequests_app. simpl. apply app_nil_r.
  - intros Hplain.
    assert (E : String.eqb code "0x" || String.eqb code "0x00" = true).
    { destruct Hplain as [-> | ->]; reflexivity. }
    rewrite E. simpl.
    destruct (ecSignTransactionAsync ext _ taker w1) as [w2 r]. simpl.
    now rewrite <- app_assoc.
Qed.

Lemma contract_taker_gets_wallet_marker_witness :
  getContractCodeAsync contractTaker "0x7a"
    (fst (generatePseudoRandomSalt contractTaker tt)) = (tt, inr "0x6080") /\
  _getCoordinatorZeroExTransactionAsync contractTaker quote0 opts0 start =
    (State.mk tt [ContractCodeRequested "0x7a"],
     inr (SignedZeroExTransaction.mk 42 "0x7a" "0xb0" "0xe0" "0x0004")).
Proof.
  split; [reflexivity|].
  destruct (contract_taker_gets_wallet_marker contractTaker quote0 opts0
              "0x7a" "0x6080" tt tt [] eq_refl eq_refl eq_refl eq_refl)
    as (transaction & Hbuild & _ & Hmarker & _).
  injection Hbuild as <-.
  refine (proj1 (Hmarker _ _)); intros H; discriminate H.
Defined.

(** The other revision has no probe: with the same taker, whatever code the
    node would report, the provider is asked to sign. *)
Lemma provider_only_revision_always_signs {World} (ext : Collaborators World)
  (quote : SwapQuote.t) (opts : Opts.t) (taker : string) (w0 : World)
  (tr : list Event) :
  isValidSwapQuote ext quote = true ->
  Opts.takerAddress opts = Some taker ->
  isETHAddressHex ext taker = true ->
  exists transaction,
    State.trace (fst (_getCoordinatorZeroExTransactionAsync_providerOnly ext quote opts
                        (State.mk w0 tr)))
    = tr ++ [SignatureRequested transaction taker].
Proof.
  intros Hvalid Htaker Hhex.
  destruct (buildZeroExTransaction_ok ext quote opts taker w0 tr Hvalid Htaker Hhex)
    as [data Hbuild].
  eexists. unfold _getCoordinatorZeroExTransactionAsync_providerOnly, bind.
  rewrite Hbuild. unfold await. simpl.
  destruct (ecSignTransactionAsync ext _ taker _). reflexivity.
Qed.

(** C9. A taker whose address holds contract code ([0x6080]), at the revision
    of lines 410-449: the node is not asked for the code, the provider is
    asked to sign, and the transaction returned carries the provider's
    signature, not the [Wallet] marker.  The revision of lines 171-234, given
    the same quote and taker, asks for the code, does not ask the provider and
    returns the marker. *)
Lemma contract_taker_is_sent_to_the_provider :
  getContractCodeAsync contractTaker "0x7a" tt = (tt, inr "0x6080") /\
  _getCoordinatorZeroExTransactionAsync_providerOnly contractTaker quote0 opts0 start =
    (State.mk tt
       [SignatureRequested (ZeroExTransaction.mk 42 "0x7a" "0xb0" "0xe0") "0x7a"],
     inr (SignedZeroExTransaction.mk 42 "0x7a" "0xb0" "0xe0" "0x1c03")) /\
  "0x1c03" <> convertToSignatureWithType contractTaker "0x00" Wallet /\
  _getCoordinatorZeroExTransactionAsync contractTaker quote0 opts0 start =
    (State.mk tt [ContractCodeRequested "0x7a"],
     inr (SignedZeroExTransaction.mk 42 "0x7a" "0xb0" "0xe0"
            (convertToSignatureWithType contractTaker "0x00" Wallet))).
Proof.
  split; [reflexivity|]. split; [reflexivity|]. split; [|reflexivity].
  intros H. discriminate H.
Qed.

(** ** The grouping of the specification meets what the theorems assume *)

Lemma Js_keys_distinct {V} (obj : Js.Object V) :
  NoDup (map fst obj) -> Js.keys obj = map fst obj.
Proof.
  induction obj as [|[k v] rest IH]; simpl; intros Hnd; [reflexivity|].
  inversion Hnd as [|x xs Hnotin Hnd']; subst.
  rewrite IH by assumption. f_equal.
  apply forallb_filter_id, forallb_forall. intros k' Hk'.
  apply negb_true_iff, String.eqb_neq. intros ->. contradiction.
Qed.

Lemma Js_values_distinct {V} (obj : Js.Object V) :
  NoDup (map fst obj) -> Js.values obj = map snd obj.
Proof.
  intros Hnd. unfold Js.values. rewrite (Js_keys_distinct obj Hnd).
  induction obj as [|[k v] rest IH]; simpl; [reflexivity|].
  inversion Hnd as [|x xs Hnotin Hnd']; subst.
  rewrite String.eqb_refl. simpl. f_equal.
  rewrite <- (IH Hnd'), !flat_map_concat_map. f_equal.
  apply map_ext_in. intros k' Hk'.
  destruct (String.eqb k k') eqn:E; [|reflexivity].
  apply String.eqb_eq in E. subst. contradiction.
Qed.

Lemma pushOrder_keys (endpoint : string) (o : SignedOrder.t)
  (obj : Js.Object (list SignedOrder.t)) :
  map fst (pushOrder endpoint o obj) =
  if existsb (String.eqb endpoint) (map fst obj)
  then map fst obj else map fst obj ++ [endpoint].
Proof.
  induction obj as [|[k v] rest IH]; simpl; [reflexivity|].
  rewrite (String.eqb_sym endpoint k).
  destruct (String.eqb k endpoint); simpl; [reflexivity|].
  rewrite IH. now destruct (existsb _ _).
Qed.

Lemma pushOrder_distinct (endpoint : string) (o : SignedOrder.t)
  (obj : Js.Object (list SignedOrder.t)) :
  NoDup (map fst obj) -> NoDup (map fst (pushOrder endpoint o obj)).
Proof.
  intros Hnd. rewrite pushOrder_keys.
  destruct (existsb (String.eqb endpoint) (map fst obj)) eqn:E; [exact Hnd|].
  apply NoDup_app; [exact Hnd | repeat constructor; intros [] |].
  intros k Hk [<-|[]].
  assert (Hex : existsb (String.eqb endpoint) (map fst obj) = true).
  { apply existsb_exists. exists endpoint. split; [exact Hk | apply String.eqb_refl]. }
  congruence.
Qed.

Lemma pushOrder_orders (endpoint : string) (o : SignedOrder.t)
  (obj : Js.Object (list SignedOrder.t)) :
  Permutation (List.concat (map snd (pushOrder endpoint o obj)))
              (List.concat (map snd obj) ++ [o]).
Proof.
  induction obj as [|[k v] rest IH]; simpl; [constructor; constructor|].
  destruct (String.eqb k endpoint); simpl.
  - rewrite <- !app_assoc. apply Permutation_app_head, Permutation_app_comm.
  - rewrite IH. now rewrite app_assoc.
Qed.

Lemma pushOrder_group (endpoint : string) (o : SignedOrder.t)
  (obj : Js.Object (list SignedOrder.t)) (k : string) :
  groupOf (pushOrder endpoint o obj) k =
  groupOf obj k ++ (if String.eqb endpoint k then [o] else []).
Proof.
  unfold groupOf. induction obj as [|[k' v] rest IH]; simpl.
  - now destruct (String.eqb endpoint k).
  - destruct (String.eqb k' endpoint) eqn:E; simpl.
    + apply String.eqb_eq in E. subst k'.
      destruct (String.eqb endpoint k); [reflexivity | now rewrite app_nil_r].
    + destruct (String.eqb k' k) eqn:E'; [|exact IH].
      apply String.eqb_eq in E'. subst k'.
      rewrite String.eqb_sym, E. now rewrite app_nil_r.
Qed.

Lemma groupByEndpoint_from (endpointOf : SignedOrder.t -> string)
  (orders : list SignedOrder.t) :
  forall obj,
    NoDup (map fst obj) ->
    let grouped := fold_left (fun acc o => pushOrder (endpointOf o) o acc) orders obj in
    NoDup (map fst grouped) /\
    Permutation (List.concat (map snd grouped)) (List.concat (map snd obj) ++ orders) /\
    forall k, groupOf grouped k
              = groupOf obj k ++ filter (fun o => String.eqb (endpointOf o) k) orders.
Proof.
  induction orders as [|o orders IH]; intros obj Hnd; simpl.
  - split; [exact Hnd|]. split; [now rewrite app_nil_r|].
    intros k. now rewrite app_nil_r.
  - destruct (IH (pushOrder (endpointOf o) o obj) (pushOrder_distinct _ _ _ Hnd))
      as (Hnd' & Hperm & Hgroup).
    split; [exact Hnd'|]. split.
    + rewrite Hperm, pushOrder_orders, <- app_assoc. reflexivity.
    + intros k. rewrite Hgroup, pushOrder_group, <- app_assoc.
      now destruct (String.eqb (endpointOf o) k).
Qed.

(** The grouping has pairwise distinct endpoints, holds exactly the orders it
    was given, and keeps under every endpoint the orders registered there in
    the order of the batch; given no orders it has no endpoints. *)
Lemma groupByEndpoint_partitions (endpointOf : SignedOrder.t -> string)
  (orders : list SignedOrder.t) :
  partitions (groupByEndpoint endpointOf orders) orders /\
  (forall k, groupOf (groupByEndpoint endpointOf orders) k
             = filter (fun o => String.eqb (endpointOf o) k) orders) /\
  Js.keys (groupByEndpoint endpointOf []) = [].
Proof.
  destruct (groupByEndpoint_from endpointOf orders [] (NoDup_nil _))
    as (Hnd & Hperm & Hgroup).
  split; [|split].
  - unfold partitions, groupByEndpoint. now rewrite (Js_values_distinct _ Hnd).
  - intros k. apply Hgroup.
  - reflexivity.
Qed.

(** With scripted collaborators every run is answered and attributed, so what
    the theorems above assume of the collaborators can be met for every batch. *)
Lemma scripted_answered (coordinator : string)
  (optimize : list SignedOrder.t -> MarketOperation -> list SignedOrder.t)
  (contractCode : string) (endpointOf : SignedOrder.t -> string)
  (respond : string -> Response.t) (tx : SignedZeroExTransaction.t)
  (origin : string) (endpoints : list string) :
  answered (scripted coordinator optimize contractCode endpointOf respond)
           tx origin endpoints tt (map respond endpoints) tt.
Proof.
  induction endpoints as [|endpoint rest IH]; simpl.
  - constructor.
  - econstructor; [reflexivity | exact IH].
Qed.

(** * Further properties of the class *)

(** ** When a server cannot be reached *)

Lemma requestApprovals_rejected {World} (ext : Collaborators World)
  (tx : SignedZeroExTransaction.t) (origin : string)
  (before : list string) (w w1 : World) (resps : list Response.t) :
  answered ext tx origin before w resps w1 ->
  forall endpoint after message w' errs apps tr,
    _executeServerRequestAsync ext tx origin endpoint w1 = (w', inl message) ->
    requestApprovals ext tx origin (before ++ endpoint :: after) errs apps
                     (State.mk w tr) =
    (State.mk w' (tr ++ map (ApprovalRequested tx origin) (before ++ [endpoint])),
     inl (JsError message)).
Proof.
  induction 1 as [w|e rest w wa wb resp resps Hcall _ IH];
    intros endpoint after message w' errs apps tr Hrej.
  - simpl. unfold bind, await. simpl. now rewrite Hrej.
  - simpl. unfold bind, await. simpl. rewrite Hcall.
    destruct (Response.isError resp);
      rewrite (IH endpoint after message w' _ _ _ Hrej), <- app_assoc; reflexivity.
Qed.

Lemma distinct_parts_disjoint {A} (front back : list A) (x : A)
  (Hdistinct : NoDup (front ++ back)) (Hfront : In x front) : ~ In x back.
Proof.
  induction front as [|a front IH]; simpl in *; [contradiction|].
  inversion Hdistinct as [|b bs Hnotin Hrest]; subst.
  destruct Hfront as [->|Hfront]; [|now apply IH].
  intros Hback. apply Hnotin, in_or_app. now right.
Qed.

(** X1. When the request to one endpoint rejects, the call throws that
    rejection as a plain error: the answers gathered before it, refusals
    included, are dropped, and the endpoints after it are never asked. *)
Theorem rejected_request_discards_the_answers {World} (ext : Collaborators World)
  (batch : list SignedOrder.t) (tx : SignedZeroExTransaction.t)
  (w0 w1 w3 : World) (tr : list Event) (m : Js.Object (list SignedOrder.t))
  (before after : list string) (endpoint message : string)
  (resps : list Response.t) :
  _mapServerEndpointsToOrdersAsync ext (coordinatorOrders ext batch) w0 = (w1, inr m) ->
  Js.keys m = before ++ endpoint :: after ->
  rejectedAt ext tx (SignedZeroExTransaction.signerAddress tx) before endpoint
             w1 resps message w3 ->
  _getCoordinatorApprovalsAsync ext batch tx (State.mk w0 tr) =
    (State.mk w3
       (tr ++ EndpointsRequested (coordinatorOrders ext batch)
           :: map (ApprovalRequested tx (SignedZeroExTransaction.signerAddress tx))
                  (before ++ [endpoint])),
     inl (JsError message)) /\
  forall later,
    In later after ->
    ~ In later
        (requestedEndpoints
           (State.trace (fst (_getCoordinatorApprovalsAsync ext batch tx
                                (State.mk w0 []))))).
Proof.
  intros Hmap Hkeys (w2 & Hans & Hrej).
  assert (Hrun : forall tr0,
    _getCoordinatorApprovalsAsync ext batch tx (State.mk w0 tr0) =
    (State.mk w3
       (tr0 ++ EndpointsRequested (coordinatorOrders ext batch)
            :: map (ApprovalRequested tx (SignedZeroExTransaction.signerAddress tx))
                   (before ++ [endpoint])),
     inl (JsError message))).
  { intros tr0. unfold _getCoordinatorApprovalsAsync, bind, await. simpl.
    rewrite Hmap, Hkeys.
    rewrite (requestApprovals_rejected ext tx _ before w1 w2 resps Hans
               endpoint after message w3 _ _ _ Hrej).
    now rewrite <- app_assoc. }
  split; [apply Hrun|].
  intros later Hlater Hin. rewrite Hrun in Hin. simpl in Hin.
  rewrite requestedEndpoints_requests in Hin.
  assert (Hnd := Js_keys_NoDup m). rewrite Hkeys in Hnd.
  replace (before ++ endpoint :: after) with ((before ++ [endpoint]) ++ after) in Hnd
    by (now rewrite <- app_assoc).
  exact (distinct_parts_disjoint _ _ later Hnd Hin Hlater).
Qed.

Lemma rejected_request_discards_the_answers_witness :
  rejectedAt yUnreachable transaction0 "0x7a" ["https://x.example"]
             "https://y.example" tt [refuse "https://x.example"] "ECONNREFUSED" tt /\
  _getCoordinatorApprovalsAsync yUnreachable [orderA; orderB; orderC] transaction0 start =
    (State.mk tt
       [EndpointsRequested [orderA; orderB];
        ApprovalRequested transaction0 "0x7a" "https://x.example";
        ApprovalRequested transaction0 "0x7a" "https://y.example"],
     inl (JsError "ECONNREFUSED")).
Proof.
  assert (H : rejectedAt yUnreachable transaction0 "0x7a" ["https://x.example"]
                "https://y.example" tt [refuse "https://x.example"] "ECONNREFUSED" tt).
  { exists tt. split; [|reflexivity].
    econstructor; [reflexivity | constructor]. }
  split; [exact H|].
  exact (proj1 (rejected_request_discards_the_answers yUnreachable
                  [orderA; orderB; orderC] transaction0 tt tt tt []
                  (groupByEndpoint registry [orderA; orderB])
                  ["https://x.example"] [] "https://y.example" "ECONNREFUSED"
                  [refuse "https://x.example"] eq_refl eq_refl H)).
Defined.

(** ** What a caller can rely on when the structured error is thrown *)

Lemma requestApprovals_classified {World} (ext : Collaborators World)
  (tx : SignedZeroExTransaction.t) (origin : string) (endpoints : list string) :
  forall errs apps s s' errs' apps',
    requestApprovals ext tx origin endpoints errs apps s = (s', inr (errs', apps')) ->
    Forall (fun r => Response.isError r = true) errs ->
    Forall (fun r => Response.isError r = true) errs'.
Proof.
  induction endpoints as [|endpoint rest IH]; intros errs apps s s' errs' apps' Hrun Herrs.
  - simpl in Hrun. unfold ret in Hrun. now inversion Hrun; subst.
  - simpl in Hrun. unfold bind, await in Hrun.
    destruct (_executeServerRequestAsync ext tx origin endpoint (State.world s))
      as [w1 [msg|resp]]; [discriminate|].
    destruct (Response.isError resp) eqn:E.
    + apply (IH _ _ _ _ _ _ Hrun). apply Forall_app. split; [exact Herrs|].
      now constructor.
    + exact (IH _ _ _ _ _ _ Hrun Herrs).
Qed.

Lemma requestApprovals_throws_plain {World} (ext : Collaborators World)
  (tx : SignedZeroExTransaction.t) (origin : string) (endpoints : list string) :
  forall errs apps s s' e,
    requestApprovals ext tx origin endpoints errs apps s = (s', inl e) ->
    exists message, e = JsError message.
Proof.
  induction endpoints as [|endpoint rest IH]; intros errs apps s s' e Hrun.
  - discriminate Hrun.
  - simpl in Hrun. unfold bind, await in Hrun.
    destruct (_executeServerRequestAsync ext tx origin endpoint (State.world s))
      as [w1 [msg|resp]].
    + injection Hrun as _ <-. eauto.
    + destruct (Response.isError resp); exact (IH _ _ _ _ _ Hrun).
Qed.

Lemma formatAll_throws_plain (resps : list Response.t) (e : Thrown) :
  formatAll resps = inl e -> exists message, e = JsError message.
Proof.
  induction resps as [|r resps IH]; simpl; [discriminate|].
  destruct (Response.body r) as [raw|].
  - destruct (formatAll resps) as [e'|formatted]; [|discriminate].
    intros H. injection H as <-. now apply IH.
  - intros H. injection H as <-. eauto.
Qed.

(** X2. Whenever the call throws [CoordinatorServerError], its cancellations
    are empty, it lists at least one refusal, every refusal listed is a
    response flagged as an error, and its approved orders end with the orders
    of the batch whose sender is not the coordinator, in batch order. *)
Theorem thrown_server_error_is_well_formed {World} (ext : Collaborators World)
  (batch : list SignedOrder.t) (tx : SignedZeroExTransaction.t) (s : State.t World)
  (message : CoordinatorServerErrorMsg) (approvedOrders : list (option SignedOrder.t))
  (cancellations : list Cancellation.t) (errorsWithOrders : list ErrorWithOrders.t) :
  snd (_getCoordinatorApprovalsAsync ext batch tx s) =
    inl (CoordinatorServerError message approvedOrders cancellations errorsWithOrders) ->
  cancellations = [] /\
  errorsWithOrders <> [] /\
  Forall (fun e => Response.isError (ErrorWithOrders.response e) = true)
         errorsWithOrders /\
  exists fromServers,
    approvedOrders = fromServers ++ map Some (notCoordinatorOrders ext batch).
Proof.
  unfold _getCoordinatorApprovalsAsync, bind, await.
  destruct (_mapServerEndpointsToOrdersAsync ext (coordinatorOrders ext batch)
              (State.world s)) as [w1 [msg|m]]; simpl; [discriminate|].
  match goal with
  | |- context [requestApprovals ext tx ?o ?ks ?e ?a ?st] =>
      destruct (requestApprovals ext tx o ks e a st) as [s' [e'|[errs apps]]] eqn:Hloop
  end; simpl.
  { destruct (requestApprovals_throws_plain ext tx _ _ _ _ _ _ _ Hloop) as [msg ->].
    discriminate. }
  assert (Hflag := requestApprovals_classified ext tx _ _ _ _ _ _ _ _ Hloop
                     (Forall_nil _)).
  unfold combineResponses. destruct (Nat.eqb (length errs) 0) eqn:Hlen.
  - unfold concatenateApprovals.
    destruct (formatAll apps) as [e|formatted] eqn:Hfmt; simpl; [|discriminate].
    destruct (formatAll_throws_plain _ _ Hfmt) as [msg ->]. discriminate.
  - simpl. unfold fillFailed. intros H. inversion H; subst; clear H.
    split; [reflexivity|]. split.
    + destruct errs as [|r errs']; [discriminate Hlen|].
      unfold errorsWithOrdersOf. simpl. discriminate.
    + split.
      * unfold errorsWithOrdersOf. apply Forall_map. exact Hflag.
      * unfold approvedOrdersOf, Js.concat.
        rewrite Js_flatten_app, Js_flatten_elems. eauto.
Qed.

Lemma thrown_server_error_is_well_formed_witness :
  exists errorsWithOrders,
    snd (_getCoordinatorApprovalsAsync partialRefusal [orderA; orderB; orderC]
           transaction0 start) =
      inl (CoordinatorServerError FillFailed [Some orderA; Some orderC] []
             errorsWithOrders) /\
    errorsWithOrders <> [] /\
    Forall (fun e => Response.isError (ErrorWithOrders.response e) = true)
           errorsWithOrders.
Proof.
  eexists. split; [reflexivity|].
  destruct (thrown_server_error_is_well_formed partialRefusal
              [orderA; orderB; orderC] transaction0 start _ _ _ _ eq_refl)
    as (_ & Hne & Hflag & _).
  split; [exact Hne | exact Hflag].
Defined.

(** ** Responses the code does not expect *)

Lemma formatAll_missing_body (resps : list Response.t) :
  existsb (fun r => match Response.body r with None => true | Some _ => false end)
          resps = true ->
  exists message, formatAll resps = inl (JsError message).
Proof.
  induction resps as [|r resps IH]; simpl; [discriminate|].
  destruct (Response.body r) as [raw|]; simpl; [|eauto].
  intros H. destruct (IH H) as [msg ->]. eauto.
Qed.

(** X3. When every server answers without an error flag but one of the
    answers has no body, the call does not return: it throws a plain error,
    after every endpoint has been asked. *)
Theorem approval_without_body_throws {World} (ext : Collaborators World)
  (batch : list SignedOrder.t) (tx : SignedZeroExTransaction.t)
  (w0 w1 w2 : World) (tr : list Event)
  (m : Js.Object (list SignedOrder.t)) (resps : list Response.t) :
  _mapServerEndpointsToOrdersAsync ext (coordinatorOrders ext batch) w0 = (w1, inr m) ->
  answered ext tx (SignedZeroExTransaction.signerAddress tx) (Js.keys m) w1 resps w2 ->
  existsb Response.isError resps = false ->
  existsb (fun r => match Response.body r with None => true | Some _ => false end)
          resps = true ->
  exists message,
    _getCoordinatorApprovalsAsync ext batch tx (State.mk w0 tr) =
    (State.mk w2
       (tr ++ EndpointsRequested (coordinatorOrders ext batch)
           :: map (ApprovalRequested tx (SignedZeroExTransaction.signerAddress tx))
                  (Js.keys m)),
     inl (JsError message)).
Proof.
  intros Hmap Hans Hnone Hbody.
  rewrite (approvals_run_answered ext tx batch _ _ _ tr _ _ Hmap Hans).
  destruct (refusing_empty resps Hnone) as [-> ->].
  destruct (formatAll_missing_body resps Hbody) as [msg Hfmt].
  exists msg. unfold combineResponses, concatenateApprovals. simpl. now rewrite Hfmt.
Qed.

Lemma approval_without_body_throws_witness :
  existsb Response.isError
    [bodiless "https://x.example"; bodiless "https://y.example"] = false /\
  exists message,
    snd (_getCoordinatorApprovalsAsync bodilessApproval [orderA; orderB; orderC]
           transaction0 start) = inl (JsError message).
Proof.
  split; [reflexivity|].
  destruct (approval_without_body_throws bodilessApproval [orderA; orderB; orderC]
              transaction0 tt tt tt []
              (groupByEndpoint registry [orderA; orderB])
              [bodiless "https://x.example"; bodiless "https://y.example"])
    as [message Hrun].
  - reflexivity.
  - repeat (econstructor; [reflexivity|]). constructor.
  - reflexivity.
  - reflexivity.
  - exists message. unfold start. now rewrite Hrun.
Defined.

Lemma Js_flatten_In {A} (xs : list (Js.Nested A)) (a : A) :
  In (Js.Elem a) xs -> In a (Js.flatten xs).
Proof.
  intros Hin. unfold Js.flatten. apply in_flat_map.
  exists (Js.Elem a). split; [exact Hin | now left].
Qed.

(** X4. On the any-refused path a response whose [coordinatorOperator] is
    neither an endpoint of the mapping nor a name that objects inherit from
    [Object.prototype] is still listed: a refusal gets [undefined] as its
    orders, and an approval puts [undefined] among the approved orders. *)
Theorem unknown_operator_leaves_orders_undefined {World} (ext : Collaborators World)
  (batch : list SignedOrder.t) (tx : SignedZeroExTransaction.t)
  (w0 w1 w2 : World) (tr : list Event)
  (m : Js.Object (list SignedOrder.t)) (resps : list Response.t) :
  _mapServerEndpointsToOrdersAsync ext (coordinatorOrders ext batch) w0 = (w1, inr m) ->
  answered ext tx (SignedZeroExTransaction.signerAddress tx) (Js.keys m) w1 resps w2 ->
  existsb Response.isError resps = true ->
  exists approvedOrders errorsWithOrders,
    snd (_getCoordinatorApprovalsAsync ext batch tx (State.mk w0 tr)) =
      inl (CoordinatorServerError FillFailed approvedOrders [] errorsWithOrders) /\
    (forall r, In r resps -> Response.isError r = true ->
               ~ In (Response.coordinatorOperator r) (Js.keys m) ->
               ~ In (Response.coordinatorOperator r) objectPrototypeNames ->
               In (ErrorWithOrders.mk r None) errorsWithOrders) /\
    (forall r, In r resps -> Response.isError r = false ->
               ~ In (Response.coordinatorOperator r) (Js.keys m) ->
               ~ In (Response.coordinatorOperator r) objectPrototypeNames ->
               In None approvedOrders).
Proof.
  intros Hmap Hans Herr.
  assert (Hnone : forall r, ~ In (Response.coordinatorOperator r) (Js.keys m) ->
                            Js.get m (Response.coordinatorOperator r) = None).
  { intros r Hkey.
    destruct (Js.get m (Response.coordinatorOperator r)) as [v|] eqn:E;
      [|reflexivity].
    exfalso. apply Hkey. apply Js_get_some_iff_key. eauto. }
  rewrite (refused_run ext batch tx w0 w1 w2 tr m resps Hmap Hans Herr).
  unfold fillFailed. do 2 eexists. split; [reflexivity|]. split.
  - intros r Hr Hflag Hkey _. unfold errorsWithOrdersOf. apply in_map_iff.
    exists r. split.
    + unfold ordersOf. now rewrite (Hnone r Hkey).
    + apply filter_In. now split.
  - intros r Hr Hflag Hkey _. unfold approvedOrdersOf, Js.concat.
    apply Js_flatten_In, in_or_app. left. apply in_map_iff.
    exists r. split.
    + unfold ordersOf. now rewrite (Hnone r Hkey).
    + apply filter_In. split; [exact Hr | now rewrite Hflag].
Qed.

Lemma unknown_operator_leaves_orders_undefined_witness :
  ~ In "https://elsewhere.example" objectPrototypeNames /\
  snd (_getCoordinatorApprovalsAsync strangers [orderA; orderB; orderC]
         transaction0 start) =
    inl (CoordinatorServerError FillFailed [None; Some orderC] []
           [ErrorWithOrders.mk (refuse "https://nowhere.example") None]) /\
  exists approvedOrders errorsWithOrders,
    snd (_getCoordinatorApprovalsAsync strangers [orderA; orderB; orderC]
           transaction0 start) =
      inl (CoordinatorServerError FillFailed approvedOrders [] errorsWithOrders) /\
    In None approvedOrders.
Proof.
  assert (Hplain : ~ In "https://elsewhere.example" objectPrototypeNames).
  { intros H. simpl in H.
    repeat (destruct H as [H|H]; [discriminate H|]). exact H. }
  split; [exact Hplain|]. split; [reflexivity|].
  destruct (unknown_operator_leaves_orders_undefined strangers
              [orderA; orderB; orderC] transaction0 tt tt tt []
              (groupByEndpoint registry [orderA; orderB])
              [misattributed "https://x.example"; misattributed "https://y.example"])
    as (approved & errors & Hrun & _ & Happ).
  - reflexivity.
  - repeat (econstructor; [reflexivity|]). constructor.
  - reflexivity.
  - exists approved, errors. split; [exact Hrun|].
    apply (Happ (misattributed "https://x.example")).
    + now left.
    + reflexivity.
    + intros H. simpl in H. repeat (destruct H as [H|H]; [discriminate H|]). exact H.
    + exact Hplain.
Defined.

(** ** Which expiration goes with which signature *)

Lemma combine_parts {A B} (xs xs' : list A) (ys ys' : list B)
  (Hsame : length xs = length ys) :
  combine (xs ++ xs') (ys ++ ys') = combine xs ys ++ combine xs' ys'.
Proof.
  revert ys Hsame. induction xs as [|x xs IH]; intros [|y ys] Hsame;
    simpl in *; try discriminate; [reflexivity|].
  f_equal. apply IH. now injection Hsame.
Qed.

Lemma combine_with_repeated {A B} (xs : list A) (b : B) :
  combine xs (repeat b (length xs)) = map (fun x => (x, b)) xs.
Proof. induction xs as [|x xs IH]; simpl; [reflexivity | now rewrite IH]. Qed.

Lemma formatted_pairs (raws : list RawApproval.t) :
  combine
    (List.concat (map (fun raw => Approval.signatures (formatRawResponse raw)) raws))
    (List.concat (map (fun raw => Approval.expirationTimeSeconds (formatRawResponse raw))
                      raws))
  = pairedWithOwnExpiration raws.
Proof.
  unfold pairedWithOwnExpiration, formatRawResponse, Js.concat, Js.fill. simpl.
  induction raws as [|raw raws IH]; simpl; [reflexivity|].
  rewrite combine_parts by (now rewrite repeat_length).
  now rewrite IH, combine_with_repeated.
Qed.

(** X5. When every server approves with a body, the call returns the
    transaction it was given, and the i-th aggregated expiration is the
    expiration sent by the server that gave the i-th aggregated signature. *)
Theorem signatures_keep_their_own_expiration {World} (ext : Collaborators World)
  (batch : list SignedOrder.t) (tx : SignedZeroExTransaction.t)
  (w0 w1 w2 : World) (tr : list Event)
  (m : Js.Object (list SignedOrder.t)) (resps : list Response.t)
  (raws : list RawApproval.t) :
  _mapServerEndpointsToOrdersAsync ext (coordinatorOrders ext batch) w0 = (w1, inr m) ->
  answered ext tx (SignedZeroExTransaction.signerAddress tx) (Js.keys m) w1 resps w2 ->
  Forall2 (fun r raw => Response.isError r = false /\ Response.body r = Some raw)
          resps raws ->
  exists approvals,
    snd (_getCoordinatorApprovalsAsync ext batch tx (State.mk w0 tr)) = inr approvals /\
    combine (Approvals.coordinatorApprovalSignatures approvals)
            (Approvals.coordinatorExpirationTimes approvals)
      = pairedWithOwnExpiration raws /\
    Approvals.signedZeroExTransaction approvals = tx.
Proof.
  intros Hmap Hans Hok.
  destruct (formatAll_bodies resps raws Hok) as [Hfmt Hnone].
  destruct (refusing_empty resps Hnone) as [Href Happ].
  rewrite (approvals_run_answered ext tx batch _ _ _ tr _ _ Hmap Hans).
  simpl. rewrite Href, Happ. unfold combineResponses, concatenateApprovals. simpl.
  rewrite Hfmt. eexists. split; [reflexivity|]. simpl. split; [|reflexivity].
  rewrite !Js_flatten_arrays, !map_map. apply formatted_pairs.
Qed.

Lemma signatures_keep_their_own_expiration_witness :
  exists approvals,
    snd (_getCoordinatorApprovalsAsync fullApproval [orderA; orderB; orderC]
           transaction0 start) = inr approvals /\
    combine (Approvals.coordinatorApprovalSignatures approvals)
            (Approvals.coordinatorExpirationTimes approvals)
      = [("0xaa", Timestamp 1600000000); ("0xaa", Timestamp 1600000000)].
Proof.
  destruct (signatures_keep_their_own_expiration fullApproval
              [orderA; orderB; orderC] transaction0 tt tt tt []
              (groupByEndpoint registry [orderA; orderB])
              [allApprove "https://x.example"; allApprove "https://y.example"]
              [RawApproval.mk ["0xaa"] (Timestamp 1600000000);
               RawApproval.mk ["0xaa"] (Timestamp 1600000000)])
    as (approvals & Hrun & Hpairs & _).
  - reflexivity.
  - repeat (econstructor; [reflexivity|]). constructor.
  - repeat constructor.
  - exists approvals. split; [exact Hrun | exact Hpairs].
Defined.

(** ** Requests that are turned down before anything is asked *)

Lemma buildZeroExTransaction_refuses {World} (ext : Collaborators World)
  (quote : SwapQuote.t) (opts : Opts.t) (s : State.t World) :
  isValidSwapQuote ext quote = false \/
  Opts.takerAddress opts = None \/
  (exists a, Opts.takerAddress opts = Some a /\ isETHAddressHex ext a = false) ->
  exists message, buildZeroExTransaction ext quote opts s = (s, inl (JsError message)).
Proof.
  unfold buildZeroExTransaction, bind, assert.
  intros [Hq|[Ht|(a & Ht & Ha)]].
  - rewrite Hq. eexists. reflexivity.
  - destruct (isValidSwapQuote ext quote); [|eexists; reflexivity].
    simpl. rewrite Ht. eexists. reflexivity.
  - destruct (isValidSwapQuote ext quote); [|eexists; reflexivity].
    simpl. rewrite Ht, Ha. eexists. reflexivity.
Qed.

(** X6. A quote that fails validation, a missing taker address or one that is
    not a well-formed address makes the transaction builder of either
    revision, and with it [getCalldataOrThrowAsync] of either revision, throw
    a plain error with the outside untouched: no salt is drawn and no node,
    provider, registry or server is asked. *)
Theorem ill_formed_request_asks_nobody {World} (ext : Collaborators World)
  (imp : Imports World) (quote : SwapQuote.t) (opts : Opts.t) (s : State.t World) :
  isValidSwapQuote ext quote = false \/
  Opts.takerAddress opts = None \/
  (exists a, Opts.takerAddress opts = Some a /\ isETHAddressHex ext a = false) ->
  (exists message,
     _getCoordinatorZeroExTransactionAsync ext quote opts s
     = (s, inl (JsError message))) /\
  (exists message,
     _getCoordinatorZeroExTransactionAsync_providerOnly ext quote opts s
     = (s, inl (JsError message))) /\
  (exists message,
     getCalldataOrThrowAsync ext imp quote opts s = (s, inl (JsError message))) /\
  (exists message,
     getCalldataOrThrowAsync_providerOnly ext imp quote opts s
     = (s, inl (JsError message))).
Proof.
  intros Hbad.
  destruct (buildZeroExTransaction_refuses ext quote opts s Hbad) as [msg Hbuild].
  repeat split; exists msg;
    unfold getCalldataOrThrowAsync, getCalldataOrThrowAsync_providerOnly,
           _getCoordinatorZeroExTransactionAsync,
           _getCoordinatorZeroExTransactionAsync_providerOnly, bind;
    now rewrite Hbuild.
Qed.

Lemma ill_formed_request_asks_nobody_witness :
  exists message,
    getCalldataOrThrowAsync_providerOnly fullApproval settles quote0 (Opts.mk None) start
    = (start, inl (JsError message)).
Proof.
  exact (proj2 (proj2 (proj2
           (ill_formed_request_asks_nobody fullApproval settles quote0 (Opts.mk None)
              start (or_intror (or_introl eq_refl)))))).
Defined.

(** ** Building the calldata *)

Lemma buildZeroExTransaction_exact {World} (ext : Collaborators World)
  (quote : SwapQuote.t) (opts : Opts.t) (taker : string) (w0 : World)
  (tr : list Event) :
  isValidSwapQuote ext quote = true ->
  Opts.takerAddress opts = Some taker ->
  isETHAddressHex ext taker = true ->
  buildZeroExTransaction ext quote opts (State.mk w0 tr) =
  (State.mk (fst (generatePseudoRandomSalt ext w0)) tr,
   inr (unsignedTransaction ext quote taker w0, taker)).
Proof.
  intros Hvalid Htaker Hhex.
  unfold buildZeroExTransaction, getSmartContractParamsOrThrowAsync, bind, assert, local,
         unsignedTransaction, zeroExOperationOf.
  rewrite Hvalid, Htaker. simpl. rewrite Hhex. simpl.
  destruct quote; simpl; destruct (generatePseudoRandomSalt ext w0); reflexivity.
Qed.

Lemma providerOnly_signs {World} (ext : Collaborators World)
  (quote : SwapQuote.t) (opts : Opts.t) (taker : string) (w0 : World)
  (tr : list Event) :
  isValidSwapQuote ext quote = true ->
  Opts.takerAddress opts = Some taker ->
  isETHAddressHex ext taker = true ->
  let unsigned := unsignedTransaction ext quote taker w0 in
  let signing :=
    ecSignTransactionAsync ext unsigned taker (fst (generatePseudoRandomSalt ext w0)) in
  _getCoordinatorZeroExTransactionAsync_providerOnly ext quote opts (State.mk w0 tr) =
  (State.mk (fst signing) (tr ++ [SignatureRequested unsigned taker]),
   match snd signing with
   | inl message => inl (JsError message)
   | inr signed => inr signed
   end).
Proof.
  intros Hvalid Htaker Hhex unsigned signing.
  unfold _getCoordinatorZeroExTransactionAsync_providerOnly, bind.
  rewrite (buildZeroExTransaction_exact ext quote opts taker w0 tr Hvalid Htaker Hhex).
  unfold await. simpl. fold unsigned. fold signing. now destruct signing.
Qed.

Lemma params_run {World} (ext : Collaborators World)
  (quote : SwapQuote.t) (opts : Opts.t) (s : State.t World) :
  isValidSwapQuote ext quote = true ->
  exists info,
    getSmartContractParamsOrThrowAsync ext quote opts s = (s, inr info) /\
    ParamsInfo.methodAbi info = getMethodAbiFromContractAbi ext (methodNameOf quote).
Proof.
  intros Hvalid. unfold getSmartContractParamsOrThrowAsync, bind, assert.
  rewrite Hvalid. destruct quote; simpl; eexists; split; reflexivity.
Qed.

Lemma approved_run {World} (ext : Collaborators World)
  (batch : list SignedOrder.t) (tx : SignedZeroExTransaction.t)
  (w0 w1 w2 : World) (tr : list Event)
  (m : Js.Object (list SignedOrder.t)) (resps : list Response.t)
  (raws : list RawApproval.t) :
  _mapServerEndpointsToOrdersAsync ext (coordinatorOrders ext batch) w0 = (w1, inr m) ->
  answered ext tx (SignedZeroExTransaction.signerAddress tx) (Js.keys m) w1 resps w2 ->
  Forall2 (fun r raw => Response.isError r = false /\ Response.body r = Some raw)
          resps raws ->
  _getCoordinatorApprovalsAsync ext batch tx (State.mk w0 tr) =
  (State.mk w2
     (tr ++ EndpointsRequested (coordinatorOrders ext batch)
         :: map (ApprovalRequested tx (SignedZeroExTransaction.signerAddress tx))
                (Js.keys m)),
   inr (Approvals.mk
          (List.concat (map RawApproval.signatures raws))
          (List.concat (map (fun raw => repeat (RawApproval.expirationTimeSeconds raw)
                                               (length (RawApproval.signatures raw)))
                            raws))
          tx)).
Proof.
  intros Hmap Hans Hok.
  destruct (formatAll_bodies resps raws Hok) as [Hfmt Hnone].
  destruct (refusing_empty resps Hnone) as [Href Happ].
  rewrite (approvals_run_answered ext tx batch _ _ _ tr _ _ Hmap Hans).
  rewrite Href, Happ. unfold combineResponses, concatenateApprovals. simpl.
  now rewrite Hfmt, !Js_flatten_arrays, !map_map.
Qed.

Lemma refused_run_state {World} (ext : Collaborators World)
  (batch : list SignedOrder.t) (tx : SignedZeroExTransaction.t)
  (w0 w1 w2 : World) (tr : list Event)
  (m : Js.Object (list SignedOrder.t)) (resps : list Response.t) :
  _mapServerEndpointsToOrdersAsync ext (coordinatorOrders ext batch) w0 = (w1, inr m) ->
  answered ext tx (SignedZeroExTransaction.signerAddress tx) (Js.keys m) w1 resps w2 ->
  existsb Response.isError resps = true ->
  _getCoordinatorApprovalsAsync ext batch tx (State.mk w0 tr) =
  (State.mk w2
     (tr ++ EndpointsRequested (coordinatorOrders ext batch)
         :: map (ApprovalRequested tx (SignedZeroExTransaction.signerAddress tx))
                (Js.keys m)),
   inl (fillFailed ext batch m (refusing resps) (approving resps))).
Proof.
  intros Hmap Hans Herr.
  rewrite (approvals_run_answered ext tx batch _ _ _ tr _ _ Hmap Hans).
  unfold combineResponses. now rewrite (refusing_nonempty _ Herr).
Qed.

(** X7. [getCalldataOrThrowAsync] of the gathering revision, when the quote
    and taker are valid, the provider signs and every server approves with a
    body: the provider is asked first, then the registry, then each endpoint;
    the approvals are asked for the orders and the fee orders together; the
    calldata encodes the signed transaction, its signer, its signature and the
    aggregated expirations and signatures; the destination is the coordinator
    address, the method ABI is the one of [marketBuyOrders] or
    [marketSellOrders], and [ethAmount] is [undefined]. *)
Theorem calldata_of_an_approved_quote {World} (ext : Collaborators World)
  (imp : Imports World) (quote : SwapQuote.t) (opts : Opts.t) (taker : string)
  (w0 w1 w2 w3 : World) (tr : list Event) (signed : SignedZeroExTransaction.t)
  (m : Js.Object (list SignedOrder.t)) (resps : list Response.t)
  (raws : list RawApproval.t) :
  isValidSwapQuote ext quote = true ->
  Opts.takerAddress opts = Some taker ->
  isETHAddressHex ext taker = true ->
  ecSignTransactionAsync ext (unsignedTransaction ext quote taker w0) taker
    (fst (generatePseudoRandomSalt ext w0)) = (w1, inr signed) ->
  _mapServerEndpointsToOrdersAsync ext
    (coordinatorOrders ext (SwapQuote.orders quote ++ SwapQuote.feeOrders quote)) w1
    = (w2, inr m) ->
  answered ext signed (SignedZeroExTransaction.signerAddress signed) (Js.keys m)
           w2 resps w3 ->
  Forall2 (fun r raw => Response.isError r = false /\ Response.body r = Some raw)
          resps raws ->
  getCalldataOrThrowAsync_providerOnly ext imp quote opts (State.mk w0 tr) =
  (State.mk w3
     (tr ++ SignatureRequested (unsignedTransaction ext quote taker w0) taker
         :: EndpointsRequested
              (coordinatorOrders ext (SwapQuote.orders quote ++ SwapQuote.feeOrders quote))
         :: map (ApprovalRequested signed (SignedZeroExTransaction.signerAddress signed))
                (Js.keys m)),
   inr (CalldataInfo.mk
          (executeTransaction_getABIEncodedTransactionData imp signed
             (SignedZeroExTransaction.signerAddress signed)
             (SignedZeroExTransaction.signature signed)
             (List.concat
                (map (fun raw => repeat (RawApproval.expirationTimeSeconds raw)
                                        (length (RawApproval.signatures raw))) raws))
             (List.concat (map RawApproval.signatures raws)))
          (getMethodAbiFromContractAbi ext (methodNameOf quote))
          (coordinatorAddress ext)
          None)).
Proof.
  intros Hvalid Htaker Hhex Hsign Hmap Hans Hok.
  unfold getCalldataOrThrowAsync_providerOnly, bind.
  rewrite (providerOnly_signs ext quote opts taker w0 tr Hvalid Htaker Hhex).
  rewrite Hsign. simpl.
  destruct (params_run ext quote opts
              (State.mk w1 (tr ++ [SignatureRequested
                                     (unsignedTransaction ext quote taker w0) taker]))
              Hvalid) as (info & -> & Habi).
  rewrite (approved_run ext _ signed w1 w2 w3 _ m resps raws Hmap Hans Hok).
  unfold ret. rewrite Habi, <- app_assoc. reflexivity.
Qed.

Lemma calldata_of_an_approved_quote_witness :
  getCalldataOrThrowAsync_providerOnly fullApproval settles quote1 opts0 start =
  (State.mk tt
     [SignatureRequested (ZeroExTransaction.mk 42 "0x7a" "0xb0" "0xe0") "0x7a";
      EndpointsRequested [orderA; orderB];
      ApprovalRequested transaction0 "0x7a" "https://x.example";
      ApprovalRequested transaction0 "0x7a" "https://y.example"],
   inr (CalldataInfo.mk "0xca110x1c030xaa0xaa"
          (Some (MethodAbi.mk "marketBuyOrders" [])) coordinator0 None)).
Proof.
  refine (calldata_of_an_approved_quote fullApproval settles quote1 opts0 "0x7a"
            tt tt tt tt [] transaction0
            (groupByEndpoint registry [orderA; orderB])
            [allApprove "https://x.example"; allApprove "https://y.example"]
            [RawApproval.mk ["0xaa"] (Timestamp 1600000000);
             RawApproval.mk ["0xaa"] (Timestamp 1600000000)]
            eq_refl eq_refl eq_refl eq_refl eq_refl _ _).
  - repeat (econstructor; [reflexivity|]). constructor.
  - repeat constructor.
Defined.

(** X8. [getCalldataOrThrowAsync] of the gathering revision, when a server
    refuses: the provider has already been asked to sign, and what is thrown
    is the [CoordinatorServerError] of the approval step as it is, over the
    orders and fee orders together; no calldata is produced. *)
Theorem calldata_refusal_comes_after_signing {World} (ext : Collaborators World)
  (imp : Imports World) (quote : SwapQuote.t) (opts : Opts.t) (taker : string)
  (w0 w1 w2 w3 : World) (tr : list Event) (signed : SignedZeroExTransaction.t)
  (m : Js.Object (list SignedOrder.t)) (resps : list Response.t) :
  isValidSwapQuote ext quote = true ->
  Opts.takerAddress opts = Some taker ->
  isETHAddressHex ext taker = true ->
  ecSignTransactionAsync ext (unsignedTransaction ext quote taker w0) taker
    (fst (generatePseudoRandomSalt ext w0)) = (w1, inr signed) ->
  _mapServerEndpointsToOrdersAsync ext
    (coordinatorOrders ext (SwapQuote.orders quote ++ SwapQuote.feeOrders quote)) w1
    = (w2, inr m) ->
  answered ext signed (SignedZeroExTransaction.signerAddress signed) (Js.keys m)
           w2 resps w3 ->
  existsb Response.isError resps = true ->
  getCalldataOrThrowAsync_providerOnly ext imp quote opts (State.mk w0 tr) =
  (State.mk w3
     (tr ++ SignatureRequested (unsignedTransaction ext quote taker w0) taker
         :: EndpointsRequested
              (coordinatorOrders ext (SwapQuote.orders quote ++ SwapQuote.feeOrders quote))
         :: map (ApprovalRequested signed (SignedZeroExTransaction.signerAddress signed))
                (Js.keys m)),
   inl (CoordinatorServerError FillFailed
          (approvedOrdersOf ext (SwapQuote.orders quote ++ SwapQuote.feeOrders quote)
                            m (approving resps))
          []
          (errorsWithOrdersOf m (refusing resps)))).
Proof.
  intros Hvalid Htaker Hhex Hsign Hmap Hans Herr.
  unfold getCalldataOrThrowAsync_providerOnly, bind.
  rewrite (providerOnly_signs ext quote opts taker w0 tr Hvalid Htaker Hhex).
  rewrite Hsign. simpl.
  destruct (params_run ext quote opts
              (State.mk w1 (tr ++ [SignatureRequested
                                     (unsignedTransaction ext quote taker w0) taker]))
              Hvalid) as (info & -> & _).
  rewrite (refused_run_state ext _ signed w1 w2 w3 _ m resps Hmap Hans Herr).
  rewrite <- app_assoc. reflexivity.
Qed.

Lemma calldata_refusal_comes_after_signing_witness :
  getCalldataOrThrowAsync_providerOnly partialRefusal settles quote1 opts0 start =
  (State.mk tt
     [SignatureRequested (ZeroExTransaction.mk 42 "0x7a" "0xb0" "0xe0") "0x7a";
      EndpointsRequested [orderA; orderB];
      ApprovalRequested transaction0 "0x7a" "https://x.example";
      ApprovalRequested transaction0 "0x7a" "https://y.example"],
   inl (CoordinatorServerError FillFailed [Some orderA; Some orderC] []
          [ErrorWithOrders.mk (refuse "https://y.example") (Some [orderB])])).
Proof.
  refine (calldata_refusal_comes_after_signing partialRefusal settles quote1 opts0
            "0x7a" tt tt tt tt [] transaction0
            (groupByEndpoint registry [orderA; orderB])
            [xApprovesYRefuses "https://x.example";
             xApprovesYRefuses "https://y.example"]
            eq_refl eq_refl eq_refl eq_refl eq_refl _ eq_refl).
  repeat (econstructor; [reflexivity|]). constructor.
Defined.

(** ** Executing the quote *)

Section Execution.

Context {World : Type}.
Variable ext : Collaborators World.
Variable imp : Imports World.

Lemma checkExecutionOpts_cases (quote : SwapQuote.t) (opts : ExecutionOpts.t)
  (x : Session.t World) :
  checkExecutionOpts ext imp quote opts x = (x, inr tt) \/
  exists message, checkExecutionOpts ext imp quote opts x = (x, inl (JsError message)).
Proof.
  destruct x as [[w tr] cs].
  unfold checkExecutionOpts, bindX, liftX, assert, retX. simpl.
  destruct (isValidSwapQuote ext quote); simpl; [|right; eexists; reflexivity].
  destruct (ExecutionOpts.takerAddress opts) as [a|]; simpl;
    [destruct (isETHAddressHex ext a); simpl; [|right; eexists; reflexivity]|];
    (destruct (ExecutionOpts.gasLimit opts) as [g|]; simpl;
     [destruct (isNumber imp g); simpl; [|right; eexists; reflexivity]|]);
    (destruct (ExecutionOpts.gasPrice opts) as [p|]; simpl;
     [destruct (isBigNumber imp p); simpl; [|right; eexists; reflexivity]|]);
    left; reflexivity.
Qed.

Lemma checkExecutionOpts_passed (quote : SwapQuote.t) (opts : ExecutionOpts.t)
  (x : Session.t World) :
  snd (checkExecutionOpts ext imp quote opts x) = inr tt ->
  checkExecutionOpts ext imp quote opts x = (x, inr tt) /\
  isValidSwapQuote ext quote = true /\
  (forall a, ExecutionOpts.takerAddress opts = Some a -> isETHAddressHex ext a = true) /\
  (forall g, ExecutionOpts.gasLimit opts = Some g -> isNumber imp g = true) /\
  (forall p, ExecutionOpts.gasPrice opts = Some p -> isBigNumber imp p = true).
Proof.
  intros Hpass. split.
  { destruct (checkExecutionOpts_cases quote opts x) as [H|[msg H]]; [exact H|].
    rewrite H in Hpass. discriminate. }
  revert Hpass. destruct x as [[w tr] cs].
  unfold checkExecutionOpts, bindX, liftX, assert, retX. simpl.
  destruct (isValidSwapQuote ext quote); simpl; [|discriminate].
  destruct (ExecutionOpts.takerAddress opts) as [a|]; simpl;
    [destruct (isETHAddressHex ext a) eqn:Ea; simpl; [|discriminate]|];
    (destruct (ExecutionOpts.gasLimit opts) as [g|]; simpl;
     [destruct (isNumber imp g) eqn:Eg; simpl; [|discriminate]|]);
    (destruct (ExecutionOpts.gasPrice opts) as [p|]; simpl;
     [destruct (isBigNumber imp p) eqn:Ep; simpl; [|discriminate]|]);
    intros _; repeat split; intros ? H; inversion H; subst; assumption.
Qed.

Lemma callThenSend_run (a : ContractCall.args) (w : World) (tr : list Event)
  (cs : list ContractCall.t) :
  callThenSend imp a (Session.mk (State.mk w tr) cs) =
  match executeTransaction_callAsync imp a w with
  | (w1, inl message) =>
      (Session.mk (State.mk w1 tr) (cs ++ [ContractCall.Called a]),
       inl (JsError message))
  | (w1, inr _) =>
      match executeTransaction_sendTransactionAsync imp a w1 with
      | (w2, inl message) =>
          (Session.mk (State.mk w2 tr)
                      (cs ++ [ContractCall.Called a; ContractCall.Sent a]),
           inl (JsError message))
      | (w2, inr txHash) =>
          (Session.mk (State.mk w2 tr)
                      (cs ++ [ContractCall.Called a; ContractCall.Sent a]),
           inr txHash)
      end
  end.
Proof.
  unfold callThenSend, bindX, awaitContract, retX. simpl.
  destruct (executeTransaction_callAsync imp a w) as [w1 [msg|[]]]; [reflexivity|].
  simpl.
  destruct (executeTransaction_sendTransactionAsync imp a w1) as [w2 [msg|h]];
    simpl; rewrite <- app_assoc; reflexivity.
Qed.

Lemma argsOf_signer (signed : SignedZeroExTransaction.t)
  (expirations : list Expiration) (signatures : list string) :
  let a := argsOf signed expirations signatures in
  ContractCall.from a
    = SignedZeroExTransaction.signerAddress (ContractCall.transaction a) /\
  ContractCall.txOrigin a = ContractCall.from a /\
  ContractCall.transactionSignature a
    = SignedZeroExTransaction.signature (ContractCall.transaction a).
Proof. repeat split. Qed.

Lemma callThenSend_shape (signed : SignedZeroExTransaction.t)
  (expirations : list Expiration) (signatures : list string) (x : Session.t World) :
  let out := callThenSend imp (argsOf signed expirations signatures) x in
  exists added,
    Session.calls (fst out) = Session.calls x ++ added /\
    dryRunThenSend added (snd out).
Proof.
  destruct x as [[w tr] cs]. simpl. rewrite callThenSend_run.
  set (a := argsOf signed expirations signatures).
  destruct (argsOf_signer signed expirations signatures) as (H1 & H2 & H3).
  fold a in H1, H2, H3.
  destruct (executeTransaction_callAsync imp a w) as [w1 [msg|u]].
  - exists [ContractCall.Called a]. split; [reflexivity|].
    right. exists a. split; [exact H1|]. split; [exact H2|]. split; [exact H3|].
    left. split; [reflexivity | eexists; reflexivity].
  - destruct (executeTransaction_sendTransactionAsync imp a w1) as [w2 [msg|h]];
      exists [ContractCall.Called a; ContractCall.Sent a];
      (split; [reflexivity|]); right; exists a;
      (split; [exact H1|]); (split; [exact H2|]); (split; [exact H3|]); now right.
Qed.

Lemma tryCatch_shape (body : X World string) (x : Session.t World) :
  (exists added,
     Session.calls (fst (body x)) = Session.calls x ++ added /\
     dryRunThenSend added (snd (body x))) ->
  let out := tryCatch body (fun err => throwX (translateError imp err)) x in
  exists added,
    Session.calls (fst out) = Session.calls x ++ added /\
    dryRunThenSend added (snd out).
Proof.
  intros (added & Hcalls & Hshape). unfold tryCatch, throwX.
  destruct (body x) as [x' [err|h]]; simpl in *; exists added;
    (split; [exact Hcalls|]); [|exact Hshape].
  destruct Hshape as [[-> _] | (a & H1 & H2 & H3 & [[-> _] | ->])].
  - left. split; [reflexivity | eexists; reflexivity].
  - right. exists a. split; [exact H1|]. split; [exact H2|]. split; [exact H3|].
    left. split; [reflexivity | eexists; reflexivity].
  - right. exists a. split; [exact H1|]. split; [exact H2|]. split; [exact H3|].
    now right.
Qed.

Lemma submit_providerOnly_shape (quote : SwapQuote.t) (opts : ExecutionOpts.t)
  (x : Session.t World) :
  exists added,
    Session.calls (fst (submit_providerOnly ext imp quote opts x))
      = Session.calls x ++ added /\
    dryRunThenSend added (snd (submit_providerOnly ext imp quote opts x)).
Proof.
  unfold submit_providerOnly, bindX, liftX.
  destruct (_getCoordinatorZeroExTransactionAsync_providerOnly ext quote
              (ExecutionOpts.toOpts opts) (Session.state x)) as [s1 [e|signed]]; simpl.
  { exists []. rewrite app_nil_r. split; [reflexivity|]. left. split; [reflexivity | eexists; reflexivity]. }
  destruct (_getCoordinatorApprovalsAsync ext _ signed s1) as [s2 [e|approvals]]; simpl.
  { exists []. rewrite app_nil_r. split; [reflexivity|]. left. split; [reflexivity | eexists; reflexivity]. }
  apply (callThenSend_shape signed _ _ (Session.mk s2 (Session.calls x))).
Qed.

Lemma submit_shape (quote : SwapQuote.t) (opts : ExecutionOpts.t)
  (x : Session.t World) :
  exists added,
    Session.calls (fst (submit ext imp quote opts x)) = Session.calls x ++ added /\
    dryRunThenSend added (snd (submit ext imp quote opts x)).
Proof.
  unfold submit, bindX, liftX.
  destruct (_getCoordinatorZeroExTransactionAsync ext quote
              (ExecutionOpts.toOpts opts) (Session.state x)) as [s1 [e|signed]]; simpl.
  { exists []. rewrite app_nil_r. split; [reflexivity|]. left. split; [reflexivity | eexists; reflexivity]. }
  destruct (perform (getCoordinatorApprovalsAsync imp _ signed) s1)
    as [s2 [e|approvals]]; simpl.
  { exists []. rewrite app_nil_r. split; [reflexivity|]. left. split; [reflexivity | eexists; reflexivity]. }
  apply (callThenSend_shape signed _ _ (Session.mk s2 (Session.calls x))).
Qed.

(** X9. Whatever the collaborators do, one execution, in either revision,
    adds to the calls on the coordinator contract nothing, or one dry run, or
    one dry run followed by one transaction with the same arguments; the
    transaction is sent from the signer of the signed transaction; and a
    transaction hash is returned only in the last case. *)
Theorem execution_sends_at_most_once_after_a_dry_run (quote : SwapQuote.t)
  (opts : ExecutionOpts.t) (x : Session.t World) :
  (exists added,
     Session.calls (fst (executeSwapQuoteOrThrowAsync ext imp quote opts x))
       = Session.calls x ++ added /\
     dryRunThenSend added (snd (executeSwapQuoteOrThrowAsync ext imp quote opts x))) /\
  (exists added,
     Session.calls (fst (executeSwapQuoteOrThrowAsync_providerOnly ext imp quote opts x))
       = Session.calls x ++ added /\
     dryRunThenSend added
       (snd (executeSwapQuoteOrThrowAsync_providerOnly ext imp quote opts x))).
Proof.
  unfold executeSwapQuoteOrThrowAsync, executeSwapQuoteOrThrowAsync_providerOnly, bindX.
  destruct (checkExecutionOpts_cases quote opts x) as [->|[msg ->]].
  - split.
    + apply tryCatch_shape, submit_shape.
    + apply tryCatch_shape, submit_providerOnly_shape.
  - split; exists []; rewrite app_nil_r; (split; [reflexivity|]); left; (split; [reflexivity | eexists; reflexivity]).
Qed.

End Execution.

Lemma execute_providerOnly_run {World} (ext : Collaborators World)
  (imp : Imports World) (quote : SwapQuote.t) (opts : ExecutionOpts.t)
  (taker : string) (w0 w1 : World) (tr : list Event) (cs : list ContractCall.t)
  (signed : SignedZeroExTransaction.t) :
  snd (checkExecutionOpts ext imp quote opts (Session.mk (State.mk w0 tr) cs)) = inr tt ->
  ExecutionOpts.takerAddress opts = Some taker ->
  ecSignTransactionAsync ext (unsignedTransaction ext quote taker w0) taker
    (fst (generatePseudoRandomSalt ext w0)) = (w1, inr signed) ->
  executeSwapQuoteOrThrowAsync_providerOnly ext imp quote opts
    (Session.mk (State.mk w0 tr) cs) =
  match _getCoordinatorApprovalsAsync ext
          (SwapQuote.orders quote ++ SwapQuote.feeOrders quote) signed
          (State.mk w1 (tr ++ [SignatureRequested
                                 (unsignedTransaction ext quote taker w0) taker])) with
  | (s2, inl err) => (Session.mk s2 cs, inl (translateError imp err))
  | (s2, inr approvals) =>
      match callThenSend imp
              (argsOf signed (Approvals.coordinatorExpirationTimes approvals)
                      (Approvals.coordinatorApprovalSignatures approvals))
              (Session.mk s2 cs) with
      | (x', inl err) => (x', inl (translateError imp err))
      | (x', inr txHash) => (x', inr txHash)
      end
  end.
Proof.
  intros Hpass Htaker Hsign.
  destruct (checkExecutionOpts_passed ext imp quote opts _ Hpass)
    as (Hcheck & Hvalid & Hhex & _).
  unfold executeSwapQuoteOrThrowAsync_providerOnly, bindX. rewrite Hcheck.
  unfold tryCatch, submit_providerOnly, bindX, liftX, throwX. simpl.
  rewrite (providerOnly_signs ext quote (ExecutionOpts.toOpts opts) taker w0 tr
             Hvalid Htaker (Hhex taker Htaker)).
  rewrite Hsign. simpl.
  destruct (_getCoordinatorApprovalsAsync ext _ signed _) as [s2 [err|approvals]];
    simpl; [reflexivity|].
  destruct (callThenSend imp _ _) as [x' [err|h]]; reflexivity.
Qed.

(** X10. [executeSwapQuoteOrThrowAsync] of the gathering revision, when the
    options pass the checks, the provider signs, every server approves with a
    body and both contract methods resolve: it returns the hash given by
    [sendTransactionAsync], after a dry run with the same arguments; those are
    the signed transaction, its signer as [txOrigin] and as sender, its
    signature, and the aggregated expirations and signatures. *)
Theorem execution_of_an_approved_quote {World} (ext : Collaborators World)
  (imp : Imports World) (quote : SwapQuote.t) (opts : ExecutionOpts.t)
  (taker txHash : string) (w0 w1 w2 w3 w4 w5 : World) (tr : list Event)
  (cs : list ContractCall.t) (signed : SignedZeroExTransaction.t)
  (m : Js.Object (list SignedOrder.t)) (resps : list Response.t)
  (raws : list RawApproval.t) :
  snd (checkExecutionOpts ext imp quote opts (Session.mk (State.mk w0 tr) cs)) = inr tt ->
  ExecutionOpts.takerAddress opts = Some taker ->
  ecSignTransactionAsync ext (unsignedTransaction ext quote taker w0) taker
    (fst (generatePseudoRandomSalt ext w0)) = (w1, inr signed) ->
  _mapServerEndpointsToOrdersAsync ext
    (coordinatorOrders ext (SwapQuote.orders quote ++ SwapQuote.feeOrders quote)) w1
    = (w2, inr m) ->
  answered ext signed (SignedZeroExTransaction.signerAddress signed) (Js.keys m)
           w2 resps w3 ->
  Forall2 (fun r raw => Response.isError r = false /\ Response.body r = Some raw)
          resps raws ->
  let a :=
    argsOf signed
      (List.concat (map (fun raw => repeat (RawApproval.expirationTimeSeconds raw)
                                           (length (RawApproval.signatures raw))) raws))
      (List.concat (map RawApproval.signatures raws)) in
  executeTransaction_callAsync imp a w3 = (w4, inr tt) ->
  executeTransaction_sendTransactionAsync imp a w4 = (w5, inr txHash) ->
  executeSwapQuoteOrThrowAsync_providerOnly ext imp quote opts
    (Session.mk (State.mk w0 tr) cs) =
  (Session.mk
     (State.mk w5
        (tr ++ SignatureRequested (unsignedTransaction ext quote taker w0) taker
            :: EndpointsRequested
                 (coordinatorOrders ext
                    (SwapQuote.orders quote ++ SwapQuote.feeOrders quote))
            :: map (ApprovalRequested signed
                      (SignedZeroExTransaction.signerAddress signed)) (Js.keys m)))
     (cs ++ [ContractCall.Called a; ContractCall.Sent a]),
   inr txHash).
Proof.
  intros Hpass Htaker Hsign Hmap Hans Hok a Hcall Hsend.
  rewrite (execute_providerOnly_run ext imp quote opts taker w0 w1 tr cs signed
             Hpass Htaker Hsign).
  rewrite (approved_run ext _ signed w1 w2 w3 _ m resps raws Hmap Hans Hok).
  simpl. fold a. rewrite callThenSend_run, Hcall, Hsend, <- app_assoc. reflexivity.
Qed.

Lemma execution_of_an_approved_quote_witness :
  snd (executeSwapQuoteOrThrowAsync_providerOnly fullApproval settles quote1 execOpts0
         session0) = inr "0x7ea5" /\
  Session.calls (fst (executeSwapQuoteOrThrowAsync_providerOnly fullApproval settles
                        quote1 execOpts0 session0)) =
    [ContractCall.Called
       (argsOf transaction0 [Timestamp 1600000000; Timestamp 1600000000]
               ["0xaa"; "0xaa"]);
     ContractCall.Sent
       (argsOf transaction0 [Timestamp 1600000000; Timestamp 1600000000]
               ["0xaa"; "0xaa"])].
Proof.
  assert (Hans : answered fullApproval transaction0 "0x7a"
                   ["https://x.example"; "https://y.example"] tt
                   [allApprove "https://x.example"; allApprove "https://y.example"] tt)
    by (repeat (econstructor; [reflexivity|]); constructor).
  assert (Hok : Forall2 (fun r raw => Response.isError r = false
                                      /\ Response.body r = Some raw)
                  [allApprove "https://x.example"; allApprove "https://y.example"]
                  [RawApproval.mk ["0xaa"] (Timestamp 1600000000);
                   RawApproval.mk ["0xaa"] (Timestamp 1600000000)])
    by (repeat constructor).
  assert (H := execution_of_an_approved_quote fullApproval settles quote1 execOpts0
            "0x7a" "0x7ea5" tt tt tt tt tt tt [] [] transaction0
            (groupByEndpoint registry [orderA; orderB]) _ _
            eq_refl eq_refl eq_refl eq_refl Hans Hok eq_refl eq_refl).
  unfold session0, start. rewrite H. split; reflexivity.
Defined.

(** X11. When the provider turns the signature request down with a message
    that contains ['SIGNATURE_REQUEST_DENIED'], execution throws a new error
    whose message is [SwapQuoteConsumerError.SignatureRequestDenied]; the
    registry, the servers and the contract are not asked. *)
Theorem denied_signature_is_reported_as_such {World} (ext : Collaborators World)
  (imp : Imports World) (quote : SwapQuote.t) (opts : ExecutionOpts.t)
  (taker message : string) (w0 w1 : World) (tr : list Event)
  (cs : list ContractCall.t) :
  snd (checkExecutionOpts ext imp quote opts (Session.mk (State.mk w0 tr) cs)) = inr tt ->
  ExecutionOpts.takerAddress opts = Some taker ->
  ecSignTransactionAsync ext (unsignedTransaction ext quote taker w0) taker
    (fst (generatePseudoRandomSalt ext w0)) = (w1, inl message) ->
  includes message "SIGNATURE_REQUEST_DENIED" = true ->
  executeSwapQuoteOrThrowAsync_providerOnly ext imp quote opts
    (Session.mk (State.mk w0 tr) cs) =
  (Session.mk
     (State.mk w1
        (tr ++ [SignatureRequested (unsignedTransaction ext quote taker w0) taker]))
     cs,
   inl (JsError (SignatureRequestDenied imp))).
Proof.
  intros Hpass Htaker Hsign Hdenied.
  destruct (checkExecutionOpts_passed ext imp quote opts _ Hpass)
    as (Hcheck & Hvalid & Hhex & _).
  unfold executeSwapQuoteOrThrowAsync_providerOnly, bindX. rewrite Hcheck.
  unfold tryCatch, submit_providerOnly, bindX, liftX, throwX. simpl.
  rewrite (providerOnly_signs ext quote (ExecutionOpts.toOpts opts) taker w0 tr
             Hvalid Htaker (Hhex taker Htaker)).
  rewrite Hsign. simpl. unfold translateError. simpl. now rewrite Hdenied.
Qed.

Lemma denied_signature_is_reported_as_such_witness :
  includes "MetaMask: SIGNATURE_REQUEST_DENIED by user" "SIGNATURE_REQUEST_DENIED" = true /\
  executeSwapQuoteOrThrowAsync_providerOnly denyingProvider settles quote1 execOpts0
    session0 =
  (Session.mk
     (State.mk tt [SignatureRequested (ZeroExTransaction.mk 42 "0x7a" "0xb0" "0xe0")
                                      "0x7a"]) [],
   inl (JsError "SIGNATURE_REQUEST_DENIED")).
Proof.
  split; [reflexivity|].
  exact (denied_signature_is_reported_as_such denyingProvider settles quote1 execOpts0
           "0x7a" "MetaMask: SIGNATURE_REQUEST_DENIED by user" tt tt [] []
           eq_refl eq_refl eq_refl eq_refl).
Defined.

(** X12. When the dry run rejects, nothing is sent: the contract log gains the
    dry run only, and what is thrown is the rejection as the [catch] block
    rewrites it; a message that contains [RevertReason.CompleteFillFailed]
    and not ['SIGNATURE_REQUEST_DENIED'] becomes a new error with the message
    [SwapQuoteConsumerError.TransactionValueTooLow]. *)
Theorem rejected_dry_run_sends_nothing {World} (ext : Collaborators World)
  (imp : Imports World) (quote : SwapQuote.t) (opts : ExecutionOpts.t)
  (taker message : string) (w0 w1 w2 w3 w4 : World) (tr : list Event)
  (cs : list ContractCall.t) (signed : SignedZeroExTransaction.t)
  (m : Js.Object (list SignedOrder.t)) (resps : list Response.t)
  (raws : list RawApproval.t) :
  snd (checkExecutionOpts ext imp quote opts (Session.mk (State.mk w0 tr) cs)) = inr tt ->
  ExecutionOpts.takerAddress opts = Some taker ->
  ecSignTransactionAsync ext (unsignedTransaction ext quote taker w0) taker
    (fst (generatePseudoRandomSalt ext w0)) = (w1, inr signed) ->
  _mapServerEndpointsToOrdersAsync ext
    (coordinatorOrders ext (SwapQuote.orders quote ++ SwapQuote.feeOrders quote)) w1
    = (w2, inr m) ->
  answered ext signed (SignedZeroExTransaction.signerAddress signed) (Js.keys m)
           w2 resps w3 ->
  Forall2 (fun r raw => Response.isError r = false /\ Response.body r = Some raw)
          resps raws ->
  let a :=
    argsOf signed
      (List.concat (map (fun raw => repeat (RawApproval.expirationTimeSeconds raw)
                                           (length (RawApproval.signatures raw))) raws))
      (List.concat (map RawApproval.signatures raws)) in
  executeTransaction_callAsync imp a w3 = (w4, inl message) ->
  let out :=
    executeSwapQuoteOrThrowAsync_providerOnly ext imp quote opts
      (Session.mk (State.mk w0 tr) cs) in
  Session.calls (fst out) = cs ++ [ContractCall.Called a] /\
  State.world (Session.state (fst out)) = w4 /\
  snd out = inl (translateError imp (JsError message)) /\
  (includes message "SIGNATURE_REQUEST_DENIED" = false ->
   includes message (CompleteFillFailed imp) = true ->
   snd out = inl (JsError (TransactionValueTooLow imp))).
Proof.
  intros Hpass Htaker Hsign Hmap Hans Hok a Hcall out.
  assert (Hout : out =
    (Session.mk
       (State.mk w4
          (tr ++ SignatureRequested (unsignedTransaction ext quote taker w0) taker
              :: EndpointsRequested
                   (coordinatorOrders ext
                      (SwapQuote.orders quote ++ SwapQuote.feeOrders quote))
              :: map (ApprovalRequested signed
                        (SignedZeroExTransaction.signerAddress signed)) (Js.keys m)))
       (cs ++ [ContractCall.Called a]),
     inl (translateError imp (JsError message)))).
  { unfold out.
    rewrite (execute_providerOnly_run ext imp quote opts taker w0 w1 tr cs signed
               Hpass Htaker Hsign).
    rewrite (approved_run ext _ signed w1 w2 w3 _ m resps raws Hmap Hans Hok).
    simpl. fold a. rewrite callThenSend_run, Hcall, <- app_assoc. reflexivity. }
  rewrite Hout. simpl. repeat split.
  intros Hnot Hfill. unfold translateError. simpl. now rewrite Hnot, Hfill.
Qed.

Lemma rejected_dry_run_sends_nothing_witness :
  let out :=
    executeSwapQuoteOrThrowAsync_providerOnly fullApproval reverts quote1 execOpts0
      session0 in
  Session.calls (fst out) =
    [ContractCall.Called
       (argsOf transaction0 [Timestamp 1600000000; Timestamp 1600000000]
               ["0xaa"; "0xaa"])] /\
  snd out = inl (JsError "TRANSACTION_VALUE_TOO_LOW").
Proof.
  assert (Hans : answered fullApproval transaction0 "0x7a"
                   ["https://x.example"; "https://y.example"] tt
                   [allApprove "https://x.example"; allApprove "https://y.example"] tt)
    by (repeat (econstructor; [reflexivity|]); constructor).
  assert (Hok : Forall2 (fun r raw => Response.isError r = false
                                      /\ Response.body r = Some raw)
                  [allApprove "https://x.example"; allApprove "https://y.example"]
                  [RawApproval.mk ["0xaa"] (Timestamp 1600000000);
                   RawApproval.mk ["0xaa"] (Timestamp 1600000000)])
    by (repeat constructor).
  destruct (rejected_dry_run_sends_nothing fullApproval reverts quote1 execOpts0
              "0x7a" "VM Exception: revert COMPLETE_FILL_FAILED" tt tt tt tt tt [] []
              transaction0 (groupByEndpoint registry [orderA; orderB]) _ _
              eq_refl eq_refl eq_refl eq_refl Hans Hok eq_refl)
    as (Hcalls & _ & _ & Hlow).
  split; [exact Hcalls | exact (Hlow eq_refl eq_refl)].
Defined.

(** X13. When a server refuses, execution makes no call on the contract and
    throws what the [catch] block makes of the [CoordinatorServerError]; when
    the message of that error contains neither ['SIGNATURE_REQUEST_DENIED']
    nor [RevertReason.CompleteFillFailed], it is the error itself, with its
    approved orders and its refusals. *)
Theorem refusal_reaches_the_caller_of_execute {World} (ext : Collaborators World)
  (imp : Imports World) (quote : SwapQuote.t) (opts : ExecutionOpts.t)
  (taker : string) (w0 w1 w2 w3 : World) (tr : list Event)
  (cs : list ContractCall.t) (signed : SignedZeroExTransaction.t)
  (m : Js.Object (list SignedOrder.t)) (resps : list Response.t) :
  snd (checkExecutionOpts ext imp quote opts (Session.mk (State.mk w0 tr) cs)) = inr tt ->
  ExecutionOpts.takerAddress opts = Some taker ->
  ecSignTransactionAsync ext (unsignedTransaction ext quote taker w0) taker
    (fst (generatePseudoRandomSalt ext w0)) = (w1, inr signed) ->
  _mapServerEndpointsToOrdersAsync ext
    (coordinatorOrders ext (SwapQuote.orders quote ++ SwapQuote.feeOrders quote)) w1
    = (w2, inr m) ->
  answered ext signed (SignedZeroExTransaction.signerAddress signed) (Js.keys m)
           w2 resps w3 ->
  existsb Response.isError resps = true ->
  let thrown :=
    CoordinatorServerError FillFailed
      (approvedOrdersOf ext (SwapQuote.orders quote ++ SwapQuote.feeOrders quote)
                        m (approving resps))
      []
      (errorsWithOrdersOf m (refusing resps)) in
  let out :=
    executeSwapQuoteOrThrowAsync_providerOnly ext imp quote opts
      (Session.mk (State.mk w0 tr) cs) in
  Session.calls (fst out) = cs /\
  snd out = inl (translateError imp thrown) /\
  (includes (messageText imp FillFailed) "SIGNATURE_REQUEST_DENIED" = false ->
   includes (messageText imp FillFailed) (CompleteFillFailed imp) = false ->
   snd out = inl thrown).
Proof.
  intros Hpass Htaker Hsign Hmap Hans Herr thrown out.
  assert (Hout : snd out = inl (translateError imp thrown)
                 /\ Session.calls (fst out) = cs).
  { unfold out.
    rewrite (execute_providerOnly_run ext imp quote opts taker w0 w1 tr cs signed
               Hpass Htaker Hsign).
    rewrite (refused_run_state ext _ signed w1 w2 w3 _ m resps Hmap Hans Herr).
    split; reflexivity. }
  destruct Hout as [Hthrown Hcalls]. split; [exact Hcalls|]. split; [exact Hthrown|].
  intros H1 H2. rewrite Hthrown. unfold translateError, thrown. simpl.
  now rewrite H1, H2.
Qed.

Lemma refusal_reaches_the_caller_of_execute_witness :
  let out :=
    executeSwapQuoteOrThrowAsync_providerOnly partialRefusal settles quote1 execOpts0
      session0 in
  Session.calls (fst out) = [] /\
  snd out =
    inl (CoordinatorServerError FillFailed [Some orderA; Some orderC] []
           [ErrorWithOrders.mk (refuse "https://y.example") (Some [orderB])]).
Proof.
  assert (Hans : answered partialRefusal transaction0 "0x7a"
                   ["https://x.example"; "https://y.example"] tt
                   [xApprovesYRefuses "https://x.example";
                    xApprovesYRefuses "https://y.example"] tt)
    by (repeat (econstructor; [reflexivity|]); constructor).
  destruct (refusal_reaches_the_caller_of_execute partialRefusal settles quote1
              execOpts0 "0x7a" tt tt tt tt [] [] transaction0
              (groupByEndpoint registry [orderA; orderB]) _
              eq_refl eq_refl eq_refl eq_refl Hans eq_refl)
    as (Hcalls & _ & Hsame).
  split; [exact Hcalls | exact (Hsame eq_refl eq_refl)].
Defined.

(** X14. The gas settings are checked and then not used: two executions that
    differ only in [gasLimit] and [gasPrice], both passing the checks, make
    the same calls and give the same result, in either revision. *)
Theorem gas_settings_are_not_passed_on {World} (ext : Collaborators World)
  (imp : Imports World) (quote : SwapQuote.t) (opts opts' : ExecutionOpts.t)
  (x : Session.t World) :
  ExecutionOpts.takerAddress opts = ExecutionOpts.takerAddress opts' ->
  snd (checkExecutionOpts ext imp quote opts x) = inr tt ->
  snd (checkExecutionOpts ext imp quote opts' x) = inr tt ->
  executeSwapQuoteOrThrowAsync ext imp quote opts x
    = executeSwapQuoteOrThrowAsync ext imp quote opts' x /\
  executeSwapQuoteOrThrowAsync_providerOnly ext imp quote opts x
    = executeSwapQuoteOrThrowAsync_providerOnly ext imp quote opts' x.
Proof.
  intros Htaker Hpass Hpass'.
  destruct (checkExecutionOpts_passed ext imp quote opts x Hpass) as (Hcheck & _).
  destruct (checkExecutionOpts_passed ext imp quote opts' x Hpass') as (Hcheck' & _).
  unfold executeSwapQuoteOrThrowAsync, executeSwapQuoteOrThrowAsync_providerOnly,
         bindX, submit, submit_providerOnly, ExecutionOpts.toOpts.
  now rewrite Hcheck, Hcheck', Htaker.
Qed.

Lemma gas_settings_are_not_passed_on_witness :
  executeSwapQuoteOrThrowAsync_providerOnly fullApproval settles quote1 execOpts0
    session0
  = executeSwapQuoteOrThrowAsync_providerOnly fullApproval settles quote1
      (ExecutionOpts.mk (Some "0x7a") None (Some 900%Z)) session0.
Proof.
  exact (proj2 (gas_settings_are_not_passed_on fullApproval settles quote1 execOpts0
                  (ExecutionOpts.mk (Some "0x7a") None (Some 900%Z)) session0
                  eq_refl eq_refl eq_refl)).
Defined.

(** X15. Execution, in either revision, throws and leaves everything as it
    was (no call out, no call on the contract) when the quote fails
    validation, when the taker address is missing or ill-formed, or when a gas
    setting fails its check.  A missing taker address passes the checks before
    the [try] and is only caught by the transaction builder. *)
Theorem ill_formed_execution_asks_nobody {World} (ext : Collaborators World)
  (imp : Imports World) (quote : SwapQuote.t) (opts : ExecutionOpts.t)
  (x : Session.t World) :
  isValidSwapQuote ext quote = false \/
  ExecutionOpts.takerAddress opts = None \/
  (exists a, ExecutionOpts.takerAddress opts = Some a /\ isETHAddressHex ext a = false) \/
  (exists g, ExecutionOpts.gasLimit opts = Some g /\ isNumber imp g = false) \/
  (exists p, ExecutionOpts.gasPrice opts = Some p /\ isBigNumber imp p = false) ->
  (exists err, executeSwapQuoteOrThrowAsync ext imp quote opts x = (x, inl err)) /\
  (exists err,
     executeSwapQuoteOrThrowAsync_providerOnly ext imp quote opts x = (x, inl err)).
Proof.
  intros Hbad.
  unfold executeSwapQuoteOrThrowAsync, executeSwapQuoteOrThrowAsync_providerOnly, bindX.
  destruct (checkExecutionOpts_cases ext imp quote opts x) as [Hcheck|[msg Hcheck]].
  - assert (Hpass : snd (checkExecutionOpts ext imp quote opts x) = inr tt)
      by now rewrite Hcheck.
    destruct (checkExecutionOpts_passed ext imp quote opts x Hpass)
      as (_ & Hvalid & Hhex & Hgas & Hprice).
    assert (Hnone : ExecutionOpts.takerAddress opts = None).
    { destruct Hbad as [H|[H|[(a & H & Ha)|[(g & H & Hg)|(p & H & Hp)]]]].
      - congruence.
      - exact H.
      - rewrite (Hhex a H) in Ha. discriminate.
      - rewrite (Hgas g H) in Hg. discriminate.
      - rewrite (Hprice p H) in Hp. discriminate. }
    destruct (buildZeroExTransaction_refuses ext quote (ExecutionOpts.toOpts opts)
                (Session.state x) (or_intror (or_introl Hnone))) as [msg Hbuild].
    rewrite Hcheck.
    unfold tryCatch, submit, submit_providerOnly, bindX, liftX, throwX,
           _getCoordinatorZeroExTransactionAsync,
           _getCoordinatorZeroExTransactionAsync_providerOnly, bind.
    rewrite Hbuild. destruct x as [s cs]. simpl. split; eexists; reflexivity.
  - rewrite Hcheck. split; eexists; reflexivity.
Qed.

Lemma ill_formed_execution_asks_nobody_witness :
  exists err,
    executeSwapQuoteOrThrowAsync_providerOnly fullApproval settles quote1
      (ExecutionOpts.mk None (Some 21000%Z) None) session0 = (session0, inl err).
Proof.
  exact (proj2 (ill_formed_execution_asks_nobody fullApproval settles quote1
                  (ExecutionOpts.mk None (Some 21000%Z) None) session0
                  (or_intror (or_introl eq_refl)))).
Defined.

(** ** A taker that is a contract, end to end *)

Lemma probing_marks_contract {World} (ext : Collaborators World)
  (quote : SwapQuote.t) (opts : Opts.t) (taker code : string) (w0 w1 : World)
  (tr : list Event) :
  isValidSwapQuote ext quote = true ->
  Opts.takerAddress opts = Some taker ->
  isETHAddressHex ext taker = true ->
  getContractCodeAsync ext taker (fst (generatePseudoRandomSalt ext w0))
    = (w1, inr code) ->
  code <> "0x" -> code <> "0x00" ->
  _getCoordinatorZeroExTransactionAsync ext quote opts (State.mk w0 tr) =
  (State.mk w1 (tr ++ [ContractCodeRequested taker]),
   inr (SignedZeroExTransaction.ofTransaction (unsignedTransaction ext quote taker w0)
          (convertToSignatureWithType ext "0x00" Wallet))).
Proof.
  intros Hvalid Htaker Hhex Hcode H1 H2.
  unfold _getCoordinatorZeroExTransactionAsync, bind.
  rewrite (buildZeroExTransaction_exact ext quote opts taker w0 tr Hvalid Htaker Hhex).
  unfold await. simpl. rewrite Hcode.
  apply String.eqb_neq in H1, H2. now rewrite H1, H2.
Qed.

(** X16. [executeSwapQuoteOrThrowAsync] of the probing revision for a taker
    with contract code, when the wrapper resolves with approvals and both
    contract methods resolve: the provider is never asked to sign; the dry run
    and the transaction carry the [Wallet] marker as the transaction's
    signature and the approvals of the wrapper, and are sent from the taker. *)
Theorem contract_taker_executes_without_signing {World} (ext : Collaborators World)
  (imp : Imports World) (quote : SwapQuote.t) (opts : ExecutionOpts.t)
  (taker code txHash : string) (w0 w1 w2 w3 w4 : World) (tr : list Event)
  (cs : list ContractCall.t) (approvals : WrapperApprovals.t) :
  snd (checkExecutionOpts ext imp quote opts (Session.mk (State.mk w0 tr) cs)) = inr tt ->
  ExecutionOpts.takerAddress opts = Some taker ->
  getContractCodeAsync ext taker (fst (generatePseudoRandomSalt ext w0))
    = (w1, inr code) ->
  code <> "0x" -> code <> "0x00" ->
  let signed :=
    SignedZeroExTransaction.ofTransaction (unsignedTransaction ext quote taker w0)
      (convertToSignatureWithType ext "0x00" Wallet) in
  getCoordinatorApprovalsAsync imp
    (SwapQuote.orders quote ++ SwapQuote.feeOrders quote) signed w1
    = (w2, inr approvals) ->
  let a :=
    argsOf signed (WrapperApprovals.coordinatorExpirationTimes approvals)
           (WrapperApprovals.coordinatorSignatures approvals) in
  executeTransaction_callAsync imp a w2 = (w3, inr tt) ->
  executeTransaction_sendTransactionAsync imp a w3 = (w4, inr txHash) ->
  executeSwapQuoteOrThrowAsync ext imp quote opts (Session.mk (State.mk w0 tr) cs) =
    (Session.mk (State.mk w4 (tr ++ [ContractCodeRequested taker]))
                (cs ++ [ContractCall.Called a; ContractCall.Sent a]),
     inr txHash) /\
  ContractCall.transactionSignature a = convertToSignatureWithType ext "0x00" Wallet /\
  ContractCall.from a = taker /\
  signatureRequests (tr ++ [ContractCodeRequested taker]) = signatureRequests tr.
Proof.
  intros Hpass Htaker Hcode H1 H2 signed Hwrap a Hcall Hsend.
  destruct (checkExecutionOpts_passed ext imp quote opts _ Hpass)
    as (Hcheck & Hvalid & Hhex & _).
  split; [|split; [reflexivity|split; [reflexivity|]]].
  - unfold executeSwapQuoteOrThrowAsync, bindX. rewrite Hcheck.
    unfold tryCatch, submit, bindX, liftX, throwX. simpl.
    rewrite (probing_marks_contract ext quote (ExecutionOpts.toOpts opts) taker code
               w0 w1 tr Hvalid Htaker (Hhex taker Htaker) Hcode H1 H2).
    fold signed. unfold perform. simpl. rewrite Hwrap. fold a.
    rewrite callThenSend_run, Hcall, Hsend. reflexivity.
  - rewrite signatureRequests_app. simpl. apply app_nil_r.
Qed.

Lemma contract_taker_executes_without_signing_witness :
  executeSwapQuoteOrThrowAsync contractTaker settles quote1 execOpts0 session0 =
  (Session.mk (State.mk tt [ContractCodeRequested "0x7a"])
     [ContractCall.Called
        (argsOf (SignedZeroExTransaction.mk 42 "0x7a" "0xb0" "0xe0" "0x0004")
                [Timestamp 1600000000] ["0xaa"]);
      ContractCall.Sent
        (argsOf (SignedZeroExTransaction.mk 42 "0x7a" "0xb0" "0xe0" "0x0004")
                [Timestamp 1600000000] ["0xaa"])],
   inr "0x7ea5").
Proof.
  refine (proj1 (contract_taker_executes_without_signing contractTaker settles quote1
                   execOpts0 "0x7a" "0x6080" "0x7ea5" tt tt tt tt tt [] []
                   (WrapperApprovals.mk ["0xaa"] [Timestamp 1600000000])
                   eq_refl eq_refl eq_refl _ _ eq_refl eq_refl eq_refl));
    intros H; discriminate H.
Defined.

(** X17. [getCalldataOrThrowAsync] of the probing revision for a taker with
    contract code: the provider is not asked to sign; when the wrapper throws,
    that error is thrown as it is; when it resolves, the calldata encodes the
    transaction with the [Wallet] marker as its signature and the wrapper's
    approvals, the destination is the coordinator address and [ethAmount] is
    [undefined]. *)
Theorem contract_taker_calldata {World} (ext : Collaborators World)
  (imp : Imports World) (quote : SwapQuote.t) (opts : Opts.t)
  (taker code : string) (w0 w1 : World) (tr : list Event) :
  isValidSwapQuote ext quote = true ->
  Opts.takerAddress opts = Some taker ->
  isETHAddressHex ext taker = true ->
  getContractCodeAsync ext taker (fst (generatePseudoRandomSalt ext w0))
    = (w1, inr code) ->
  code <> "0x" -> code <> "0x00" ->
  let signed :=
    SignedZeroExTransaction.ofTransaction (unsignedTransaction ext quote taker w0)
      (convertToSignatureWithType ext "0x00" Wallet) in
  let wrapped :=
    getCoordinatorApprovalsAsync imp
      (SwapQuote.orders quote ++ SwapQuote.feeOrders quote) signed w1 in
  getCalldataOrThrowAsync ext imp quote opts (State.mk w0 tr) =
  (State.mk (fst wrapped) (tr ++ [ContractCodeRequested taker]),
   match snd wrapped with
   | inl err => inl err
   | inr approvals =>
       inr (CalldataInfo.mk
              (executeTransaction_getABIEncodedTransactionData imp signed taker
                 (convertToSignatureWithType ext "0x00" Wallet)
                 (WrapperApprovals.coordinatorExpirationTimes approvals)
                 (WrapperApprovals.coordinatorSignatures approvals))
              (getMethodAbiFromContractAbi ext (methodNameOf quote))
              (coordinatorAddress ext)
              None)
   end).
Proof.
  intros Hvalid Htaker Hhex Hcode H1 H2 signed wrapped.
  unfold getCalldataOrThrowAsync, bind.
  rewrite (probing_marks_contract ext quote opts taker code w0 w1 tr
             Hvalid Htaker Hhex Hcode H1 H2).
  destruct (params_run ext quote opts (State.mk w1 (tr ++ [ContractCodeRequested taker]))
              Hvalid) as (info & -> & Habi).
  fold signed. unfold perform. simpl. fold wrapped.
  destruct wrapped as [w2 [err|approvals]]; simpl; [reflexivity|].
  unfold ret. now rewrite Habi.
Qed.

Lemma contract_taker_calldata_witness :
  getCalldataOrThrowAsync contractTaker settles quote1 opts0 start =
  (State.mk tt [ContractCodeRequested "0x7a"],
   inr (CalldataInfo.mk "0xca110x00040xaa"
          (Some (MethodAbi.mk "marketBuyOrders" [])) coordinator0 None)).
Proof.
  refine (contract_taker_calldata contractTaker settles quote1 opts0 "0x7a" "0x6080"
            tt tt [] eq_refl eq_refl eq_refl eq_refl _ _);
    intros H; discriminate H.
Defined.

(** ** The two revisions side by side *)

(** X18. For a taker without contract code (the node reports ['0x'] or
    ['0x00'] and is left as it was), the probing revision of
    [_getCoordinatorZeroExTransactionAsync] gives what the other revision
    gives, the provider's answer for the same transaction, and its log differs
    only by the request for the code made before the signature request. *)
Theorem plain_taker_is_signed_alike {World} (ext : Collaborators World)
  (quote : SwapQuote.t) (opts : Opts.t) (taker code : string) (w0 : World)
  (tr : list Event) :
  isValidSwapQuote ext quote = true ->
  Opts.takerAddress opts = Some taker ->
  isETHAddressHex ext taker = true ->
  getContractCodeAsync ext taker (fst (generatePseudoRandomSalt ext w0))
    = (fst (generatePseudoRandomSalt ext w0), inr code) ->
  code = "0x" \/ code = "0x00" ->
  let probing := _getCoordinatorZeroExTransactionAsync ext quote opts (State.mk w0 tr) in
  let other :=
    _getCoordinatorZeroExTransactionAsync_providerOnly ext quote opts (State.mk w0 tr) in
  let unsigned := unsignedTransaction ext quote taker w0 in
  snd probing = snd other /\
  State.world (fst probing) = State.world (fst other) /\
  State.trace (fst other) = tr ++ [SignatureRequested unsigned taker] /\
  State.trace (fst probing)
    = tr ++ [ContractCodeRequested taker; SignatureRequested unsigned taker].
Proof.
  intros Hvalid Htaker Hhex Hcode Hplain probing other unsigned.
  unfold other.
  rewrite (providerOnly_signs ext quote opts taker w0 tr Hvalid Htaker Hhex).
  unfold probing, _getCoordinatorZeroExTransactionAsync, bind.
  rewrite (buildZeroExTransaction_exact ext quote opts taker w0 tr Hvalid Htaker Hhex).
  unfold await. simpl. rewrite Hcode.
  assert (E : String.eqb code "0x" || String.eqb code "0x00" = true)
    by (destruct Hplain as [-> | ->]; reflexivity).
  rewrite E. simpl. fold unsigned.
  destruct (ecSignTransactionAsync ext unsigned taker _) as [w2 r]. simpl.
  rewrite <- app_assoc. repeat split.
Qed.

Lemma plain_taker_is_signed_alike_witness :
  snd (_getCoordinatorZeroExTransactionAsync fullApproval quote1 opts0 start)
  = snd (_getCoordinatorZeroExTransactionAsync_providerOnly fullApproval quote1 opts0
           start) /\
  State.trace (fst (_getCoordinatorZeroExTransactionAsync fullApproval quote1 opts0
                      start))
  = [ContractCodeRequested "0x7a";
     SignatureRequested (ZeroExTransaction.mk 42 "0x7a" "0xb0" "0xe0") "0x7a"].
Proof.
  destruct (plain_taker_is_signed_alike fullApproval quote1 opts0 "0x7a" "0x" tt []
              eq_refl eq_refl eq_refl eq_refl (or_introl eq_refl))
    as (Hsame & _ & _ & Htrace).
  split; [exact Hsame | exact Htrace].
Defined.

(** X19. The fee orders of a quote are not part of the transaction: two
    valid quotes of the same kind with the same orders and fill amount build
    the same unsigned transaction for the same taker, whatever their fee
    orders are. *)
Theorem fee_orders_are_not_in_the_transaction {World} (ext : Collaborators World)
  (orders feeOrders feeOrders' : list SignedOrder.t) (amount : Z)
  (opts : Opts.t) (taker : string) (w0 : World) (tr : list Event) :
  Opts.takerAddress opts = Some taker ->
  isETHAddressHex ext taker = true ->
  (isValidSwapQuote ext (SwapQuote.MarketBuy orders feeOrders amount) = true ->
   isValidSwapQuote ext (SwapQuote.MarketBuy orders feeOrders' amount) = true ->
   buildZeroExTransaction ext (SwapQuote.MarketBuy orders feeOrders amount) opts
                          (State.mk w0 tr)
   = buildZeroExTransaction ext (SwapQuote.MarketBuy orders feeOrders' amount) opts
                            (State.mk w0 tr)) /\
  (isValidSwapQuote ext (SwapQuote.MarketSell orders feeOrders amount) = true ->
   isValidSwapQuote ext (SwapQuote.MarketSell orders feeOrders' amount) = true ->
   buildZeroExTransaction ext (SwapQuote.MarketSell orders feeOrders amount) opts
                          (State.mk w0 tr)
   = buildZeroExTransaction ext (SwapQuote.MarketSell orders feeOrders' amount) opts
                            (State.mk w0 tr)).
Proof.
  intros Htaker Hhex. split; intros Hv Hv';
    rewrite (buildZeroExTransaction_exact ext _ opts taker w0 tr Hv Htaker Hhex),
            (buildZeroExTransaction_exact ext _ opts taker w0 tr Hv' Htaker Hhex);
    reflexivity.
Qed.

Lemma fee_orders_are_not_in_the_transaction_witness :
  buildZeroExTransaction fullApproval (SwapQuote.MarketBuy [orderA; orderC] [orderB] 10)
                         opts0 start
  = buildZeroExTransaction fullApproval (SwapQuote.MarketBuy [orderA; orderC] [] 10)
                           opts0 start.
Proof.
  exact (proj1 (fee_orders_are_not_in_the_transaction fullApproval [orderA; orderC]
                  [orderB] [] 10 opts0 "0x7a" tt [] eq_refl eq_refl)
           eq_refl eq_refl).
Defined.

(** ** Nothing is remembered between calls *)

(** X20. A second call asks again: when the registry and the servers answer
    both times, the approval requests of two calls in a row are the endpoints
    of the first mapping followed by the endpoints of the second, so an
    endpoint in both is asked twice. *)
Theorem approvals_are_asked_again_on_the_next_call {World} (ext : Collaborators World)
  (batch batch' : list SignedOrder.t) (tx tx' : SignedZeroExTransaction.t)
  (w0 w1 w2 w3 w4 : World)
  (m m' : Js.Object (list SignedOrder.t)) (resps resps' : list Response.t) :
  _mapServerEndpointsToOrdersAsync ext (coordinatorOrders ext batch) w0 = (w1, inr m) ->
  answered ext tx (SignedZeroExTransaction.signerAddress tx) (Js.keys m) w1 resps w2 ->
  _mapServerEndpointsToOrdersAsync ext (coordinatorOrders ext batch') w2 = (w3, inr m') ->
  answered ext tx' (SignedZeroExTransaction.signerAddress tx') (Js.keys m') w3 resps' w4 ->
  let first := _getCoordinatorApprovalsAsync ext batch tx (State.mk w0 []) in
  let second := _getCoordinatorApprovalsAsync ext batch' tx' (fst first) in
  State.world (fst second) = w4 /\
  requestedEndpoints (State.trace (fst second)) = Js.keys m ++ Js.keys m'.
Proof.
  intros Hmap Hans Hmap' Hans' first second. unfold second, first.
  rewrite (approvals_run_answered ext tx batch _ _ _ [] _ _ Hmap Hans). simpl.
  rewrite (approvals_run_answered ext tx' batch' _ _ _ _ _ _ Hmap' Hans'). simpl.
  split; [reflexivity|].
  rewrite requestedEndpoints_app. simpl.
  now rewrite !requestedEndpoints_requests.
Qed.

Lemma approvals_are_asked_again_on_the_next_call_witness :
  requestedEndpoints
    (State.trace
       (fst (_getCoordinatorApprovalsAsync fullApproval [orderA; orderB] transaction0
               (fst (_getCoordinatorApprovalsAsync fullApproval [orderA; orderB; orderC]
                       transaction0 start)))))
  = ["https://x.example"; "https://y.example";
     "https://x.example"; "https://y.example"].
Proof.
  assert (Hans : answered fullApproval transaction0 "0x7a"
                   ["https://x.example"; "https://y.example"] tt
                   [allApprove "https://x.example"; allApprove "https://y.example"] tt)
    by (repeat (econstructor; [reflexivity|]); constructor).
  exact (proj2 (approvals_are_asked_again_on_the_next_call fullApproval
                  [orderA; orderB; orderC] [orderA; orderB] transaction0 transaction0
                  tt tt tt tt tt
                  (groupByEndpoint registry [orderA; orderB])
                  (groupByEndpoint registry [orderA; orderB]) _ _
                  eq_refl Hans eq_refl Hans)).
Defined.
